(** * A RAG pipeline: index lifecycle, retrieval and generation

    Shallow embedding of [app/preprocessor.py], [app/loader.py],
    [app/embedder.py], [app/retriever.py], [app/pipeline.py] and the
    [/query] handler of [app/main.py].

    Python values are a small universe [pyval]; dictionaries are
    insertion-ordered association lists with unique keys; text is a list
    of Unicode code points.  Exceptions are values of [exn]; effectful
    code lives in a state-and-error monad over the outside world (disk,
    vector store, providers, clock) and the log. *)

From Stdlib Require Import Strings.String Strings.Ascii DecimalString.
From Stdlib Require Import List ZArith NArith Bool Lia Sorted.
From Stdlib Require Import Floats.PrimFloat.
From Stdlib Require Floats.SpecFloat Floats.FloatAxioms.
Import ListNotations.

Set Implicit Arguments.
Set Warnings "-register-all,-inexact-float".

(** ** Python values *)

(** A [str] is a sequence of code points. *)
Definition pystr : Type := list N.

Definition py (s : string) : pystr :=
  map N_of_ascii (list_ascii_of_string s).

Fixpoint str_eqb (a b : pystr) : bool :=
  match a, b with
  | [], [] => true
  | x :: a', y :: b' => N.eqb x y && str_eqb a' b'
  | _, _ => false
  end.

Inductive pyval : Type :=
| PNone
| PBool (b : bool)
| PInt (z : Z)
| PFloat (f : float)
| PStr (s : pystr)
| PList (l : list pyval)
| PDict (d : list (pystr * pyval)).

Definition pydict : Type := list (pystr * pyval).

(** [d.get(k)] as an option. *)
Fixpoint dict_get (k : pystr) (d : pydict) : option pyval :=
  match d with
  | [] => None
  | (k', v) :: d' => if str_eqb k k' then Some v else dict_get k d'
  end.

(** [d[k] = v]: an existing key keeps its position, a new key goes last. *)
Fixpoint dict_set (k : pystr) (v : pyval) (d : pydict) : pydict :=
  match d with
  | [] => [(k, v)]
  | (k', v') :: d' =>
      if str_eqb k k' then (k', v) :: d' else (k', v') :: dict_set k v d'
  end.

(** [d.update(m)], also the [**m] of a dict display. *)
Definition dict_update (d m : pydict) : pydict :=
  fold_left (fun acc kv => dict_set (fst kv) (snd kv) acc) m d.

(** [d.get(k, default)] *)
Definition dict_get_default (k : pystr) (default : pyval) (d : pydict) : pyval :=
  match dict_get k d with
  | Some v => v
  | None => default
  end.

(** Truth value of an object, as [if x:] and [not x] test it. *)
Definition py_truthy (v : pyval) : bool :=
  match v with
  | PNone => false
  | PBool b => b
  | PInt z => negb (Z.eqb z 0)
  | PFloat f => negb (PrimFloat.eqb f 0%float)
  | PStr s => negb (Nat.eqb (length s) 0)
  | PList l => negb (Nat.eqb (length l) 0)
  | PDict d => negb (Nat.eqb (length d) 0)
  end.

Definition py_type_name (v : pyval) : pystr :=
  match v with
  | PNone => py "NoneType"
  | PBool _ => py "bool"
  | PInt _ => py "int"
  | PFloat _ => py "float"
  | PStr _ => py "str"
  | PList _ => py "list"
  | PDict _ => py "dict"
  end.

(** ** Formatted text

    The value of an f-string is kept as the sequence of its pieces:
    number formatting and [repr] are not unfolded into characters. *)

Inductive frag : Type :=
| FLit (s : pystr)                 (* literal text, or a [str] value *)
| FStr (v : pyval)                 (* [{v}], [str(v)] *)
| FRepr (v : pyval)                (* [repr(v)] *)
| FFixed (prec : nat) (v : pyval). (* [{v:.<prec>f}] of a number *)

Definition text : Type := list frag.

Definition lit (s : string) : text := [FLit (py s)].

(** ** Exceptions

    The exceptions the program meets, all of them subclasses of
    [Exception], which is what its [except Exception] clauses catch. *)

Inductive exn : Type :=
| KeyError (key : pyval)
| TypeError (msg : text)
| AttributeError (msg : text)
| ValueError (msg : text)
| LibraryError (msg : text)          (* raised inside an external library *)
| HTTPException (status_code : Z) (detail : text).

(** [str(e)] *)
Definition exn_str (e : exn) : text :=
  match e with
  | KeyError k => [FRepr k]
  | TypeError m | AttributeError m | ValueError m | LibraryError m => m
  | HTTPException c d => FStr (PInt c) :: lit ": " ++ d
  end.

Definition result (A : Type) : Type := (exn + A)%type.

(** [v[k]] for a string key [k]. *)
Definition py_getitem (v : pyval) (k : pystr) : result pyval :=
  match v with
  | PDict d =>
      match dict_get k d with
      | Some x => inr x
      | None => inl (KeyError (PStr k))
      end
  | PStr _ => inl (TypeError (lit "string indices must be integers, not 'str'"))
  | PList _ => inl (TypeError (lit "list indices must be integers or slices, not str"))
  | _ => inl (TypeError (lit "'" ++ [FLit (py_type_name v)] ++ lit "' object is not subscriptable"))
  end.

Definition no_attribute (v : pyval) (attr : string) : exn :=
  AttributeError (lit "'" ++ [FLit (py_type_name v)] ++ lit "' object has no attribute '"
                  ++ lit attr ++ lit "'").

(** [v.get(k, default)]: only a dict has the method. *)
Definition py_get (v : pyval) (k : pystr) (default : pyval) : result pyval :=
  match v with
  | PDict d => inr (dict_get_default k default d)
  | _ => inl (no_attribute v "get")
  end.

(** [{v:.<prec>f}] *)
Definition py_format_fixed (prec : nat) (v : pyval) : result frag :=
  match v with
  | PFloat _ | PInt _ | PBool _ => inr (FFixed prec v)
  | PStr _ => inl (ValueError (lit "Unknown format code 'f' for object of type 'str'"))
  | _ => inl (TypeError (lit "unsupported format string passed to "
                         ++ [FLit (py_type_name v)] ++ lit ".__format__"))
  end.

(** ** str methods *)

(** The code points [str.isspace] accepts, which [str.strip()] removes. *)
Definition py_isspace (c : N) : bool :=
  ((9 <=? c) && (c <=? 13) || (28 <=? c) && (c <=? 32)
   || (c =? 133) || (c =? 160) || (c =? 5760)
   || (8192 <=? c) && (c <=? 8202)
   || (c =? 8232) || (c =? 8233) || (c =? 8239) || (c =? 8287) || (c =? 12288))%N.

Fixpoint lstrip (s : pystr) : pystr :=
  match s with
  | [] => []
  | c :: s' => if py_isspace c then lstrip s' else s
  end.

(** [s.strip()] *)
Definition strip (s : pystr) : pystr := rev (lstrip (rev (lstrip s))).

(** [s[:n]] *)
Definition slice_to (n : nat) (s : pystr) : pystr := firstn n s.

(** [s.startswith(p)] *)
Fixpoint startswith (p s : pystr) : bool :=
  match p, s with
  | [], _ => true
  | x :: p', y :: s' => N.eqb x y && startswith p' s'
  | _ :: _, [] => false
  end.

(** The [query[:100]{'...' if len(query) > 100 else ''}] of the log lines. *)
Definition abbreviated (s : pystr) : text :=
  [FLit (slice_to 100 s); FLit (if Nat.ltb 100 (length s) then py "..." else [])].

(** ** app/preprocessor.py: one chunk per document *)

(** [_preprocess_single_document(doc, doc_id)] *)
Definition _preprocess_single_document (doc : pydict) (doc_id : nat) : result pydict :=
  match py_getitem (PDict doc) (py "content") with
  | inl e => inl e
  | inr (PStr raw) =>
      let content := strip raw in
      match py_getitem (PDict doc) (py "metadata") with
      | inl e => inl e
      | inr (PDict metadata) =>
          let chunk_metadata :=
            dict_set (py "content_preview")
              (PStr (if Nat.ltb 200 (length content)
                     then slice_to 200 content ++ py "..."
                     else content))
              (dict_set (py "total_chunks") (PInt 1)
                 (dict_set (py "chunk_index") (PInt 0)
                    (dict_set (py "chunk_id") (PInt (Z.of_nat doc_id))
                       (dict_update [] metadata)))) in
          inr [(py "content", PStr content); (py "metadata", PDict chunk_metadata)]
      | inr v =>
          inl (TypeError (lit "'" ++ [FLit (py_type_name v)] ++ lit "' object is not a mapping"))
      end
  | inr v => inl (no_attribute v "strip")
  end.

(** ** The outside world

    Everything the program reaches through the operating system or a
    third-party library: the clock, the file system, the Chroma store,
    the LlamaIndex index, retriever and answer synthesizer.  Each call
    may change the world and may raise. *)

(** A LlamaIndex [Document] as [create_vector_store] builds it. *)
Record Document : Type := {
  doc_text : pyval;
  doc_metadata : pyval;
  doc_id : text            (* [str(doc['metadata']['chunk_id'])] *)
}.

(** A LlamaIndex [NodeWithScore]: [score] is an [Optional[float]]. *)
Record NodeWithScore : Type := {
  node_text : pystr;
  node_metadata : pydict;
  node_score : option float
}.

Record Library : Type := {
  ext : Type;                        (* state of the outside world *)
  VectorStoreIndex : Type;
  chroma_client : Type;
  chroma_collection : Type;
  synthesizer : Type;                (* response synthesizer bound to an LLM *)
  (* time.time() *)
  clock : ext -> float * ext;
  (* os.getenv(name) *)
  os_getenv : pystr -> ext -> option pystr;
  (* os.path.exists(path) *)
  os_path_exists : pystr -> ext -> bool;
  (* os.walk(directory): the (root, files) pairs *)
  os_walk : pystr -> ext -> list (pystr * list pystr);
  (* open(path, 'r', encoding='utf-8').read() *)
  read_text : pystr -> ext -> result pystr * ext;
  (* str(Path(root) / file) and Path(...).suffix *)
  path_join : pystr -> pystr -> pystr;
  path_suffix : pystr -> pystr;
  (* chromadb.PersistentClient(path=..., settings=...) *)
  PersistentClient : pystr -> ext -> result chroma_client * ext;
  get_collection : chroma_client -> pystr -> ext -> result chroma_collection * ext;
  create_collection : chroma_client -> pystr -> ext -> result chroma_collection * ext;
  (* VectorStoreIndex.from_documents(docs, vector_store=ChromaVectorStore(c)) *)
  from_documents : list Document -> chroma_collection -> ext -> result VectorStoreIndex * ext;
  (* VectorStoreIndex.from_vector_store(ChromaVectorStore(c)) *)
  from_vector_store : chroma_collection -> ext -> result VectorStoreIndex * ext;
  (* the default response synthesizer a RetrieverQueryEngine resolves *)
  get_response_synthesizer : ext -> result synthesizer * ext;
  (* VectorIndexRetriever(index, similarity_top_k=k).retrieve(query) *)
  vector_search : VectorStoreIndex -> Z -> pystr -> ext -> result (list NodeWithScore) * ext;
  (* synthesizer.synthesize(query, nodes): the answer text *)
  synthesize : synthesizer -> pystr -> list NodeWithScore -> ext -> result pystr * ext
}.

(** ** Logging: app/logging_config.py *)

Record log_record : Type := {
  levelname : pystr;
  phase : pystr;
  message : text
}.

Section Program.

Variable L : Library.

(** ** The monad of the program: world and log, with exceptions *)

Record state : Type := {
  world : ext L;
  logged : list log_record      (* oldest first *)
}.

(** A computation over a store [S] that returns or raises. *)
Definition M (S A : Type) : Type := S -> result A * S.

Definition ret {S A} (a : A) : M S A := fun s => (inr a, s).

Definition raise {S A} (e : exn) : M S A := fun s => (inl e, s).

Definition bind {S A B} (m : M S A) (k : A -> M S B) : M S B :=
  fun s => match m s with
           | (inr a, s') => k a s'
           | (inl e, s') => (inl e, s')
           end.

(** [try: m  except Exception as e: h e] *)
Definition try_except {S A} (m : M S A) (h : exn -> M S A) : M S A :=
  fun s => match m s with
           | (inr a, s') => (inr a, s')
           | (inl e, s') => h e s'
           end.

Definition of_result {S A} (r : result A) : M S A :=
  fun s => (r, s).

(** Code that touches the world and the log only. *)
Definition IO (A : Type) : Type := M state A.

(** A call into the outside world. *)
Definition call {A} (f : ext L -> result A * ext L) : IO A :=
  fun s => let (r, w) := f (world s) in
           (r, {| world := w; logged := logged s |}).

(** A read of the outside world. *)
Definition peek {A} (f : ext L -> A) : IO A :=
  fun s => (inr (f (world s)), s).

Notation "x <- m ;; k" := (bind m (fun x => k))
  (at level 61, m at next level, right associativity).
Notation "m ;; k" := (bind m (fun _ => k))
  (at level 61, right associativity).

(** [for x in l: acc = body x acc] *)
Fixpoint for_each {S A B} (l : list A) (body : A -> B -> M S B) (acc : B) : M S B :=
  match l with
  | [] => ret acc
  | x :: l' => acc' <- body x acc ;; for_each l' body acc'
  end.

(** [enumerate(l)] counted from [i]. *)
Fixpoint enumerate_from {A} (i : nat) (l : list A) : list (nat * A) :=
  match l with
  | [] => []
  | x :: l' => (i, x) :: enumerate_from (S i) l'
  end.

Definition enumerate {A} (l : list A) : list (nat * A) := enumerate_from 0 l.

(** [time.time()] *)
Definition time_time : IO float :=
  call (fun w => let (t, w') := clock L w in (inr t, w')).

(** [log_with_phase(logger, level, phase, message)] *)
Definition log_with_phase (level phase : string) (msg : text) : IO unit :=
  fun s => (inr tt,
            {| world := world s;
               logged := logged s ++ [{| levelname := py level;
                                         phase := py phase;
                                         message := msg |}] |}).

Definition py_len {A} (l : list A) : pyval := PInt (Z.of_nat (length l)).

(** [sep.join(l)] for a list of [str]. *)
Fixpoint py_join (sep : pystr) (l : list pystr) : pystr :=
  match l with
  | [] => []
  | [x] => x
  | x :: l' => x ++ sep ++ py_join sep l'
  end.

(** [str(i)] of a non-negative [int]. *)
Definition py_str_nat (i : nat) : pystr :=
  py (NilEmpty.string_of_uint (Nat.to_uint i)).

(** [v[:n]] *)
Definition py_slice_to (n : nat) (v : pyval) : result pyval :=
  match v with
  | PStr s => inr (PStr (firstn n s))
  | PList l => inr (PList (firstn n l))
  | _ => inl (TypeError (lit "'" ++ [FLit (py_type_name v)] ++ lit "' object is not subscriptable"))
  end.

(** ** app/loader.py *)

Record DocumentLoader : Type := {
  loader_source_dirs : list pystr;
  supported_extensions : list pystr
}.

(** The dict [{'py': .., 'md': .., 'skipped': .., 'failed': ..}]. *)
Record load_stats : Type := {
  stat_py : Z;
  stat_md : Z;
  stat_skipped : Z;
  stat_failed : Z
}.

Definition no_stats : load_stats :=
  {| stat_py := 0; stat_md := 0; stat_skipped := 0; stat_failed := 0 |}.

Definition add_stats (a b : load_stats) : load_stats :=
  {| stat_py := stat_py a + stat_py b;
     stat_md := stat_md a + stat_md b;
     stat_skipped := stat_skipped a + stat_skipped b;
     stat_failed := stat_failed a + stat_failed b |}.

Definition skip_one (st : load_stats) : load_stats :=
  {| stat_py := stat_py st; stat_md := stat_md st;
     stat_skipped := stat_skipped st + 1; stat_failed := stat_failed st |}.

Definition fail_one (st : load_stats) : load_stats :=
  {| stat_py := stat_py st; stat_md := stat_md st;
     stat_skipped := stat_skipped st; stat_failed := stat_failed st + 1 |}.

Definition count_suffix (suffix : pystr) (st : load_stats) : load_stats :=
  if str_eqb suffix (py ".py") then
    {| stat_py := stat_py st + 1; stat_md := stat_md st;
       stat_skipped := stat_skipped st; stat_failed := stat_failed st |}
  else if str_eqb suffix (py ".md") then
    {| stat_py := stat_py st; stat_md := stat_md st + 1;
       stat_skipped := stat_skipped st; stat_failed := stat_failed st |}
  else st.

(** The body of the inner loop of [_load_from_directory]. *)
Definition load_file (self : DocumentLoader) (directory root file : pystr)
    (acc : list pydict * load_stats) : IO (list pydict * load_stats) :=
  let (documents, stats) := acc in
  let file_path := path_join L root file in
  if startswith (py ".") file then ret (documents, skip_one stats)
  else if negb (existsb (str_eqb (path_suffix L file_path)) (supported_extensions self))
  then ret (documents, skip_one stats)
  else
    try_except
      (content <- call (read_text L file_path) ;;
       let doc :=
         [(py "content", PStr content);
          (py "metadata",
           PDict [(py "path", PStr file_path);
                  (py "filename", PStr file);
                  (py "extension", PStr (path_suffix L file_path));
                  (py "size", py_len content);
                  (py "directory", PStr directory)])] in
       log_with_phase "debug" "loading"
         (lit "Loaded " ++ [FLit file_path] ++ lit " (" ++ [FStr (py_len content)]
          ++ lit " bytes)") ;;
       ret (documents ++ [doc], count_suffix (path_suffix L file_path) stats))
      (fun e =>
         log_with_phase "error" "loading"
           (lit "Failed to load " ++ [FLit file_path] ++ lit ": " ++ exn_str e) ;;
         ret (documents, fail_one stats)).

(** [_load_from_directory(directory)] *)
Definition _load_from_directory (self : DocumentLoader) (directory : pystr)
    : IO (list pydict * load_stats) :=
  walk <- peek (os_walk L directory) ;;
  for_each walk
    (fun '(root, files) acc => for_each files (load_file self directory root) acc)
    ([], no_stats).

(** [load_documents()] *)
Definition load_documents (self : DocumentLoader) : IO (list pydict * load_stats) :=
  start_time <- time_time ;;
  log_with_phase "info" "loading"
    (lit "Starting document loading from: "
     ++ [FLit (py_join (py ", ") (loader_source_dirs self))]) ;;
  acc <- for_each (loader_source_dirs self)
    (fun source_dir '(documents, stats) =>
       found <- peek (os_path_exists L source_dir) ;;
       if negb found then
         log_with_phase "warning" "loading"
           (lit "Directory not found: " ++ [FLit source_dir]) ;;
         ret (documents, stats)
       else
         in_dir <- _load_from_directory self source_dir ;;
         ret (documents ++ fst in_dir, add_stats stats (snd in_dir)))
    ([], no_stats) ;;
  let (documents, stats) := acc : list pydict * load_stats in
  now <- time_time ;;
  let load_time := PrimFloat.sub now start_time in
  let total_files := (stat_py stats + stat_md stats)%Z in
  log_with_phase "info" "loading"
    (lit "Loaded " ++ [FStr (PInt total_files)] ++ lit " files (.py: "
     ++ [FStr (PInt (stat_py stats))] ++ lit ", .md: " ++ [FStr (PInt (stat_md stats))]
     ++ lit ") in " ++ [FFixed 2 (PFloat load_time)] ++ lit "s. Skipped: "
     ++ [FStr (PInt (stat_skipped stats))] ++ lit ", Failed: "
     ++ [FStr (PInt (stat_failed stats))]) ;;
  ret (documents, stats).

(** ** app/preprocessor.py: the loop *)

(** The [except Exception as e] block of the loop: it reads
    [doc['metadata'].get('filename', 'unknown')] for its message. *)
Definition preprocess_failed (doc : pydict) (e : exn) : IO unit :=
  metadata <- of_result (py_getitem (PDict doc) (py "metadata")) ;;
  name <- of_result (py_get metadata (py "filename") (PStr (py "unknown"))) ;;
  log_with_phase "error" "preprocessing"
    (lit "Failed to preprocess " ++ [FStr name] ++ lit ": " ++ exn_str e).

(** The message of the debug line that ends the [try] block. *)
Definition processed_message (doc : pydict) : result text :=
  match py_getitem (PDict doc) (py "metadata") with
  | inl e => inl e
  | inr metadata =>
      match py_getitem metadata (py "filename") with
      | inl e => inl e
      | inr filename =>
          match py_getitem metadata (py "size") with
          | inl e => inl e
          | inr size =>
              inr (lit "Processed " ++ [FStr filename] ++ lit " (1 chunk, "
                   ++ [FStr size] ++ lit " bytes)")
          end
      end
  end.

(** One round of the loop.  [processed_docs] is one list object: when
    the debug line raises, the [append] before it has already happened
    and the handler runs on the longer list. *)
Definition preprocess_step (item : nat * pydict) (processed_docs : list pydict)
    : IO (list pydict) :=
  let (i, doc) := item in
  match _preprocess_single_document doc i with
  | inl e => preprocess_failed doc e ;; ret processed_docs
  | inr processed_doc =>
      let processed_docs := processed_docs ++ [processed_doc] in
      match processed_message doc with
      | inl e => preprocess_failed doc e ;; ret processed_docs
      | inr msg => log_with_phase "debug" "preprocessing" msg ;; ret processed_docs
      end
  end.

(** [preprocess_documents(documents)] *)
Definition preprocess_documents (documents : list pydict) : IO (list pydict) :=
  start_time <- time_time ;;
  log_with_phase "info" "preprocessing"
    (lit "Starting preprocessing of " ++ [FStr (py_len documents)] ++ lit " documents") ;;
  processed_docs <- for_each (enumerate documents) preprocess_step [] ;;
  now <- time_time ;;
  let process_time := PrimFloat.sub now start_time in
  log_with_phase "info" "preprocessing"
    (lit "Preprocessing completed: " ++ [FStr (py_len processed_docs)] ++ lit " chunks in "
     ++ [FFixed 2 (PFloat process_time)] ++ lit "s") ;;
  ret processed_docs.

(** ** app/embedder.py *)

Record RAGEmbedder : Type := {
  embedder_persist_directory : pystr;
  collection_name : pystr
}.

(** [Document(text=..., metadata=..., doc_id=...)]: the constructor of
    the library validates its fields, and a text that is not a [str] is
    refused.  The metadata it is given here is a dict, [chunk_id] has
    been read from it. *)
Definition Document_init (content metadata : pyval) (id : text) : result Document :=
  match content with
  | PStr _ => inr {| doc_text := content; doc_metadata := metadata; doc_id := id |}
  | _ => inl (LibraryError (lit "1 validation error for Document"))
  end.

(** The body of the conversion loop of [create_vector_store]. *)
Definition to_llama_document (doc : pydict) (llama_documents : list Document)
    : IO (list Document) :=
  content <- of_result (py_getitem (PDict doc) (py "content")) ;;
  metadata <- of_result (py_getitem (PDict doc) (py "metadata")) ;;
  chunk_id <- of_result (py_getitem metadata (py "chunk_id")) ;;
  llama_doc <- of_result (Document_init content metadata [FStr chunk_id]) ;;
  filename <- of_result (py_getitem metadata (py "filename")) ;;
  preview <- of_result (py_getitem metadata (py "content_preview")) ;;
  head <- of_result (py_slice_to 50 preview) ;;
  log_with_phase "debug" "embedding"
    (lit "Embedded " ++ [FStr filename] ++ lit " [preview: " ++ [FStr head] ++ lit "...]") ;;
  ret (llama_documents ++ [llama_doc]).

(** [create_vector_store(documents)] *)
Definition create_vector_store (self : RAGEmbedder) (documents : list pydict)
    : IO (VectorStoreIndex L) :=
  start_time <- time_time ;;
  log_with_phase "info" "embedding"
    (lit "Creating vector store for " ++ [FStr (py_len documents)] ++ lit " documents") ;;
  client <- call (PersistentClient L (embedder_persist_directory self)) ;;
  collection <-
    try_except
      (c <- call (get_collection L client (collection_name self)) ;;
       log_with_phase "info" "embedding"
         (lit "Using existing collection: " ++ [FLit (collection_name self)]) ;;
       ret c)
      (fun _ =>
         c <- call (create_collection L client (collection_name self)) ;;
         log_with_phase "info" "embedding"
           (lit "Created new collection: " ++ [FLit (collection_name self)]) ;;
         ret c) ;;
  llama_documents <- for_each documents to_llama_document [] ;;
  index <- call (from_documents L llama_documents collection) ;;
  now <- time_time ;;
  let create_time := PrimFloat.sub now start_time in
  log_with_phase "info" "embedding"
    (lit "Vector store created successfully: " ++ [FStr (py_len documents)]
     ++ lit " vectors indexed in " ++ [FFixed 2 (PFloat create_time)]
     ++ lit "s. Persisted to: " ++ [FLit (embedder_persist_directory self)]) ;;
  ret index.

(** [load_existing_index()] *)
Definition load_existing_index (self : RAGEmbedder) : IO (VectorStoreIndex L) :=
  found <- peek (os_path_exists L (embedder_persist_directory self)) ;;
  if negb found then
    raise (ValueError (lit "Vector store directory not found: "
                       ++ [FLit (embedder_persist_directory self)]))
  else
    log_with_phase "info" "embedding" (lit "Loading existing vector store") ;;
    client <- call (PersistentClient L (embedder_persist_directory self)) ;;
    collection <- call (get_collection L client (collection_name self)) ;;
    index <- call (from_vector_store L collection) ;;
    log_with_phase "info" "embedding" (lit "Successfully loaded existing vector store") ;;
    ret index.

(** ** The LlamaIndex objects a retriever is made of *)

Record SimilarityPostprocessor : Type := {
  similarity_cutoff : option float
}.

Record VectorIndexRetriever : Type := {
  vir_index : VectorStoreIndex L;
  similarity_top_k : Z
}.

Record RetrieverQueryEngine : Type := {
  engine_retriever : VectorIndexRetriever;
  node_postprocessors : list SimilarityPostprocessor;
  response_synthesizer : synthesizer L
}.

(** What [query_engine.query] returns: [str(response)] and the evidence. *)
Record Response : Type := {
  response_str : pystr;
  source_nodes : list NodeWithScore
}.

(** [retriever.retrieve(query)]: the similarity search of the index,
    bounded by the [similarity_top_k] the retriever was built with. *)
Definition VectorIndexRetriever_retrieve (r : VectorIndexRetriever) (query : pystr)
    : IO (list NodeWithScore) :=
  call (vector_search L (vir_index r) (similarity_top_k r) query).

(** Modelled from the spec: the library's [SimilarityPostprocessor] is
    not part of the sources.  It discards the candidates below its
    similarity cutoff; a candidate without a score is discarded too. *)
Definition passes_cutoff (p : SimilarityPostprocessor) (node : NodeWithScore) : bool :=
  match similarity_cutoff p with
  | None => true
  | Some cutoff =>
      match node_score node with
      | None => false
      | Some similarity => negb (PrimFloat.ltb similarity cutoff)
      end
  end.

Definition postprocess_nodes (p : SimilarityPostprocessor) (nodes : list NodeWithScore)
    : list NodeWithScore :=
  filter (passes_cutoff p) nodes.

(** Modelled from the spec: the library's [RetrieverQueryEngine.query]
    is not part of the sources.  It runs (a) the same search bounded by
    topK, (b) the node postprocessors, (c) the answer synthesizer on the
    survivors, and (d) returns the text with the surviving chunks as
    evidence. *)
Definition RetrieverQueryEngine_query (engine : RetrieverQueryEngine) (query : pystr)
    : IO Response :=
  candidates <- VectorIndexRetriever_retrieve (engine_retriever engine) query ;;
  let nodes :=
    fold_left (fun ns p => postprocess_nodes p ns) (node_postprocessors engine) candidates in
  answer <- call (synthesize L (response_synthesizer engine) query nodes) ;;
  ret {| response_str := answer; source_nodes := nodes |}.

(** ** app/retriever.py *)

Record RAGRetriever : Type := {
  retriever_index : VectorStoreIndex L;
  retriever_top_k : Z;
  vector_retriever : VectorIndexRetriever;     (* [self.retriever] *)
  query_engine : RetrieverQueryEngine
}.

(** [RAGRetriever(index, top_k)]; building the query engine resolves a
    response synthesizer, which may raise. *)
Definition RAGRetriever_init (index : VectorStoreIndex L) (top_k : Z) : IO RAGRetriever :=
  let retriever := {| vir_index := index; similarity_top_k := top_k |} in
  synth <- call (get_response_synthesizer L) ;;
  let engine :=
    {| engine_retriever := retriever;
       node_postprocessors := [{| similarity_cutoff := Some 0.7%float |}];
       response_synthesizer := synth |} in
  log_with_phase "info" "retrieval"
    (lit "Initialized retriever with top_k=" ++ [FStr (PInt top_k)]) ;;
  ret {| retriever_index := index; retriever_top_k := top_k;
         vector_retriever := retriever; query_engine := engine |}.

(** [node.score if hasattr(node, 'score') else 0.0]: a [NodeWithScore]
    always has the attribute, possibly [None]. *)
Definition score_of (node : NodeWithScore) : pyval :=
  match node_score node with
  | Some x => PFloat x
  | None => PNone
  end.

Definition node_data (i : nat) (node : NodeWithScore) : pydict :=
  [(py "content", PStr (node_text node));
   (py "metadata", PDict (node_metadata node));
   (py "score", score_of node);
   (py "rank", PInt (Z.of_nat i + 1))].

(** [node.metadata.get('filename', node.metadata.get('path', f'doc_{i}'))] *)
Definition node_title (i : nat) (node : NodeWithScore) : pyval :=
  dict_get_default (py "filename")
    (dict_get_default (py "path") (PStr (py "doc_" ++ py_str_nat i)) (node_metadata node))
    (node_metadata node).

(** [', '.join(titles)]: every item has to be a [str]. *)
Fixpoint join_titles (titles : list pyval) : result (list pystr) :=
  match titles with
  | [] => inr []
  | PStr t :: rest =>
      match join_titles rest with
      | inr ts => inr (t :: ts)
      | inl e => inl e
      end
  | v :: _ =>
      inl (TypeError (lit "sequence item: expected str instance, "
                      ++ [FLit (py_type_name v)] ++ lit " found"))
  end.

(** The body of the loop over the retrieved nodes. *)
Definition collect_node (item : nat * NodeWithScore) (acc : list pydict * list pyval)
    : IO (list pydict * list pyval) :=
  let (i, node) := item in
  let (results, doc_titles) := acc in
  let data := node_data i node in
  let title := node_title i node in
  score <- of_result (py_format_fixed 3 (score_of node)) ;;
  log_with_phase "debug" "retrieval"
    (lit "Retrieved [" ++ [FStr (PInt (Z.of_nat i + 1))] ++ lit "] " ++ [FStr title]
     ++ lit " (score: " ++ [score] ++ lit ", preview: "
     ++ [FLit (slice_to 100 (node_text node))] ++ lit "...)") ;;
  ret (results ++ [data], doc_titles ++ [title]).

(** [retrieve_documents(query)] *)
Definition retrieve_documents (self : RAGRetriever) (query : pystr) : IO pydict :=
  start_time <- time_time ;;
  log_with_phase "info" "retrieval"
    (lit "Processing query: '" ++ abbreviated query ++ lit "'") ;;
  try_except
    (retrieved_nodes <- VectorIndexRetriever_retrieve (vector_retriever self) query ;;
     now <- time_time ;;
     let retrieval_time := PrimFloat.sub now start_time in
     acc <- for_each (enumerate retrieved_nodes) collect_node ([], []) ;;
     let (results, doc_titles) := acc : list pydict * list pyval in
     shown <- of_result (join_titles (firstn 3 doc_titles)) ;;
     log_with_phase "info" "retrieval"
       (lit "Retrieved " ++ [FStr (py_len results)] ++ lit " documents in "
        ++ [FFixed 3 (PFloat retrieval_time)] ++ lit "s: "
        ++ [FLit (py_join (py ", ") shown)]
        ++ [FLit (if Nat.ltb 3 (length doc_titles) then py "..." else [])]) ;;
     ret [(py "query", PStr query);
          (py "results", PList (map PDict results));
          (py "retrieval_time", PFloat retrieval_time);
          (py "total_results", py_len results)])
    (fun e =>
       log_with_phase "error" "retrieval" (lit "Retrieval failed: " ++ exn_str e) ;;
       raise e).

(** One entry of [source_info]. *)
Definition source_entry (node : NodeWithScore) : pydict :=
  [(py "filename", dict_get_default (py "filename") (PStr (py "unknown")) (node_metadata node));
   (py "path", dict_get_default (py "path") (PStr (py "unknown")) (node_metadata node));
   (py "score", score_of node)].

(** [generate_response(query)] *)
Definition generate_response (self : RAGRetriever) (query : pystr) : IO pydict :=
  start_time <- time_time ;;
  log_with_phase "info" "retrieval"
    (lit "Generating response for query: '" ++ abbreviated query ++ lit "'") ;;
  try_except
    (response <- RetrieverQueryEngine_query (query_engine self) query ;;
     now <- time_time ;;
     let response_time := PrimFloat.sub now start_time in
     let source_info := map source_entry (source_nodes response) in
     let result :=
       [(py "query", PStr query);
        (py "response", PStr (response_str response));
        (py "sources", PList (map PDict source_info));
        (py "response_time", PFloat response_time);
        (py "response_length", py_len (response_str response))] in
     log_with_phase "info" "retrieval"
       (lit "Generated response in " ++ [FFixed 3 (PFloat response_time)] ++ lit "s ("
        ++ [FStr (py_len (response_str response))] ++ lit " chars, "
        ++ [FStr (py_len source_info)] ++ lit " sources)") ;;
     ret result)
    (fun e =>
       log_with_phase "error" "retrieval" (lit "Response generation failed: " ++ exn_str e) ;;
       raise e).

(** ** app/pipeline.py *)

Record RAGPipeline : Type := {
  source_dirs : list pystr;
  persist_directory : pystr;
  top_k : Z;
  loader : DocumentLoader;
  embedder : RAGEmbedder;
  retriever : option RAGRetriever;
  index : option (VectorStoreIndex L)
}.

(** [RAGPipeline()], from the values its constructor reads from the
    environment. *)
Definition RAGPipeline_init (dirs : list pystr) (persist : pystr) (k : Z) : RAGPipeline :=
  {| source_dirs := dirs;
     persist_directory := persist;
     top_k := k;
     loader := {| loader_source_dirs := dirs;
                  supported_extensions := [py ".py"; py ".md"] |};
     embedder := {| embedder_persist_directory := persist;
                    collection_name := py "manim_docs" |};
     retriever := None;
     index := None |}.

(** A method of the pipeline: the store holds the object [self] next to
    the world, so that an assignment to a field survives a later raise. *)
Definition Method (A : Type) : Type := M (RAGPipeline * state) A.

Definition io {A} (m : IO A) : Method A :=
  fun ps => let (r, s') := m (snd ps) in (r, (fst ps, s')).

Definition get_self : Method RAGPipeline :=
  fun ps => (inr (fst ps), ps).

(** [self.index = idx] *)
Definition set_index (idx : VectorStoreIndex L) : Method unit :=
  fun ps =>
    let self := fst ps in
    (inr tt,
     ({| source_dirs := source_dirs self; persist_directory := persist_directory self;
         top_k := top_k self; loader := loader self; embedder := embedder self;
         retriever := retriever self; index := Some idx |}, snd ps)).

(** [self.retriever = r] *)
Definition set_retriever (r : RAGRetriever) : Method unit :=
  fun ps =>
    let self := fst ps in
    (inr tt,
     ({| source_dirs := source_dirs self; persist_directory := persist_directory self;
         top_k := top_k self; loader := loader self; embedder := embedder self;
         retriever := Some r; index := index self |}, snd ps)).

(** The errors of the design, as the code raises them. *)
Definition EmptyCorpusError : exn :=
  ValueError (lit "No documents loaded. Check source directories.").

Definition NotInitializedError : exn :=
  ValueError (lit "Pipeline not initialized. Call build_index() first.").

(** The first block of [build_index]: reopen a persisted index.  It
    answers whether the method has returned. *)
Definition reuse_path (start_time : float) : Method bool :=
  try_except
    (self <- get_self ;;
     idx <- io (load_existing_index (embedder self)) ;;
     set_index idx ;;
     r <- io (RAGRetriever_init idx (top_k self)) ;;
     set_retriever r ;;
     now <- io time_time ;;
     let build_time := PrimFloat.sub now start_time in
     io (log_with_phase "info" "pipeline"
           (lit "Loaded existing index in " ++ [FFixed 2 (PFloat build_time)] ++ lit "s")) ;;
     ret true)
    (fun e =>
       io (log_with_phase "warning" "pipeline"
             (lit "Failed to load existing index: " ++ exn_str e ++ lit ". Rebuilding...")) ;;
       ret false).

(** The second block of [build_index]: the full rebuild. *)
Definition rebuild_path (start_time : float) : Method unit :=
  io (log_with_phase "info" "pipeline" (lit "Building new index from source documents")) ;;
  self <- get_self ;;
  loaded <- io (load_documents (loader self)) ;;
  let documents := fst loaded in
  if negb (py_truthy (PList (map PDict documents))) then raise EmptyCorpusError
  else
    processed_docs <- io (preprocess_documents documents) ;;
    idx <- io (create_vector_store (embedder self) processed_docs) ;;
    set_index idx ;;
    r <- io (RAGRetriever_init idx (top_k self)) ;;
    set_retriever r ;;
    now <- io time_time ;;
    let build_time := PrimFloat.sub now start_time in
    io (log_with_phase "info" "pipeline"
          (lit "Index building completed in " ++ [FFixed 2 (PFloat build_time)]
           ++ lit "s. Processed " ++ [FStr (py_len documents)] ++ lit " documents")).

(** [build_index] up to its comment [# Build new index]: the start
    time, and whether the method has returned from the reuse path. *)
Definition existing_index_block (force_rebuild : bool) : Method (float * bool) :=
  start_time <- io time_time ;;
  io (log_with_phase "info" "pipeline" (lit "Starting index building process")) ;;
  self <- get_self ;;
  if negb force_rebuild then
    found <- io (peek (os_path_exists L (persist_directory self))) ;;
    if found then
      returned <- reuse_path start_time ;;
      ret (start_time, returned)
    else ret (start_time, false)
  else ret (start_time, false).

(** [build_index(force_rebuild)] *)
Definition build_index (force_rebuild : bool) : Method unit :=
  block <- existing_index_block force_rebuild ;;
  if snd block then ret tt else rebuild_path (fst block).

(** [query(query_text, retrieve_only)] *)
Definition query (query_text : pystr) (retrieve_only : bool) : Method pydict :=
  self <- get_self ;;
  match retriever self with
  | None => raise NotInitializedError
  | Some r =>
      start_time <- io time_time ;;
      io (log_with_phase "info" "pipeline"
            (lit "Processing query: '" ++ abbreviated query_text ++ lit "'")) ;;
      try_except
        (result <- io (if retrieve_only
                       then retrieve_documents r query_text
                       else generate_response r query_text) ;;
         now <- io time_time ;;
         let total_time := PrimFloat.sub now start_time in
         let result := dict_set (py "total_processing_time") (PFloat total_time) result in
         io (log_with_phase "info" "pipeline"
               (lit "Query processed in " ++ [FFixed 3 (PFloat total_time)] ++ lit "s")) ;;
         ret result)
        (fun e =>
           key <- io (peek (os_getenv L (py "OPENAI_API_KEY"))) ;;
           io (log_with_phase "error" "pipeline"
                 (lit "Query processing failed: " ++ exn_str e ++ lit " "
                  ++ [FStr (match key with Some v => PStr v | None => PNone end)])) ;;
           raise e)
  end.

(** ** app/main.py: the /query endpoint *)

Record QueryRequest : Type := {
  request_query : pystr;
  request_retrieve_only : bool;
  request_top_k : option Z
}.

Record QueryResponse : Type := {
  response_query : pyval;
  response_response : pyval;
  response_sources : pyval;
  response_retrieval_time : pyval;
  response_total_processing_time : pyval;
  response_metadata : pydict
}.

(** [len(v)] *)
Definition py_len_of (v : pyval) : result pyval :=
  match v with
  | PStr s => inr (py_len s)
  | PList l => inr (py_len l)
  | PDict d => inr (py_len d)
  | _ => inl (TypeError (lit "object of type '" ++ [FLit (py_type_name v)]
                         ++ lit "' has no len()"))
  end.

(** [query_documents(request)] on the process-wide [rag_pipeline].  The
    fields given to [QueryResponse] are kept as they are: the results
    the pipeline returns have the types the model declares. *)
Definition query_documents (request : QueryRequest) : Method QueryResponse :=
  start_time <- io time_time ;;
  io (log_with_phase "info" "api"
        (lit "Received query request: '" ++ abbreviated (request_query request) ++ lit "'")) ;;
  if negb (py_truthy (PStr (strip (request_query request)))) then
    raise (HTTPException 400 (lit "Query cannot be empty"))
  else
    try_except
      (result <- query (request_query request) (request_retrieve_only request) ;;
       q <- of_result (py_getitem (PDict result) (py "query")) ;;
       let response := dict_get_default (py "response") PNone result in
       let sources :=
         dict_get_default (py "sources")
           (dict_get_default (py "results") (PList []) result) result in
       let retrieval_time := dict_get_default (py "retrieval_time") (PFloat 0%float) result in
       now <- io time_time ;;
       let total :=
         dict_get_default (py "total_processing_time")
           (PFloat (PrimFloat.sub now start_time)) result in
       n_sources <- of_result (py_len_of (dict_get_default (py "sources") (PList []) result)) ;;
       let total_results := dict_get_default (py "total_results") n_sources result in
       response_length <-
         (if py_truthy response
          then of_result (py_len_of (dict_get_default (py "response") (PStr []) result))
          else ret (PInt 0)) ;;
       let out :=
         {| response_query := q;
            response_response := response;
            response_sources := sources;
            response_retrieval_time := retrieval_time;
            response_total_processing_time := total;
            response_metadata :=
              [(py "total_results", total_results);
               (py "retrieve_only", PBool (request_retrieve_only request));
               (py "response_length", response_length)] |} in
       took <- of_result (py_format_fixed 3 total) ;;
       io (log_with_phase "info" "api"
             (lit "Query processed successfully in " ++ [took] ++ lit "s")) ;;
       ret out)
      (fun e =>
         io (log_with_phase "error" "api" (lit "Query processing failed: " ++ exn_str e)) ;;
         raise (HTTPException 500 (exn_str e))).

End Program.

(** ** What the chunking loop is meant to return *)

(** The chunks of the documents that can be chunked, numbered from [i]. *)
Fixpoint chunks_from (i : nat) (documents : list pydict) : list pydict :=
  match documents with
  | [] => []
  | doc :: rest =>
      match _preprocess_single_document doc i with
      | inr chunk => chunk :: chunks_from (S i) rest
      | inl _ => chunks_from (S i) rest
      end
  end.

(** ** Shapes of query results *)

(** [b <= a] on two scores that are both floats. *)
Definition score_le (b a : pyval) : bool :=
  match b, a with
  | PFloat y, PFloat x => PrimFloat.leb y x
  | _, _ => false
  end.

(** Every score is at most the one before it. *)
Fixpoint non_increasing (scores : list pyval) : bool :=
  match scores with
  | a :: rest =>
      match rest with
      | b :: _ => score_le b a && non_increasing rest
      | [] => true
      end
  | [] => true
  end.

(** ** The vector index

    Modelled from the spec: the vector index and its nearest-neighbour
    search are not part of the sources.  The spec gives the search at
    its boundary: it returns [(content, metadata, score)] tuples ordered
    by descending similarity, bounded by a requested count; a score is a
    similarity, a float in [0, 1]. *)

Definition is_similarity (x : float) : bool :=
  PrimFloat.leb 0 x && PrimFloat.leb x 1.

(** A stored chunk with its similarity to the query. *)
Record ScoredChunk : Type := {
  chunk_content : pystr;
  chunk_metadata : pydict;
  similarity : float;
  similarity_in_range : is_similarity similarity = true
}.

(** Modelled from the spec: the order of the answer is by descending
    similarity; chunks of equal similarity keep their order. *)
Fixpoint insert_by_similarity (c : ScoredChunk) (ordered : list ScoredChunk)
    : list ScoredChunk :=
  match ordered with
  | [] => [c]
  | d :: rest =>
      if PrimFloat.leb (similarity d) (similarity c) then c :: d :: rest
      else d :: insert_by_similarity c rest
  end.

Definition by_descending_similarity (matches : list ScoredChunk) : list ScoredChunk :=
  fold_right insert_by_similarity [] matches.

(** Modelled from the spec: the answer is bounded by the requested
    count, so it is the [count] nearest of the stored chunks, best
    first. *)
Definition nearest (count : Z) (matches : list ScoredChunk) : list ScoredChunk :=
  firstn (Z.to_nat count) (by_descending_similarity matches).

Definition as_node (c : ScoredChunk) : NodeWithScore :=
  {| node_text := chunk_content c; node_metadata := chunk_metadata c;
     node_score := Some (similarity c) |}.

(** Modelled from the spec: a library whose index search is the one of
    the spec.  What stays outside is [similarities]: the embedding
    provider and the stored vectors, which give every stored chunk with
    its similarity to the query, or fail. *)
Definition with_similarity_search (B : Library)
    (similarities : VectorStoreIndex B -> pystr -> ext B
                    -> result (list ScoredChunk) * ext B) : Library :=
  {| ext := ext B;
     VectorStoreIndex := VectorStoreIndex B;
     chroma_client := chroma_client B;
     chroma_collection := chroma_collection B;
     synthesizer := synthesizer B;
     clock := clock B;
     os_getenv := os_getenv B;
     os_path_exists := os_path_exists B;
     os_walk := os_walk B;
     read_text := read_text B;
     path_join := path_join B;
     path_suffix := path_suffix B;
     PersistentClient := PersistentClient B;
     get_collection := get_collection B;
     create_collection := create_collection B;
     from_documents := from_documents B;
     from_vector_store := from_vector_store B;
     get_response_synthesizer := get_response_synthesizer B;
     vector_search := fun idx count query w =>
       match similarities idx query w with
       | (inr matches, w') => (inr (map as_node (nearest count matches)), w')
       | (inl e, w') => (inl e, w')
       end;
     synthesize := synthesize B |}.

(** The chunk an entry of [sources] points to: its file. *)
Definition entry_ref (entry : pydict) : option pyval * option pyval :=
  (dict_get (py "filename") entry, dict_get (py "path") entry).

(** The file a retrieved node was cut from, as [source_entry] reads it. *)
Definition node_ref (node : NodeWithScore) : pyval * pyval :=
  (dict_get_default (py "filename") (PStr (py "unknown")) (node_metadata node),
   dict_get_default (py "path") (PStr (py "unknown")) (node_metadata node)).

(** No two entries point to the same chunk. *)
Definition deduplicated_by_chunk (sources : list pydict) : Prop :=
  NoDup (map entry_ref sources).

(** ** Frame conditions on methods *)

(** Whatever [m] does, and however it ends, the served retriever stays
    the same object, unless [m] returns a value that satisfies [P]. *)
Definition keeps_retriever_unless {L : Library} {A : Type}
    (P : A -> Prop) (m : Method L A) : Prop :=
  forall ps r ps',
    m ps = (r, ps') ->
    (exists a, r = inr a /\ P a) \/ retriever (fst ps') = retriever (fst ps).

Definition keeps_retriever {L : Library} {A : Type} (m : Method L A) : Prop :=
  keeps_retriever_unless (fun _ => False) m.

Definition keeps_retriever_on_error {L : Library} {A : Type} (m : Method L A) : Prop :=
  keeps_retriever_unless (fun _ => True) m.

(** ** A small concrete world

    One directory tree held in memory, a store with at most one
    collection, a search that ranks the chunks that start with the
    query first, and a synthesizer that counts its evidence. *)

Module Toy.

Record toy_world : Type := {
  now : float;
  paths : list pystr;                            (* directories that exist *)
  files : list (pystr * list (pystr * pystr));   (* root, then name and content *)
  stored : option (list (pystr * pydict))        (* the collection, if any *)
}.

Definition tick (w : toy_world) : float * toy_world :=
  (now w, {| now := PrimFloat.add (now w) 1%float; paths := paths w;
             files := files w; stored := stored w |}).

Definition exists_path (p : pystr) (w : toy_world) : bool :=
  existsb (str_eqb p) (paths w).

Definition walk (d : pystr) (w : toy_world) : list (pystr * list pystr) :=
  map (fun rf => (fst rf, map fst (snd rf)))
      (filter (fun rf => str_eqb d (fst rf)) (files w)).

Definition join (root file : pystr) : pystr := root ++ py "/" ++ file.

(** The part of a name from its last dot on. *)
Fixpoint suffix_from (s : pystr) (found : pystr) : pystr :=
  match s with
  | [] => found
  | c :: s' => if N.eqb c 46 then suffix_from s' s else suffix_from s' found
  end.

Definition suffix (p : pystr) : pystr := suffix_from p [].

Definition read (p : pystr) (w : toy_world) : result pystr * toy_world :=
  let all := flat_map (fun rf => map (fun nc => (join (fst rf) (fst nc), snd nc)) (snd rf))
                      (files w) in
  match find (fun pc => str_eqb p (fst pc)) all with
  | Some pc => (inr (snd pc), w)
  | None => (inl (LibraryError (lit "No such file or directory")), w)
  end.

Definition open_client (p : pystr) (w : toy_world) : result unit * toy_world :=
  (inr tt, {| now := now w; paths := paths w ++ [p]; files := files w; stored := stored w |}).

Definition find_collection (_ : unit) (name : pystr) (w : toy_world)
    : result (list (pystr * pydict)) * toy_world :=
  match stored w with
  | Some c => (inr c, w)
  | None => (inl (LibraryError (lit "Collection " ++ [FLit name] ++ lit " does not exist.")), w)
  end.

Definition new_collection (_ : unit) (name : pystr) (w : toy_world)
    : result (list (pystr * pydict)) * toy_world :=
  (inr [], {| now := now w; paths := paths w; files := files w; stored := Some [] |}).

Definition as_chunk (d : Document) : pystr * pydict :=
  (match doc_text d with PStr t => t | _ => [] end,
   match doc_metadata d with PDict m => m | _ => [] end).

Definition index_documents (docs : list Document) (c : list (pystr * pydict))
    (w : toy_world) : result (list (pystr * pydict)) * toy_world :=
  let c' := c ++ map as_chunk docs in
  (inr c', {| now := now w; paths := paths w; files := files w; stored := Some c' |}).

Definition open_index (c : list (pystr * pydict)) (w : toy_world)
    : result (list (pystr * pydict)) * toy_world :=
  (inr c, w).

Definition scored (x : float) (c : pystr * pydict) : NodeWithScore :=
  {| node_text := fst c; node_metadata := snd c; node_score := Some x |}.

Definition search (idx : list (pystr * pydict)) (k : Z) (q : pystr) (w : toy_world)
    : result (list NodeWithScore) * toy_world :=
  if (k <? 0)%Z then (inl (LibraryError (lit "similarity_top_k must be positive")), w)
  else
    (inr (firstn (Z.to_nat k)
            (map (scored 0.9%float) (filter (fun c => startswith q (fst c)) idx)
             ++ map (scored 0.5%float)
                  (filter (fun c => negb (startswith q (fst c))) idx))), w).

Definition answer (_ : unit) (q : pystr) (nodes : list NodeWithScore) (w : toy_world)
    : result pystr * toy_world :=
  (inr (py "evidence: " ++ py_str_nat (length nodes)), w).

Definition lib : Library :=
  {| ext := toy_world;
     VectorStoreIndex := list (pystr * pydict);
     chroma_client := unit;
     chroma_collection := list (pystr * pydict);
     synthesizer := unit;
     clock := tick;
     os_getenv := fun _ _ => None;
     os_path_exists := exists_path;
     os_walk := walk;
     read_text := read;
     path_join := join;
     path_suffix := suffix;
     PersistentClient := open_client;
     get_collection := find_collection;
     create_collection := new_collection;
     from_documents := index_documents;
     from_vector_store := open_index;
     get_response_synthesizer := fun w => (inr tt, w);
     vector_search := search;
     synthesize := answer |}.

(** A source tree with two accepted files and one skipped. *)
Definition corpus : list (pystr * list (pystr * pystr)) :=
  [(py "docs",
    [(py "a.py", py "  scene = Scene()  ");
     (py "b.md", py "scene tutorial");
     (py "skip.txt", py "nothing")])].

Definition fresh : state lib :=
  @Build_state lib
    {| now := 100%float; paths := [py "docs"]; files := corpus; stored := None |} [].

(** No source directory has a file the loader accepts. *)
Definition barren : state lib :=
  @Build_state lib
    {| now := 100%float; paths := [py "docs"];
       files := [(py "docs", [(py "skip.txt", py "nothing")])]; stored := None |} [].

(** The persistence directory exists but holds no collection. *)
Definition hollow : state lib :=
  @Build_state lib
    {| now := 100%float; paths := [py "docs"; py "./vectorstore"];
       files := corpus; stored := None |} [].

Definition pipeline : RAGPipeline lib :=
  RAGPipeline_init lib [py "docs"; py "src"] (py "./vectorstore") 5.

(** Two pieces of one file, as a store holds them side by side. *)
Definition a_md : pydict :=
  [(py "path", PStr (py "docs/a.md")); (py "filename", PStr (py "a.md"));
   (py "chunk_id", PInt 0)].

Definition twice : VectorStoreIndex lib :=
  [(py "scene one", a_md); (py "scene two", a_md); (py "other", [(py "path", PStr (py "docs/o.md"))])].

(** A document of 2 + 210 + 1 characters, and its chunk as document 7. *)
Definition long_document : pydict :=
  [(py "content", PStr (py "  " ++ repeat 120%N 210 ++ [10%N]));
   (py "metadata", PDict [(py "filename", PStr (py "x.md")); (py "size", PInt 213)])].

Definition long_chunk : pydict :=
  [(py "content", PStr (repeat 120%N 210));
   (py "metadata",
    PDict [(py "filename", PStr (py "x.md")); (py "size", PInt 213);
           (py "chunk_id", PInt 7); (py "chunk_index", PInt 0);
           (py "total_chunks", PInt 1);
           (py "content_preview", PStr (repeat 120%N 200 ++ py "..."))])].

(** The pipeline after a first successful build. *)
Definition ready : RAGPipeline lib * state lib :=
  Eval vm_compute in snd (build_index true (pipeline, fresh)).

(** A retriever asked for a negative number of results: its search raises. *)
Definition broken_pipeline : RAGPipeline lib * state lib :=
  Eval vm_compute in
  snd (build_index true
         (RAGPipeline_init lib [py "docs"; py "src"] (py "./vectorstore") (-1), fresh)).

(** The entry of [sources] either piece of a.md gives when it scores 0.9. *)
Definition a_source : pydict :=
  [(py "filename", PStr (py "a.md")); (py "path", PStr (py "docs/a.md"));
   (py "score", PFloat 0.9%float)].

End Toy.

(** ** The rest of the program

    The loader's constructor, the statistics of the pipeline, and the
    other endpoints and tasks of [app/main.py]. *)

(** What [os.listdir], [os.path.isfile], [os.path.getsize] and
    [os.path.join] answer in a world: [get_stats] only reads. *)
Record DirectoryApi (L : Library) : Type := {
  os_listdir : pystr -> ext L -> result (list pystr);
  os_path_isfile : pystr -> ext L -> bool;
  os_path_getsize : pystr -> ext L -> result Z;
  os_path_join : pystr -> pystr -> pystr
}.

(** [l[:k]] for any [int] [k]: a negative [k] counts from the end. *)
Definition py_prefix {A : Type} (k : Z) (l : list A) : list A :=
  if (0 <=? k)%Z then firstn (Z.to_nat k) l
  else firstn (length l - Z.to_nat (- k)) l.

(** [v[:k]] *)
Definition py_prefix_of (k : Z) (v : pyval) : result pyval :=
  match v with
  | PStr s => inr (PStr (py_prefix k s))
  | PList l => inr (PList (py_prefix k l))
  | _ => inl (TypeError (lit "'" ++ [FLit (py_type_name v)] ++ lit "' object is not subscriptable"))
  end.

Section Endpoints.

Variable L : Library.

Notation "x <- m ;; k" := (bind m (fun x => k))
  (at level 61, m at next level, right associativity).
Notation "m ;; k" := (bind m (fun _ => k))
  (at level 61, right associativity).

(** [DocumentLoader(source_dirs)] *)
Definition DocumentLoader_init (dirs : list pystr) : DocumentLoader :=
  {| loader_source_dirs := dirs; supported_extensions := [py ".py"; py ".md"] |}.

(** The pipeline object after [self.index = idx]. *)
Definition with_index (self : RAGPipeline L) (idx : VectorStoreIndex L) : RAGPipeline L :=
  {| source_dirs := source_dirs self; persist_directory := persist_directory self;
     top_k := top_k self; loader := loader self; embedder := embedder self;
     retriever := retriever self; index := Some idx |}.

(** The pipeline object after [self.retriever = r]. *)
Definition with_retriever (self : RAGPipeline L) (r : RAGRetriever L) : RAGPipeline L :=
  {| source_dirs := source_dirs self; persist_directory := persist_directory self;
     top_k := top_k self; loader := loader self; embedder := embedder self;
     retriever := Some r; index := index self |}.

Variable D : DirectoryApi L.

(** The [sum(...)] of [get_stats]: the sizes of the regular files among
    [names], read in order. *)
Fixpoint sum_sizes (directory : pystr) (names : list pystr) (w : ext L) : result Z :=
  match names with
  | [] => inr 0%Z
  | f :: rest =>
      if os_path_isfile D (os_path_join D directory f) w then
        match os_path_getsize D (os_path_join D directory f) w with
        | inl e => inl e
        | inr n =>
            match sum_sizes directory rest w with
            | inl e => inl e
            | inr total => inr (n + total)%Z
            end
        end
      else sum_sizes directory rest w
  end.

(** [get_stats()] *)
Definition get_stats : Method L pydict :=
  self <- @get_self L ;;
  let stats :=
    [(py "source_directories", PList (map PStr (source_dirs self)));
     (py "persist_directory", PStr (persist_directory self));
     (py "top_k_retrieval", PInt (top_k self));
     (py "index_exists", PBool (match index self with Some _ => true | None => false end));
     (py "retriever_ready",
      PBool (match retriever self with Some _ => true | None => false end))] in
  found <- io (peek (os_path_exists L (persist_directory self))) ;;
  if found then
    names <- io (call (fun w => (os_listdir D (persist_directory self) w, w))) ;;
    size <- io (call (fun w => (sum_sizes (persist_directory self) names w, w))) ;;
    ret (dict_set (py "vector_store_size") (PInt size) stats)
  else ret stats.

(** ** app/main.py: startup and the other endpoints *)

(** The startup half of [lifespan]. *)
Definition lifespan_startup : Method L unit :=
  io (log_with_phase "info" "api" (lit "Starting RAG API server")) ;;
  try_except
    (build_index true ;;
     io (log_with_phase "info" "api" (lit "RAG pipeline ready")))
    (fun e =>
       io (log_with_phase "error" "api"
             (lit "Failed to initialize pipeline: " ++ exn_str e)) ;;
       raise e).

(** [health_check()] *)
Definition health_check : Method L pydict :=
  self <- @get_self L ;;
  now <- io (@time_time L) ;;
  ret [(py "status", PStr (py "healthy"));
       (py "pipeline_ready",
        PBool (match retriever self with Some _ => true | None => false end));
       (py "timestamp", PFloat now)].

(** The [/stats] endpoint. *)
Definition get_stats_endpoint : Method L pydict :=
  try_except get_stats
    (fun e =>
       io (log_with_phase "error" "api" (lit "Failed to get stats: " ++ exn_str e)) ;;
       raise (HTTPException 500 (exn_str e))).

(** The closure [rebuild_task] that [rebuild_index] hands to the
    background tasks. *)
Definition rebuild_task (force_rebuild : bool) : Method L unit :=
  try_except
    (build_index force_rebuild ;;
     io (log_with_phase "info" "api" (lit "Index rebuild completed successfully")))
    (fun e =>
       io (log_with_phase "error" "api" (lit "Index rebuild failed: " ++ exn_str e))).

(** [rebuild_index(request, background_tasks)]: the answer, and the
    task it has added. *)
Definition rebuild_index (force_rebuild : bool) : Method L (pydict * Method L unit) :=
  io (log_with_phase "info" "api"
        (lit "Index rebuild requested (force_rebuild=" ++ [FStr (PBool force_rebuild)]
         ++ lit ")")) ;;
  ret ([(py "message", PStr (py "Index rebuild started"));
        (py "force_rebuild", PBool force_rebuild);
        (py "status", PStr (py "processing"))],
       rebuild_task force_rebuild).

(** [search_documents(q, top_k)] *)
Definition search_documents (q : pystr) (k : Z) : Method L pydict :=
  if negb (py_truthy (PStr (strip q))) then
    raise (HTTPException 400 (lit "Query parameter 'q' cannot be empty"))
  else
    try_except
      (result <- query q true ;;
       results <- of_result (py_prefix_of k (dict_get_default (py "results") (PList []) result)) ;;
       ret [(py "query", PStr q);
            (py "results", results);
            (py "total_found", dict_get_default (py "total_results") (PInt 0) result);
            (py "processing_time",
             dict_get_default (py "total_processing_time") (PInt 0) result)])
      (fun e =>
         io (log_with_phase "error" "api" (lit "Search failed: " ++ exn_str e)) ;;
         raise (HTTPException 500 (exn_str e))).

End Endpoints.

(** ** Predicates of the further properties *)

(** A document as [_load_from_directory] builds it for a visible file
    with an accepted extension. *)
Definition loaded_document (doc : pydict) : Prop :=
  exists content path filename extension directory,
    doc = [(py "content", PStr content);
           (py "metadata",
            PDict [(py "path", PStr path);
                   (py "filename", PStr filename);
                   (py "extension", PStr extension);
                   (py "size", PInt (Z.of_nat (length content)));
                   (py "directory", PStr directory)])] /\
    startswith (py ".") filename = false /\
    (extension = py ".py" \/ extension = py ".md").

(** All the files the statistics speak of. *)
Definition stat_total (st : load_stats) : Z :=
  (stat_py st + stat_md st + stat_skipped st + stat_failed st)%Z.

(** Where a method started on the object [self] leaves that object:
    [Q] holds of the outcome and the object at the end. *)
Definition tracks {L : Library} {A : Type} (self : RAGPipeline L) (m : Method L A)
    (Q : result A -> RAGPipeline L -> Prop) : Prop :=
  forall s r ps', m (self, s) = (r, ps') -> Q r (fst ps').

(** The configuration of a pipeline: what its constructor fixes. *)
Definition same_config {L : Library} (a b : RAGPipeline L) : Prop :=
  source_dirs a = source_dirs b /\ persist_directory a = persist_directory b /\
  top_k a = top_k b /\ loader a = loader b /\ embedder a = embedder b.

(** A string that neither starts nor ends with white space. *)
Definition trimmed (s : pystr) : Prop :=
  (forall c rest, s = c :: rest -> py_isspace c = false) /\
  (forall init c, s = init ++ [c] -> py_isspace c = false).

(** The documents so far are well formed and as many as the files
    counted as loaded. *)
Definition loader_invariant (acc : list pydict * load_stats) : Prop :=
  Forall loaded_document (fst acc) /\
  Z.of_nat (length (fst acc)) = (stat_py (snd acc) + stat_md (snd acc))%Z.

(** A pipeline that serves: its retriever searches the index the
    pipeline holds, with the topK the pipeline was configured with. *)
Definition serving {L : Library} (self : RAGPipeline L) : Prop :=
  exists idx r,
    index self = Some idx /\ retriever self = Some r /\
    retriever_index r = idx /\ retriever_top_k r = top_k self /\
    vector_retriever r = {| vir_index := idx; similarity_top_k := top_k self |}.

(** ** The small world, continued *)

Module ToyFiles.

(** A persistence directory with one data file and one subdirectory. *)
Definition entries (p : pystr) (w : Toy.toy_world) : result (list pystr) :=
  if Toy.exists_path p w then inr [py "chroma.sqlite3"; py "segments"]
  else inl (LibraryError (lit "No such file or directory")).

Definition regular (p : pystr) (w : Toy.toy_world) : bool :=
  str_eqb (Toy.suffix p) (py ".sqlite3").

Definition size_of (p : pystr) (w : Toy.toy_world) : result Z := inr 4096%Z.

Definition directories : DirectoryApi Toy.lib :=
  @Build_DirectoryApi Toy.lib entries regular size_of Toy.join.

(** Source directories that do not exist. *)
Definition nowhere : state Toy.lib :=
  @Build_state Toy.lib
    {| Toy.now := 100%float; Toy.paths := []; Toy.files := Toy.corpus;
       Toy.stored := None |} [].

(** A store that opens: the directory and a collection of one chunk. *)
Definition persisted : state Toy.lib :=
  @Build_state Toy.lib
    {| Toy.now := 100%float; Toy.paths := [py "docs"; py "./vectorstore"];
       Toy.files := Toy.corpus;
       Toy.stored := Some [(py "scene one", Toy.a_md)] |} [].

(** An index whose search gives a node without score. *)
Definition unscored (idx : list (pystr * pydict)) (k : Z) (q : pystr) (w : Toy.toy_world)
    : result (list NodeWithScore) * Toy.toy_world :=
  (inr (map (fun c => {| node_text := fst c; node_metadata := snd c; node_score := None |})
          idx), w).

Definition lib_unscored : Library :=
  {| ext := Toy.toy_world;
     VectorStoreIndex := list (pystr * pydict);
     chroma_client := unit;
     chroma_collection := list (pystr * pydict);
     synthesizer := unit;
     clock := Toy.tick;
     os_getenv := fun _ _ => Some (py "sk-secret");
     os_path_exists := Toy.exists_path;
     os_walk := Toy.walk;
     read_text := Toy.read;
     path_join := Toy.join;
     path_suffix := Toy.suffix;
     PersistentClient := Toy.open_client;
     get_collection := Toy.find_collection;
     create_collection := Toy.new_collection;
     from_documents := Toy.index_documents;
     from_vector_store := Toy.open_index;
     get_response_synthesizer := fun w => (inr tt, w);
     vector_search := unscored;
     synthesize := Toy.answer |}.

Definition unscored_start : state lib_unscored :=
  @Build_state lib_unscored
    {| Toy.now := 100%float; Toy.paths := [py "docs"]; Toy.files := Toy.corpus;
       Toy.stored := None |} [].

(** The pipeline over that index, after its build. *)
Definition unscored_ready : RAGPipeline lib_unscored * state lib_unscored :=
  Eval vm_compute in
  snd (build_index true
         (RAGPipeline_init lib_unscored [py "docs"] (py "./vectorstore") 5, unscored_start)).

(** Two documents as the loader makes them. *)
Definition loaded : list pydict :=
  [[(py "content", PStr (py "  scene = Scene()  "));
    (py "metadata",
     PDict [(py "path", PStr (py "docs/a.py")); (py "filename", PStr (py "a.py"));
            (py "extension", PStr (py ".py")); (py "size", PInt 19);
            (py "directory", PStr (py "docs"))])];
   [(py "content", PStr (py "scene tutorial"));
    (py "metadata",
     PDict [(py "path", PStr (py "docs/b.md")); (py "filename", PStr (py "b.md"));
            (py "extension", PStr (py ".md")); (py "size", PInt 14);
            (py "directory", PStr (py "docs"))])]].

(** Their chunks. *)
Definition chunked : list pydict := Eval vm_compute in chunks_from 0 loaded.

(** Retrievers put together by hand over [Toy.twice]. *)
Definition retriever_over (L : Library) (idx : VectorStoreIndex L) (synth : synthesizer L)
    (k : Z) : RAGRetriever L :=
  {| retriever_index := idx; retriever_top_k := k;
     vector_retriever := {| vir_index := idx; similarity_top_k := k |};
     query_engine :=
       {| engine_retriever := {| vir_index := idx; similarity_top_k := k |};
          node_postprocessors := [{| similarity_cutoff := Some 0.7%float |}];
          response_synthesizer := synth |} |}.

Definition two_best : RAGRetriever Toy.lib := retriever_over Toy.lib Toy.twice tt 2.

Definition negative : RAGRetriever Toy.lib := retriever_over Toy.lib Toy.twice tt (-1).

Definition scoreless : RAGRetriever lib_unscored :=
  retriever_over lib_unscored Toy.twice tt 5.

(** Similarities: 0.9 for a chunk that starts with the query, 0.5 for
    any other, which is below the cutoff of the generation path. *)
Definition scored_chunk (q : pystr) (c : pystr * pydict) : ScoredChunk :=
  if startswith q (fst c) then
    @Build_ScoredChunk (fst c) (snd c) 0.9%float eq_refl
  else
    @Build_ScoredChunk (fst c) (snd c) 0.5%float eq_refl.

Definition similarities (idx : list (pystr * pydict)) (q : pystr) (w : Toy.toy_world)
    : result (list ScoredChunk) * Toy.toy_world :=
  (inr (map (scored_chunk q) idx), w).

(** The small world with the index search of the spec. *)
Definition lib_ranked : Library := with_similarity_search Toy.lib similarities.

Definition ranked_start : state lib_ranked :=
  @Build_state lib_ranked
    {| Toy.now := 100%float; Toy.paths := [py "docs"]; Toy.files := Toy.corpus;
       Toy.stored := None |} [].

Definition blank_request : QueryRequest :=
  {| request_query := py "  "; request_retrieve_only := false; request_top_k := None |}.

Definition scene_request (retrieve_only : bool) : QueryRequest :=
  {| request_query := py "scene"; request_retrieve_only := retrieve_only;
     request_top_k := None |}.

End ToyFiles.

(** A chunk the conversion loop of [create_vector_store] can read: a
    [str] as content, and metadata with a chunk id, a file name and a
    preview that can be sliced. *)
Definition embeddable (chunk : pydict) : Prop :=
  exists content metadata chunk_id filename preview,
    dict_get (py "content") chunk = Some (PStr content) /\
    dict_get (py "metadata") chunk = Some (PDict metadata) /\
    dict_get (py "chunk_id") metadata = Some chunk_id /\
    dict_get (py "filename") metadata = Some filename /\
    dict_get (py "content_preview") metadata = Some (PStr preview).

(** The LlamaIndex document made of a chunk. *)
Definition llama_document (chunk : pydict) : Document :=
  {| doc_text := dict_get_default (py "content") PNone chunk;
     doc_metadata := dict_get_default (py "metadata") PNone chunk;
     doc_id :=
       [FStr (match dict_get_default (py "metadata") PNone chunk with
              | PDict metadata => dict_get_default (py "chunk_id") PNone metadata
              | _ => PNone
              end)] |}.

(** The exception [e] comes out of the store or of the synthesizer
    setup: one of the library calls of a build raises it in some world. *)
Definition library_raises (L : Library) (e : exn) : Prop :=
  exists w w',
    (exists path, PersistentClient L path w = (inl e, w')) \/
    (exists client name, create_collection L client name w = (inl e, w')) \/
    (exists documents collection, from_documents L documents collection w = (inl e, w')) \/
    get_response_synthesizer L w = (inl e, w').

(** * Properties *)

Lemma str_eqb_refl (a : pystr) : str_eqb a a = true.
Proof.
  induction a as [|x a IH]; simpl; [reflexivity|].
  now rewrite N.eqb_refl, IH.
Qed.

Lemma str_eqb_eq (a b : pystr) : str_eqb a b = true <-> a = b.
Proof.
  split; [|intros ->; apply str_eqb_refl].
  revert b; induction a as [|x a IH]; intros [|y b]; simpl; try discriminate; auto.
  intros H. apply andb_prop in H as [Hx Hab].
  apply N.eqb_eq in Hx. f_equal; auto.
Qed.

Lemma dict_get_set_same (k : pystr) (v : pyval) (d : pydict) :
  dict_get k (dict_set k v d) = Some v.
Proof.
  induction d as [|[k' v'] d IH]; simpl.
  - now rewrite str_eqb_refl.
  - destruct (str_eqb k k') eqn:E; simpl; rewrite E; auto.
Qed.

Lemma dict_get_set_other (k k' : pystr) (v : pyval) (d : pydict) :
  str_eqb k k' = false -> dict_get k (dict_set k' v d) = dict_get k d.
Proof.
  intros Hne. induction d as [|[k0 v0] d IH]; simpl.
  - now rewrite Hne.
  - destruct (str_eqb k' k0) eqn:E; simpl.
    + apply str_eqb_eq in E; subst k0. now rewrite Hne.
    + now rewrite IH.
Qed.

Lemma dict_get_default_set_same (k : pystr) (v default : pyval) (d : pydict) :
  dict_get_default k default (dict_set k v d) = v.
Proof. unfold dict_get_default. now rewrite dict_get_set_same. Qed.

(** ** The chunker *)

Section Chunker.

(** A chunk comes only from a document with text content and a
    metadata dict, and is made of the trimmed content and the extended
    metadata. *)
Lemma preprocess_single_inv (doc : pydict) (doc_id : nat) (chunk : pydict) :
  _preprocess_single_document doc doc_id = inr chunk ->
  exists raw metadata,
    dict_get (py "content") doc = Some (PStr raw) /\
    dict_get (py "metadata") doc = Some (PDict metadata) /\
    chunk =
      [(py "content", PStr (strip raw));
       (py "metadata",
        PDict (dict_set (py "content_preview")
                 (PStr (if Nat.ltb 200 (length (strip raw))
                        then slice_to 200 (strip raw) ++ py "..."
                        else strip raw))
                 (dict_set (py "total_chunks") (PInt 1)
                    (dict_set (py "chunk_index") (PInt 0)
                       (dict_set (py "chunk_id") (PInt (Z.of_nat doc_id))
                          (dict_update [] metadata))))))].
Proof.
  unfold _preprocess_single_document, py_getitem.
  destruct (dict_get (py "content") doc) as [c|] eqn:Hc; [|discriminate].
  destruct c; try discriminate.
  destruct (dict_get (py "metadata") doc) as [m|] eqn:Hm; [|discriminate].
  destruct m; try discriminate.
  intros H. injection H as <-. eauto.
Qed.

(** Every document with text content and a metadata dict yields a chunk. *)
Lemma preprocess_single_total (doc : pydict) (doc_id : nat) (raw : pystr) (metadata : pydict) :
  dict_get (py "content") doc = Some (PStr raw) ->
  dict_get (py "metadata") doc = Some (PDict metadata) ->
  exists chunk, _preprocess_single_document doc doc_id = inr chunk.
Proof.
  intros Hc Hm. unfold _preprocess_single_document, py_getitem.
  rewrite Hc, Hm. eauto.
Qed.

(** C8: the content preview of a chunk is the trimmed content itself
    when that has at most 200 characters, its first 200 characters
    followed by the marker "..." otherwise, and never has more than 203
    characters. *)
Theorem content_preview_bounded (doc : pydict) (doc_id : nat) (chunk : pydict) :
  _preprocess_single_document doc doc_id = inr chunk ->
  exists raw metadata preview,
    dict_get (py "content") doc = Some (PStr raw) /\
    dict_get (py "content") chunk = Some (PStr (strip raw)) /\
    dict_get (py "metadata") chunk = Some (PDict metadata) /\
    dict_get (py "content_preview") metadata = Some (PStr preview) /\
    (length (strip raw) <= 200 -> preview = strip raw) /\
    (200 < length (strip raw) -> preview = firstn 200 (strip raw) ++ py "...") /\
    length preview <= 203.
Proof.
  intros H. apply preprocess_single_inv in H as (raw & md & Hc & _ & ->).
  eexists raw, _, _. split; [exact Hc|].
  split; [reflexivity|]. split; [reflexivity|].
  split; [apply dict_get_set_same|].
  unfold slice_to.
  destruct (Nat.ltb 200 (length (strip raw))) eqn:E.
  - apply Nat.ltb_lt in E.
    split; [intros; lia|]. split; [intros _; reflexivity|].
    rewrite length_app, length_firstn.
    change (length (py "...")) with 3. lia.
  - apply Nat.ltb_ge in E.
    split; [intros _; reflexivity|]. split; [intros; lia|]. lia.
Qed.

Lemma content_preview_bounded_witness :
  exists raw metadata preview,
    dict_get (py "content") Toy.long_document = Some (PStr raw) /\
    dict_get (py "content") Toy.long_chunk = Some (PStr (strip raw)) /\
    dict_get (py "metadata") Toy.long_chunk = Some (PDict metadata) /\
    dict_get (py "content_preview") metadata = Some (PStr preview) /\
    (length (strip raw) <= 200 -> preview = strip raw) /\
    (200 < length (strip raw) -> preview = firstn 200 (strip raw) ++ py "...") /\
    length preview <= 203.
Proof.
  apply (@content_preview_bounded Toy.long_document 7 Toy.long_chunk).
  vm_compute. reflexivity.
Defined.

End Chunker.

(** ** The chunking loop *)

Section ChunkingLoop.

Variable L : Library.

(** C9 does not hold of the loop: for a document without a ['metadata']
    entry chunking raises, and so does the handler that has to report
    it, so the whole call is aborted instead of dropping the document. *)
Theorem preprocess_documents_aborts (s : state L) :
  fst (preprocess_documents [[(py "content", PStr (py "abc"))]] s)
  = inl (KeyError (PStr (py "metadata"))).
Proof.
  unfold preprocess_documents, bind, time_time, call.
  destruct (clock L (world s)) as [t w]. reflexivity.
Qed.

(** A document whose metadata has no ['filename']: it is chunked and
    appended, then the debug line raises, and the document is reported
    as failed while its chunk stays in the output. *)
Lemma preprocess_documents_keeps_reported (s : state L) :
  exists chunk s',
    preprocess_documents [[(py "content", PStr (py "abc")); (py "metadata", PDict [])]] s
    = (inr [chunk], s') /\
    In {| levelname := py "error"; phase := py "preprocessing";
          message := lit "Failed to preprocess " ++ [FStr (PStr (py "unknown"))]
                     ++ lit ": " ++ [FRepr (PStr (py "filename"))] |}
       (logged s').
Proof.
  unfold preprocess_documents, bind, time_time, call.
  destruct (clock L (world s)) as [t w]. cbn.
  destruct (clock L w) as [t' w']. cbn.
  eexists _, _. split; [reflexivity|].
  cbn. rewrite !in_app_iff. cbn. intuition.
Qed.

(** What the handler needs to do its work: a metadata dict. *)
Lemma preprocess_failed_returns (doc metadata : pydict) (e : exn) (s : state L) :
  dict_get (py "metadata") doc = Some (PDict metadata) ->
  exists s', preprocess_failed doc e s = (inr tt, s') /\ world s' = world s.
Proof.
  intros Hm. unfold preprocess_failed, bind, of_result, py_getitem, py_get, log_with_phase.
  rewrite Hm. eexists. split; reflexivity.
Qed.

Lemma preprocess_step_returns (doc metadata : pydict) (i : nat) (acc : list pydict)
    (s : state L) :
  dict_get (py "metadata") doc = Some (PDict metadata) ->
  exists s',
    preprocess_step (i, doc) acc s
    = (inr (acc ++ match _preprocess_single_document doc i with
                   | inr chunk => [chunk]
                   | inl _ => []
                   end), s') /\
    world s' = world s.
Proof.
  intros Hm. unfold preprocess_step.
  destruct (_preprocess_single_document doc i) as [e|chunk].
  - unfold bind. destruct (@preprocess_failed_returns doc metadata e s Hm) as (s' & -> & Hw).
    exists s'. rewrite app_nil_r. split; [reflexivity|exact Hw].
  - destruct (processed_message doc) as [e|msg].
    + unfold bind. destruct (@preprocess_failed_returns doc metadata e s Hm) as (s' & -> & Hw).
      exists s'. split; [reflexivity|exact Hw].
    + unfold bind, log_with_phase, ret. eexists. split; reflexivity.
Qed.

Lemma preprocess_loop_returns (documents : list pydict) :
  Forall (fun doc => exists metadata, dict_get (py "metadata") doc = Some (PDict metadata))
         documents ->
  forall (i : nat) (acc : list pydict) (s : state L),
  exists s',
    for_each (enumerate_from i documents) (@preprocess_step L) acc s
    = (inr (acc ++ chunks_from i documents), s') /\
    world s' = world s.
Proof.
  induction 1 as [|doc rest [metadata Hm] _ IH]; intros i acc s.
  - exists s. cbn. rewrite app_nil_r. split; reflexivity.
  - cbn [enumerate_from for_each chunks_from]. unfold bind at 1.
    destruct (@preprocess_step_returns doc metadata i acc s Hm) as (s1 & -> & Hw1).
    destruct (IH (S i)
                (acc ++ match _preprocess_single_document doc i with
                        | inr chunk => [chunk]
                        | inl _ => []
                        end) s1) as (s2 & -> & Hw2).
    exists s2. split; [|congruence].
    destruct (_preprocess_single_document doc i) as [e|chunk].
    + now rewrite app_nil_r.
    + now rewrite <- app_assoc.
Qed.

(** The part of C9 the loop does achieve: when every document has a
    metadata dict the call returns, with the chunks of the documents
    that could be chunked, in order; the others are dropped. *)
Lemma preprocess_documents_returns (documents : list pydict) (s : state L) :
  Forall (fun doc => exists metadata, dict_get (py "metadata") doc = Some (PDict metadata))
         documents ->
  exists s', preprocess_documents documents s = (inr (chunks_from 0 documents), s').
Proof.
  intros Hall. unfold preprocess_documents.
  unfold bind at 1, time_time at 1, call. destruct (clock L (world s)) as [t w].
  unfold bind at 1, log_with_phase at 1. cbn [fst snd world logged].
  unfold bind at 1, enumerate.
  match goal with |- context [for_each _ _ [] ?st] =>
    destruct (@preprocess_loop_returns documents Hall 0 [] st) as (s1 & -> & _) end.
  cbn [app]. unfold bind, time_time, call, log_with_phase, ret.
  destruct (clock L (world s1)) as [t1 w1]. eexists. reflexivity.
Qed.

End ChunkingLoop.

(** ** The /query endpoint *)

Section Service.

Variable L : Library.

(** C10: two submit-query requests that differ at most in the optional
    top-k override are handled alike: same call into the pipeline, same
    response, same effects. *)
Theorem query_documents_ignores_top_k (r1 r2 : QueryRequest) (ps : RAGPipeline L * state L) :
  request_query r1 = request_query r2 ->
  request_retrieve_only r1 = request_retrieve_only r2 ->
  query_documents r1 ps = query_documents r2 ps.
Proof.
  destruct r1 as [q1 o1 k1], r2 as [q2 o2 k2]. cbn.
  intros -> ->. reflexivity.
Qed.

End Service.

(** ** The index lifecycle *)

Arguments py : simpl never.
Arguments lit : simpl never.

Section Lifecycle.

Variable L : Library.

Lemma keeps_weaken {A} (P Q : A -> Prop) (m : Method L A) :
  (forall a, P a -> Q a) -> keeps_retriever_unless P m -> keeps_retriever_unless Q m.
Proof.
  intros HPQ Hm ps r ps' E.
  destruct (Hm _ _ _ E) as [(a & -> & Ha)|Hk]; eauto.
Qed.

Lemma keeps_io {A} (m : IO L A) : keeps_retriever (io m).
Proof.
  intros ps r ps' E. right. unfold io in E.
  destruct (m (snd ps)) as [r0 s0]. now inversion E.
Qed.

Lemma keeps_get_self : keeps_retriever (@get_self L).
Proof. intros ps r ps' E. right. now inversion E. Qed.

Lemma keeps_set_index (idx : VectorStoreIndex L) : keeps_retriever (set_index idx).
Proof. intros ps r ps' E. right. now inversion E. Qed.

Lemma keeps_ret {A} (a : A) : keeps_retriever (ret a : Method L A).
Proof. intros ps r ps' E. right. now inversion E. Qed.

Lemma keeps_raise {A} (e : exn) : keeps_retriever (raise e : Method L A).
Proof. intros ps r ps' E. right. now inversion E. Qed.

(** A prefix that keeps the retriever can be put before any method. *)
Lemma keeps_bind {A B} (P : B -> Prop) (m : Method L A) (k : A -> Method L B) :
  keeps_retriever m ->
  (forall a, keeps_retriever_unless P (k a)) ->
  keeps_retriever_unless P (bind m k).
Proof.
  intros Hm Hk ps r ps' E. unfold bind in E.
  destruct (m ps) as [[e|a] ps1] eqn:Em.
  - inversion E; subst. destruct (Hm _ _ _ Em) as [(a & _ & [])|Hr]. now right.
  - destruct (Hm _ _ _ Em) as [(a' & _ & [])|Hr].
    destruct (Hk a _ _ _ E) as [Hp|Hr']; [now left|right; congruence].
Qed.

(** A handler that keeps the retriever can follow a guarded block. *)
Lemma keeps_try_except {A} (P : A -> Prop) (m : Method L A) (h : exn -> Method L A) :
  keeps_retriever_unless P m ->
  (forall e, keeps_retriever_unless P (h e)) ->
  keeps_retriever_unless P (try_except m h).
Proof.
  intros Hm Hh ps r ps' E. unfold try_except in E.
  destruct (m ps) as [[e|a] ps1] eqn:Em.
  - destruct (Hm _ _ _ Em) as [(a & Habs & _)|Hr]; [discriminate|].
    destruct (Hh e _ _ _ E) as [Hp|Hr']; [now left|right; congruence].
  - inversion E; subst. exact (Hm _ _ _ Em).
Qed.

(** Once the retriever is assigned, [build_index] only reads the clock
    and logs: it returns. *)
Lemma after_set_retriever {A} (r : RAGRetriever L) (start_time : float)
    (msg : float -> text) (a : A) (P : A -> Prop) :
  P a ->
  keeps_retriever_unless P
    (bind (set_retriever r) (fun _ =>
     bind (io (@time_time L)) (fun now =>
     bind (io (log_with_phase "info" "pipeline" (msg now))) (fun _ => ret a)))).
Proof.
  intros Ha ps res ps' E. left. exists a. split; [|exact Ha].
  unfold bind, set_retriever, io, time_time, call, log_with_phase, ret in E.
  cbn in E. destruct (clock L (world (snd ps))) as [t w]. now inversion E.
Qed.

Lemma reuse_path_keeps (start_time : float) :
  keeps_retriever_unless (fun returned => returned = true) (@reuse_path L start_time).
Proof.
  unfold reuse_path. apply keeps_try_except.
  - apply keeps_bind; [apply keeps_get_self|]. intros self.
    apply keeps_bind; [apply keeps_io|]. intros idx.
    apply keeps_bind; [apply keeps_set_index|]. intros _.
    apply keeps_bind; [apply keeps_io|]. intros r.
    apply (after_set_retriever r start_time
             (fun now => lit "Loaded existing index in "
                         ++ [FFixed 2 (PFloat (PrimFloat.sub now start_time))] ++ lit "s")).
    reflexivity.
  - intros e. apply keeps_bind; [apply keeps_io|]. intros _.
    eapply keeps_weaken; [|apply keeps_ret]. intros _ [].
Qed.

Lemma existing_index_block_keeps (force_rebuild : bool) :
  keeps_retriever_unless (fun block => snd block = true)
    (@existing_index_block L force_rebuild).
Proof.
  unfold existing_index_block.
  apply keeps_bind; [apply keeps_io|]. intros start_time.
  apply keeps_bind; [apply keeps_io|]. intros _.
  apply keeps_bind; [apply keeps_get_self|]. intros self.
  destruct (negb force_rebuild).
  - apply keeps_bind; [apply keeps_io|]. intros [|].
    + intros ps r ps' E. unfold bind in E.
      destruct (reuse_path start_time ps) as [[e|returned] ps1] eqn:Er.
      * inversion E; subst.
        destruct (reuse_path_keeps start_time _ Er) as [(a & Habs & _)|Hr]; [discriminate|now right].
      * inversion E; subst.
        destruct (reuse_path_keeps start_time _ Er) as [(a & Ha & ->)|Hr]; [|now right].
        left. eexists. split; [reflexivity|]. now inversion Ha.
    + eapply keeps_weaken; [|apply keeps_ret]. intros _ [].
  - eapply keeps_weaken; [|apply keeps_ret]. intros _ [].
Qed.

Lemma rebuild_path_keeps (start_time : float) :
  keeps_retriever_on_error (@rebuild_path L start_time).
Proof.
  unfold rebuild_path, keeps_retriever_on_error.
  apply keeps_bind; [apply keeps_io|]. intros _.
  apply keeps_bind; [apply keeps_get_self|]. intros self.
  apply keeps_bind; [apply keeps_io|]. intros loaded.
  destruct (negb (py_truthy (PList (map PDict (fst loaded))))).
  - eapply keeps_weaken; [|apply keeps_raise]. intros _ [].
  - apply keeps_bind; [apply keeps_io|]. intros processed_docs.
    apply keeps_bind; [apply keeps_io|]. intros idx.
    apply keeps_bind; [apply keeps_set_index|]. intros _.
    apply keeps_bind; [apply keeps_io|]. intros r.
    apply (after_set_retriever r start_time
             (fun now => lit "Index building completed in "
                         ++ [FFixed 2 (PFloat (PrimFloat.sub now start_time))]
                         ++ lit "s. Processed " ++ [FStr (py_len (fst loaded))]
                         ++ lit " documents")).
    exact I.
Qed.

(** C2: a build that raises leaves the served retriever as it was; the
    field is written only once the new retriever exists. *)
Theorem failed_build_keeps_retriever (force_rebuild : bool)
    (ps ps' : RAGPipeline L * state L) (e : exn) :
  build_index force_rebuild ps = (inl e, ps') ->
  retriever (fst ps') = retriever (fst ps).
Proof.
  unfold build_index, bind. intros H.
  destruct (existing_index_block force_rebuild ps) as [[e0|block] ps1] eqn:Eb.
  - inversion H; subst.
    destruct (existing_index_block_keeps force_rebuild _ Eb) as [(a & Habs & _)|Hr];
      [discriminate|exact Hr].
  - destruct (snd block) eqn:Es; [discriminate|].
    destruct (existing_index_block_keeps force_rebuild _ Eb) as [(a & Ha & Hs)|Hr].
    + inversion Ha; subst. congruence.
    + destruct (rebuild_path_keeps (fst block) _ H) as [(a & Habs & _)|Hr']; [discriminate|].
      congruence.
Qed.

Lemma time_time_eq (s : state L) (t : float) (w : ext L) :
  clock L (world s) = (t, w) ->
  @time_time L s = (inr t, {| world := w; logged := logged s |}).
Proof. intros H. unfold time_time, call. now rewrite H. Qed.

(** C1: when [build_index] reaches its full rebuild path and the loader
    hands back no document, the call raises the empty-corpus error, and
    that error is the outcome of [build_index] itself. *)
Theorem empty_corpus_is_fatal (force_rebuild : bool) (ps ps1 : RAGPipeline L * state L)
    (start_time : float) (stats : load_stats) (s2 : state L) :
  existing_index_block force_rebuild ps = (inr (start_time, false), ps1) ->
  load_documents (loader (fst ps1))
    (snd (log_with_phase "info" "pipeline"
            (lit "Building new index from source documents") (snd ps1)))
  = (inr ([], stats), s2) ->
  build_index force_rebuild ps = (inl EmptyCorpusError, (fst ps1, s2)).
Proof.
  intros Hblock Hload.
  unfold build_index, bind. rewrite Hblock. cbn [fst snd].
  unfold rebuild_path, bind, io, get_self. cbn [fst snd].
  unfold log_with_phase at 1. cbn [fst snd].
  unfold log_with_phase in Hload. cbn [fst snd] in Hload.
  rewrite Hload. reflexivity.
Qed.

(** C3: with [force_rebuild] false and the persistence directory
    present, the index is first reopened; when that raises, whatever the
    exception, a warning is logged and the call goes on with the full
    rebuild, whose outcome is the outcome of the call. *)
Theorem open_failure_falls_back (self : RAGPipeline L) (s s2 : state L)
    (start_time : float) (w1 : ext L) (e : exn) :
  clock L (world s) = (start_time, w1) ->
  os_path_exists L (persist_directory self) w1 = true ->
  load_existing_index (embedder self)
    {| world := w1;
       logged := logged s ++ [{| levelname := py "info"; phase := py "pipeline";
                                 message := lit "Starting index building process" |}] |}
  = (inl e, s2) ->
  let warned :=
    {| world := world s2;
       logged := logged s2 ++
                 [{| levelname := py "warning"; phase := py "pipeline";
                     message := lit "Failed to load existing index: " ++ exn_str e
                                ++ lit ". Rebuilding..." |}] |} in
  existing_index_block false (self, s) = (inr (start_time, false), (self, warned)) /\
  build_index false (self, s) = rebuild_path start_time (self, warned).
Proof.
  intros Hclock Hexists Hopen warned.
  assert (Hblock : existing_index_block false (self, s)
                   = (inr (start_time, false), (self, warned))).
  { unfold existing_index_block, bind, io, get_self, peek, time_time, call,
      log_with_phase. cbn [fst snd world logged negb].
    rewrite Hclock. cbn [fst snd world logged].
    rewrite Hexists.
    unfold reuse_path, try_except, bind, io, get_self. cbn [fst snd].
    rewrite Hopen. reflexivity. }
  split; [exact Hblock|].
  unfold build_index, bind. rewrite Hblock. reflexivity.
Qed.

(** C4: without a bound retriever [query] raises the not-initialized
    error and does nothing else; with one, it calls retrieval or
    generation as the flag says, returns that result with the total
    time added, and re-raises unchanged whatever that call raises. *)
Theorem query_requires_retriever (self : RAGPipeline L) (s : state L)
    (query_text : pystr) (retrieve_only : bool) :
  (retriever self = None ->
   query query_text retrieve_only (self, s) = (inl NotInitializedError, (self, s)))
  /\
  (forall r start_time w1,
     retriever self = Some r ->
     clock L (world s) = (start_time, w1) ->
     let s1 :=
       {| world := w1;
          logged := logged s ++
                    [{| levelname := py "info"; phase := py "pipeline";
                        message := lit "Processing query: '" ++ abbreviated query_text
                                   ++ lit "'" |}] |} in
     let dispatch :=
       if retrieve_only then retrieve_documents r query_text
       else generate_response r query_text in
     (forall e s2,
        dispatch s1 = (inl e, s2) ->
        exists s3, query query_text retrieve_only (self, s) = (inl e, (self, s3)))
     /\
     (forall result s2,
        dispatch s1 = (inr result, s2) ->
        exists total s3,
          query query_text retrieve_only (self, s)
          = (inr (dict_set (py "total_processing_time") (PFloat total) result),
             (self, s3)))).
Proof.
  split.
  - intros Hnone. unfold query, bind, get_self. cbn [fst snd]. now rewrite Hnone.
  - intros r start_time w1 Hsome Hclock s1 dispatch.
    assert (Hq : forall out,
               query query_text retrieve_only (self, s) = out ->
               out = try_except
                       (bind (io dispatch) (fun result =>
                        bind (io (@time_time L)) (fun now =>
                        let total_time := PrimFloat.sub now start_time in
                        let result :=
                          dict_set (py "total_processing_time") (PFloat total_time) result in
                        bind (io (log_with_phase "info" "pipeline"
                                    (lit "Query processed in "
                                     ++ [FFixed 3 (PFloat total_time)] ++ lit "s")))
                             (fun _ => ret result))))
                       (fun e =>
                        bind (io (peek (os_getenv L (py "OPENAI_API_KEY")))) (fun key =>
                        bind (io (log_with_phase "error" "pipeline"
                                    (lit "Query processing failed: " ++ exn_str e ++ lit " "
                                     ++ [FStr (match key with
                                               | Some v => PStr v
                                               | None => PNone
                                               end)])))
                             (fun _ => raise e)))
                       (self, s1)).
    { intros out <-. unfold query. unfold bind at 1, get_self at 1. cbn [fst snd].
      rewrite Hsome. unfold bind at 1, io at 1. cbn [fst snd].
      rewrite (time_time_eq _ Hclock).
      unfold bind at 1, io at 1, log_with_phase at 1. cbn [fst snd world logged].
      reflexivity. }
    split.
    + intros e s2 Hd. rewrite (Hq _ eq_refl).
      unfold try_except, bind at 1, io at 1. cbn [fst snd]. rewrite Hd.
      unfold bind, io, peek, log_with_phase, raise. cbn [fst snd]. eauto.
    + intros result s2 Hd. rewrite (Hq _ eq_refl).
      unfold try_except, bind at 1, io at 1. cbn [fst snd]. rewrite Hd.
      unfold bind, io, time_time, call, log_with_phase, ret. cbn [fst snd world logged].
      destruct (clock L (world s2)) as [now w3]. cbn [fst snd]. eauto.
Qed.

End Lifecycle.

(** ** Retrieval and generation *)

Section Retrieval.

Variable L : Library.

(** What the constructor wires together. *)
Lemma RAGRetriever_init_inv (idx : VectorStoreIndex L) (k : Z)
    (s0 s1 : state L) (rr : RAGRetriever L) :
  RAGRetriever_init idx k s0 = (inr rr, s1) ->
  vector_retriever rr = {| vir_index := idx; similarity_top_k := k |} /\
  engine_retriever (query_engine rr) = {| vir_index := idx; similarity_top_k := k |} /\
  node_postprocessors (query_engine rr) = [{| similarity_cutoff := Some 0.7%float |}].
Proof.
  unfold RAGRetriever_init, bind, call, log_with_phase, ret.
  destruct (get_response_synthesizer L (world s0)) as [[e|synth] w]; [discriminate|].
  intros H. inversion H; subst. auto.
Qed.

(** The rows the loop of [retrieve_documents] makes of the nodes. *)
Lemma collect_node_loop (nodes : list NodeWithScore) :
  forall (i : nat) (results : list pydict) (titles : list pyval) (s s' : state L)
         (out : list pydict * list pyval),
    for_each (enumerate_from i nodes) (@collect_node L) (results, titles) s = (inr out, s') ->
    fst out = results ++ map (fun p => node_data (fst p) (snd p)) (enumerate_from i nodes).
Proof.
  induction nodes as [|node nodes IH]; intros i results titles s s' out H.
  - inversion H. cbn. now rewrite app_nil_r.
  - cbn [enumerate_from for_each] in H. unfold bind at 1 in H.
    destruct (collect_node (i, node) (results, titles) s) as [[e|acc] s1] eqn:E;
      [discriminate|].
    unfold collect_node, bind, of_result, log_with_phase, ret in E.
    destruct (py_format_fixed 3 (score_of node)) as [e|f]; [discriminate|].
    inversion E; subst. apply IH in H. rewrite H.
    cbn [map fst snd]. now rewrite <- app_assoc.
Qed.

(** A successful retrieval searched the index once, right after reading
    the clock, and returns one row per node the search gave. *)
Lemma retrieve_documents_inv (rr : RAGRetriever L) (q : pystr) (s s' : state L)
    (res : pydict) :
  retrieve_documents rr q s = (inr res, s') ->
  exists nodes w,
    vector_search L (vir_index (vector_retriever rr))
      (similarity_top_k (vector_retriever rr)) q (snd (clock L (world s)))
    = (inr nodes, w) /\
    dict_get (py "results") res
    = Some (PList (map PDict (map (fun p => node_data (fst p) (snd p)) (enumerate nodes)))).
Proof.
  unfold retrieve_documents. unfold bind at 1, time_time at 1, call.
  destruct (clock L (world s)) as [t w0]. cbn [fst snd world logged].
  unfold bind at 1, log_with_phase at 1. cbn [fst snd world logged].
  unfold try_except.
  match goal with |- context [match ?body with _ => _ end] =>
    destruct body as [[e|r] s2] eqn:Eb end.
  - unfold bind, log_with_phase, raise. discriminate.
  - intros H. inversion H; subst. clear H.
    unfold bind at 1, VectorIndexRetriever_retrieve, call in Eb.
    cbn [fst snd world logged] in Eb.
    destruct (vector_search L (vir_index (vector_retriever rr))
                (similarity_top_k (vector_retriever rr)) q w0) as [[e|nodes] w] eqn:Es;
      [discriminate|].
    exists nodes, w. split; [reflexivity|].
    unfold bind at 1, time_time at 1, call in Eb. cbn [fst snd world logged] in Eb.
    destruct (clock L w) as [t1 w1]. unfold bind at 1 in Eb.
    match type of Eb with context [for_each ?l ?f ?a ?st] =>
      destruct (for_each l f a st) as [[e|acc] s3] eqn:El end; [discriminate|].
    apply collect_node_loop in El. destruct acc as [results titles].
    cbn [fst app] in El. subst results.
    unfold bind, of_result, log_with_phase, ret in Eb.
    destruct (join_titles (firstn 3 titles)) as [e|shown]; [discriminate|].
    inversion Eb; subst. reflexivity.
Qed.

Lemma nth_error_enumerate_from {A} (l : list A) :
  forall i n, nth_error (enumerate_from i l) n = option_map (pair (i + n)) (nth_error l n).
Proof.
  induction l as [|x l IH]; intros i [|n]; cbn; try reflexivity.
  - now rewrite Nat.add_0_r.
  - rewrite IH. now rewrite Nat.add_succ_r.
Qed.

Lemma length_enumerate_from {A} (l : list A) :
  forall i, length (enumerate_from i l) = length l.
Proof. induction l; intros; cbn; auto. Qed.

Lemma scores_of_rows (nodes : list NodeWithScore) :
  forall i,
    map (dict_get_default (py "score") PNone)
      (map (fun p => node_data (fst p) (snd p)) (enumerate_from i nodes))
    = map score_of nodes.
Proof.
  induction nodes as [|node nodes IH]; intros i; cbn [enumerate_from map]; [reflexivity|].
  now rewrite IH.
Qed.

(** A successful generation searched the index once, right after
    reading the clock, and lists the nodes its postprocessors let pass. *)
Lemma generate_response_inv (rr : RAGRetriever L) (q : pystr) (s s' : state L)
    (res : pydict) :
  generate_response rr q s = (inr res, s') ->
  exists candidates w,
    vector_search L (vir_index (engine_retriever (query_engine rr)))
      (similarity_top_k (engine_retriever (query_engine rr))) q (snd (clock L (world s)))
    = (inr candidates, w) /\
    dict_get (py "sources") res
    = Some (PList (map PDict (map source_entry
              (fold_left (fun ns p => postprocess_nodes p ns)
                 (node_postprocessors (query_engine rr)) candidates)))).
Proof.
  unfold generate_response. unfold bind at 1, time_time at 1, call.
  destruct (clock L (world s)) as [t w0]. cbn [fst snd world logged].
  unfold bind at 1, log_with_phase at 1. cbn [fst snd world logged].
  unfold try_except.
  match goal with |- context [match ?body with _ => _ end] =>
    destruct body as [[e|r] s2] eqn:Eb end.
  - unfold bind, log_with_phase, raise. discriminate.
  - intros H. inversion H; subst. clear H.
    unfold bind at 1, RetrieverQueryEngine_query in Eb.
    unfold bind at 1, VectorIndexRetriever_retrieve, call in Eb.
    cbn [fst snd world logged] in Eb.
    destruct (vector_search L (vir_index (engine_retriever (query_engine rr)))
                (similarity_top_k (engine_retriever (query_engine rr))) q w0)
      as [[e|candidates] w] eqn:Es; [discriminate|].
    exists candidates, w. split; [reflexivity|].
    unfold bind at 1, call in Eb. cbn [fst snd world logged] in Eb.
    match type of Eb with context [synthesize L ?sy ?qq ?ns ?ww] =>
      destruct (synthesize L sy qq ns ww) as [[e|answer] w2] end; [discriminate|].
    unfold ret at 1 in Eb.
    unfold bind, time_time, call, log_with_phase, ret in Eb.
    cbn [fst snd world logged response_str source_nodes] in Eb.
    destruct (clock L w2) as [t1 w3]. inversion Eb; subst. reflexivity.
Qed.

(** C6: every entry of the sources of a generated answer has a score
    that is not below the cutoff 0.7. *)
Theorem generation_sources_pass_cutoff (idx : VectorStoreIndex L) (k : Z)
    (s0 s1 s s' : state L) (rr : RAGRetriever L) (q : pystr) (res : pydict) :
  RAGRetriever_init idx k s0 = (inr rr, s1) ->
  generate_response rr q s = (inr res, s') ->
  exists sources,
    dict_get (py "sources") res = Some (PList (map PDict sources)) /\
    Forall (fun entry =>
              exists x, dict_get (py "score") entry = Some (PFloat x) /\
                        PrimFloat.ltb x 0.7%float = false)
           sources.
Proof.
  intros Hinit Hgen.
  apply RAGRetriever_init_inv in Hinit as (_ & _ & Hpost).
  apply generate_response_inv in Hgen as (candidates & w & _ & Hres).
  rewrite Hpost in Hres. cbn [fold_left] in Hres.
  eexists. split; [exact Hres|].
  apply Forall_forall. intros entry Hin.
  apply in_map_iff in Hin as (node & <- & Hnode).
  apply filter_In in Hnode as [_ Hpass].
  unfold passes_cutoff in Hpass. cbn [similarity_cutoff] in Hpass.
  unfold source_entry, score_of.
  destruct (node_score node) as [x|]; [|discriminate].
  exists x. split; [reflexivity|].
  now apply negb_true_iff in Hpass.
Qed.

(** C7 as the code has it: the sources are one entry for each node that
    passed the cutoff, in the order of the search, and nothing is
    removed; no two entries point to the same chunk exactly when no two
    of those nodes come from the same file. *)
Theorem generation_sources_follow_evidence (idx : VectorStoreIndex L) (k : Z)
    (s0 s1 s s' : state L) (rr : RAGRetriever L) (q : pystr) (res : pydict) :
  RAGRetriever_init idx k s0 = (inr rr, s1) ->
  generate_response rr q s = (inr res, s') ->
  exists candidates w,
    vector_search L idx k q (snd (clock L (world s))) = (inr candidates, w) /\
    let evidence :=
      filter (passes_cutoff {| similarity_cutoff := Some 0.7%float |}) candidates in
    dict_get (py "sources") res = Some (PList (map PDict (map source_entry evidence))) /\
    (deduplicated_by_chunk (map source_entry evidence) <-> NoDup (map node_ref evidence)).
Proof.
  intros Hinit Hgen.
  apply RAGRetriever_init_inv in Hinit as (_ & Hengine & Hpost).
  apply generate_response_inv in Hgen as (candidates & w & Hsearch & Hres).
  rewrite Hengine in Hsearch. cbn [vir_index similarity_top_k] in Hsearch.
  rewrite Hpost in Hres. cbn [fold_left] in Hres.
  exists candidates, w. split; [exact Hsearch|]. cbn zeta.
  split; [exact Hres|].
  unfold deduplicated_by_chunk. rewrite map_map.
  set (evidence := filter _ candidates).
  assert (Hmap : map (fun node => entry_ref (source_entry node)) evidence
                 = map (fun r => (Some (fst r), Some (snd r))) (map node_ref evidence)).
  { rewrite map_map. reflexivity. }
  rewrite Hmap. split.
  - apply NoDup_map_inv.
  - apply NoDup_map_NoDup_ForallPairs.
    intros [a b] [a' b'] _ _ H. cbn in H. now inversion H.
Qed.

End Retrieval.

(** ** The order of similarities *)

Lemma SFcompare_swap (x y : SpecFloat.spec_float) (c : comparison) :
  SpecFloat.SFcompare x y = Some c -> SpecFloat.SFcompare y x = Some (CompOpp c).
Proof.
  destruct x as [sx|sx| |sx mx ex], y as [sy|sy| |sy my ey]; cbn;
    try discriminate;
    try (destruct sx; intros H; injection H as <-; reflexivity);
    try (destruct sy; intros H; injection H as <-; reflexivity);
    try (intros H; injection H as <-; reflexivity).
  - destruct sx, sy; intros H; injection H as <-; reflexivity.
  - intros H. injection H as <-. f_equal.
    destruct sx, sy; try reflexivity.
    + rewrite (Z.compare_antisym ey ex).
      destruct (ey ?= ex)%Z; cbn; try reflexivity.
      rewrite (Pos.compare_cont_antisym mx my Eq). cbn.
      now destruct (Pos.compare_cont Eq mx my).
    + rewrite (Z.compare_antisym ey ex).
      destruct (ey ?= ex)%Z; cbn; try reflexivity.
      now rewrite (Pos.compare_cont_antisym mx my Eq).
Qed.

Lemma similarity_is_number (x : float) :
  is_similarity x = true -> FloatOps.Prim2SF x <> SpecFloat.S754_nan.
Proof.
  unfold is_similarity. rewrite andb_true_iff, !FloatAxioms.leb_spec.
  intros [H0 _] Hnan. rewrite Hnan in H0. unfold SpecFloat.SFleb in H0.
  destruct (FloatOps.Prim2SF 0) as [s0|s0| |s0 m0 e0]; cbn in H0; discriminate.
Qed.

(** Two similarities are always comparable. *)
Lemma similarity_total (x y : float) :
  is_similarity x = true -> is_similarity y = true ->
  PrimFloat.leb y x = false -> PrimFloat.leb x y = true.
Proof.
  intros Hx Hy. apply similarity_is_number in Hx, Hy.
  rewrite !FloatAxioms.leb_spec. unfold SpecFloat.SFleb.
  destruct (SpecFloat.SFcompare (FloatOps.Prim2SF x) (FloatOps.Prim2SF y)) as [c|] eqn:E.
  - rewrite (@SFcompare_swap _ _ _ E). destruct c; cbn; congruence.
  - exfalso.
    destruct (FloatOps.Prim2SF x) as [sx|sx| |sx mx ex],
             (FloatOps.Prim2SF y) as [sy|sy| |sy my ey];
      cbn in E; try discriminate; congruence.
Qed.

(** ** The search of the spec *)

Lemma insert_by_similarity_length (c : ScoredChunk) (l : list ScoredChunk) :
  length (insert_by_similarity c l) = S (length l).
Proof.
  induction l as [|d l IH]; cbn [insert_by_similarity]; [reflexivity|].
  destruct (PrimFloat.leb (similarity d) (similarity c)); cbn [length]; [reflexivity|].
  now rewrite IH.
Qed.

Lemma by_descending_similarity_length (matches : list ScoredChunk) :
  length (by_descending_similarity matches) = length matches.
Proof.
  induction matches as [|c l IH]; cbn [by_descending_similarity fold_right]; [reflexivity|].
  rewrite insert_by_similarity_length. cbn [length]. f_equal. exact IH.
Qed.

Lemma insert_by_similarity_ordered (c : ScoredChunk) (l : list ScoredChunk) :
  non_increasing (map (fun d => PFloat (similarity d)) l) = true ->
  non_increasing (map (fun d => PFloat (similarity d)) (insert_by_similarity c l)) = true.
Proof.
  induction l as [|d l IH]; intros Hl; cbn [insert_by_similarity]; [reflexivity|].
  destruct (PrimFloat.leb (similarity d) (similarity c)) eqn:E.
  - cbn [map non_increasing score_le]. rewrite E. exact Hl.
  - assert (Hcd : PrimFloat.leb (similarity c) (similarity d) = true)
      by (apply similarity_total; [apply similarity_in_range | apply similarity_in_range | exact E]).
    assert (Htail : non_increasing (map (fun d => PFloat (similarity d)) l) = true).
    { cbn [map non_increasing] in Hl. destruct l as [|d' l']; [reflexivity|].
      cbn [map] in Hl. apply andb_true_iff in Hl as [_ Hl]. exact Hl. }
    specialize (IH Htail).
    destruct l as [|d' l'].
    + cbn [insert_by_similarity map non_increasing score_le]. now rewrite Hcd.
    + cbn [insert_by_similarity] in *.
      destruct (PrimFloat.leb (similarity d') (similarity c)) eqn:E'.
      * cbn [map non_increasing score_le] in *. rewrite Hcd. exact IH.
      * cbn [map non_increasing score_le] in Hl.
        apply andb_true_iff in Hl as [Hd' _].
        cbn [map] in IH |- *. cbn [non_increasing score_le]. rewrite Hd'. exact IH.
Qed.

Lemma by_descending_similarity_ordered (matches : list ScoredChunk) :
  non_increasing (map (fun d => PFloat (similarity d)) (by_descending_similarity matches))
  = true.
Proof.
  induction matches as [|c l IH]; [reflexivity|].
  cbn [by_descending_similarity fold_right]. now apply insert_by_similarity_ordered.
Qed.

Lemma non_increasing_firstn (n : nat) (scores : list pyval) :
  non_increasing scores = true -> non_increasing (firstn n scores) = true.
Proof.
  revert scores. induction n as [|n IH]; intros scores H; [reflexivity|].
  destruct scores as [|a [|b rest]]; [reflexivity|now destruct n|].
  cbn [non_increasing] in H. apply andb_true_iff in H as [Hab Hrest].
  specialize (IH (b :: rest) Hrest).
  destruct n as [|n]; [reflexivity|].
  cbn [firstn] in *. cbn [non_increasing]. now rewrite Hab.
Qed.

Lemma insert_by_similarity_in (c x : ScoredChunk) (l : list ScoredChunk) :
  In x (insert_by_similarity c l) -> x = c \/ In x l.
Proof.
  induction l as [|d l IH]; cbn [insert_by_similarity].
  - intros [<-|[]]. now left.
  - destruct (PrimFloat.leb (similarity d) (similarity c)).
    + intros [<-|H]; [now left|now right].
    + intros [<-|H]; [right; now left|].
      destruct (IH H) as [->|Hin]; [now left|right; now right].
Qed.

Lemma nearest_in (count : Z) (matches : list ScoredChunk) (x : ScoredChunk) :
  In x (nearest count matches) -> In x matches.
Proof.
  unfold nearest. intros H.
  assert (Hsorted : In x (by_descending_similarity matches)).
  { rewrite <- (firstn_skipn (Z.to_nat count) (by_descending_similarity matches)).
    apply in_or_app. now left. }
  clear H. induction matches as [|c l IH]; [exact Hsorted|].
  cbn [by_descending_similarity fold_right] in Hsorted.
  apply insert_by_similarity_in in Hsorted as [->|Hin]; [now left|right; now apply IH].
Qed.

(** The search of the spec gives at most [count] chunks, all there are
    when they are fewer, in descending order of similarity. *)
Lemma nearest_length (count : Z) (matches : list ScoredChunk) :
  (0 <= count)%Z ->
  Z.of_nat (length (nearest count matches)) = Z.min count (Z.of_nat (length matches)).
Proof.
  intros Hcount. unfold nearest.
  rewrite length_firstn, by_descending_similarity_length. lia.
Qed.

Lemma nearest_ordered (count : Z) (matches : list ScoredChunk) :
  non_increasing (map (fun d => PFloat (similarity d)) (nearest count matches)) = true.
Proof.
  unfold nearest. rewrite <- firstn_map.
  apply non_increasing_firstn, by_descending_similarity_ordered.
Qed.

Section RankedRetrieval.

Variable B : Library.
Variable similarities :
  VectorStoreIndex B -> pystr -> ext B -> result (list ScoredChunk) * ext B.

(** C5: over the index search of the spec, retrieval alone cuts nothing
    off: it returns the topK nearest of the stored chunks, all of them
    when they are fewer, however low their similarity; so at most topK
    rows, with ranks 1, 2, 3, ... and the similarity of their chunk as
    score, and the scores do not increase with the rank. *)
Theorem retrieval_is_ranked_and_uncut (idx : VectorStoreIndex B) (k : Z)
    (s0 s1 s s' : state (with_similarity_search B similarities))
    (rr : RAGRetriever (with_similarity_search B similarities))
    (q : pystr) (res : pydict) :
  (0 <= k)%Z ->
  @RAGRetriever_init (with_similarity_search B similarities) idx k s0 = (inr rr, s1) ->
  retrieve_documents rr q s = (inr res, s') ->
  exists matches w results,
    similarities idx q (snd (clock B (world s))) = (inr matches, w) /\
    dict_get (py "results") res = Some (PList (map PDict results)) /\
    Z.of_nat (length results) = Z.min k (Z.of_nat (length matches)) /\
    (Z.of_nat (length results) <= k)%Z /\
    (forall i row,
       nth_error results i = Some row ->
       exists c,
         nth_error (nearest k matches) i = Some c /\
         In c matches /\
         dict_get (py "rank") row = Some (PInt (Z.of_nat i + 1)) /\
         dict_get (py "score") row = Some (PFloat (similarity c)) /\
         dict_get (py "content") row = Some (PStr (chunk_content c)) /\
         dict_get (py "metadata") row = Some (PDict (chunk_metadata c))) /\
    non_increasing (map (dict_get_default (py "score") PNone) results) = true.
Proof.
  intros Hk Hinit Hret.
  apply RAGRetriever_init_inv in Hinit as (Hv & _ & _).
  apply retrieve_documents_inv in Hret as (nodes & w & Hsearch & Hres).
  rewrite Hv in Hsearch. cbn [vir_index similarity_top_k] in Hsearch.
  cbn [vector_search with_similarity_search clock] in Hsearch.
  match type of Hsearch with context [similarities idx q ?w1] =>
    destruct (similarities idx q w1) as [[e|matches] w0] eqn:Esim
  end; [discriminate Hsearch|].
  injection Hsearch as <- <-.
  exists matches, w0,
    (map (fun p => node_data (fst p) (snd p))
       (enumerate (map as_node (nearest k matches)))).
  split; [exact Esim|]. split; [exact Hres|].
  unfold enumerate.
  rewrite !length_map, !length_enumerate_from, !length_map.
  rewrite nearest_length by exact Hk.
  split; [reflexivity|]. split; [lia|]. split.
  - intros i row Hrow.
    rewrite nth_error_map, nth_error_enumerate_from, nth_error_map in Hrow.
    destruct (nth_error (nearest k matches) i) as [c|] eqn:Ec; [|discriminate].
    cbn in Hrow. injection Hrow as <-. exists c.
    split; [reflexivity|]. split; [exact (@nearest_in _ _ _ (nth_error_In _ _ Ec))|].
    repeat split; reflexivity.
  - rewrite scores_of_rows, map_map. cbn [score_of as_node node_score].
    apply nearest_ordered.
Qed.

End RankedRetrieval.

(** ** The theorems at work in the small world *)

Lemma empty_corpus_is_fatal_witness :
  exists (ps1 : RAGPipeline Toy.lib * state Toy.lib) s2,
    build_index true (Toy.pipeline, Toy.barren) = (inl EmptyCorpusError, (fst ps1, s2)).
Proof.
  eexists _, _.
  eapply (@empty_corpus_is_fatal Toy.lib true (Toy.pipeline, Toy.barren)).
  - vm_compute. reflexivity.
  - vm_compute. reflexivity.
Defined.

Lemma open_failure_falls_back_witness :
  exists start_time warned,
    existing_index_block false (Toy.pipeline, Toy.hollow)
    = (inr (start_time, false), (Toy.pipeline, warned)) /\
    build_index false (Toy.pipeline, Toy.hollow)
    = rebuild_path start_time (Toy.pipeline, warned).
Proof.
  eexists _, _.
  eapply (@open_failure_falls_back Toy.lib Toy.pipeline Toy.hollow).
  - vm_compute. reflexivity.
  - vm_compute. reflexivity.
  - vm_compute. reflexivity.
Defined.

Lemma failed_build_keeps_retriever_witness :
  exists e ps',
    build_index true (fst Toy.ready, Toy.barren) = (inl e, ps') /\
    retriever (fst ps') = retriever (fst (fst Toy.ready, Toy.barren)) /\
    retriever (fst Toy.ready) <> None.
Proof.
  eexists _, _. split; [vm_compute; reflexivity|]. split.
  - eapply (@failed_build_keeps_retriever Toy.lib true (fst Toy.ready, Toy.barren)).
    vm_compute. reflexivity.
  - vm_compute. discriminate.
Defined.

Lemma query_requires_retriever_witness :
  query (py "scene") true (Toy.pipeline, Toy.fresh)
  = (inl NotInitializedError, (Toy.pipeline, Toy.fresh)) /\
  (exists total s3 result,
     query (py "scene") false (fst Toy.ready, snd Toy.ready)
     = (inr (dict_set (py "total_processing_time") (PFloat total) result),
        (fst Toy.ready, s3))) /\
  (exists e s3,
     query (py "scene") true (fst Toy.broken_pipeline, snd Toy.broken_pipeline)
     = (inl e, (fst Toy.broken_pipeline, s3))).
Proof.
  split; [|split].
  - apply (proj1 (@query_requires_retriever Toy.lib Toy.pipeline Toy.fresh (py "scene") true)).
    reflexivity.
  - pose proof (proj2 (@query_requires_retriever Toy.lib (fst Toy.ready) (snd Toy.ready)
                         (py "scene") false)) as H.
    edestruct H as [_ Hok]; [vm_compute; reflexivity | vm_compute; reflexivity |].
    edestruct Hok as (total & s3 & Hq); [vm_compute; reflexivity|].
    exists total, s3. eexists. exact Hq.
  - pose proof (proj2 (@query_requires_retriever Toy.lib (fst Toy.broken_pipeline)
                         (snd Toy.broken_pipeline) (py "scene") true)) as H.
    edestruct H as [Herr _]; [vm_compute; reflexivity | vm_compute; reflexivity |].
    edestruct Herr as (s3 & Hq); [vm_compute; reflexivity|].
    eexists _, s3. exact Hq.
Defined.

Lemma query_documents_ignores_top_k_witness :
  query_documents
    {| request_query := py "scene"; request_retrieve_only := true; request_top_k := Some 1%Z |}
    Toy.ready
  = query_documents
      {| request_query := py "scene"; request_retrieve_only := true; request_top_k := None |}
      Toy.ready.
Proof.
  apply query_documents_ignores_top_k; reflexivity.
Defined.

Lemma retrieval_is_ranked_and_uncut_witness :
  exists rr s1 res s',
    @RAGRetriever_init ToyFiles.lib_ranked Toy.twice 2 ToyFiles.ranked_start = (inr rr, s1) /\
    retrieve_documents rr (py "other") s1 = (inr res, s') /\
    exists matches w results,
      ToyFiles.similarities Toy.twice (py "other") (snd (Toy.tick (world s1)))
      = (inr matches, w) /\
      dict_get (py "results") res = Some (PList (map PDict results)) /\
      Z.of_nat (length results) = Z.min 2 (Z.of_nat (length matches)) /\
      (Z.of_nat (length results) <= 2)%Z /\
      (forall i row,
         nth_error results i = Some row ->
         exists c,
           nth_error (nearest 2 matches) i = Some c /\
           In c matches /\
           dict_get (py "rank") row = Some (PInt (Z.of_nat i + 1)) /\
           dict_get (py "score") row = Some (PFloat (similarity c)) /\
           dict_get (py "content") row = Some (PStr (chunk_content c)) /\
           dict_get (py "metadata") row = Some (PDict (chunk_metadata c))) /\
      non_increasing (map (dict_get_default (py "score") PNone) results) = true.
Proof.
  eexists _, _, _, _.
  split; [vm_compute; reflexivity|].
  match goal with
  | |- retrieve_documents ?r ?qq ?st = _ /\ _ =>
      split; [vm_compute; reflexivity|];
      eapply (@retrieval_is_ranked_and_uncut Toy.lib ToyFiles.similarities Toy.twice 2
                ToyFiles.ranked_start st st _ r qq)
  end.
  - lia.
  - vm_compute. reflexivity.
  - vm_compute. reflexivity.
Defined.

Lemma generation_sources_pass_cutoff_witness :
  exists rr s1 res s',
    RAGRetriever_init Toy.twice 5 Toy.fresh = (inr rr, s1) /\
    generate_response rr (py "scene") s1 = (inr res, s') /\
    exists sources,
      dict_get (py "sources") res = Some (PList (map PDict sources)) /\
      Forall (fun entry =>
                exists x, dict_get (py "score") entry = Some (PFloat x) /\
                          PrimFloat.ltb x 0.7%float = false)
             sources.
Proof.
  eexists _, _, _, _.
  split; [vm_compute; reflexivity|].
  match goal with
  | |- generate_response ?r ?qq ?st = _ /\ _ =>
      split; [vm_compute; reflexivity|];
      eapply generation_sources_pass_cutoff
        with (L := Toy.lib) (idx := Toy.twice) (s0 := Toy.fresh) (s := st) (rr := r) (q := qq)
  end.
  - vm_compute. reflexivity.
  - vm_compute. reflexivity.
Defined.

(** C7 fails: a store that holds two pieces of one file gives both to a
    query they match, and the sources then name that file twice. *)
Lemma generation_sources_repeat_a_chunk :
  exists rr s1 res s',
    RAGRetriever_init Toy.twice 5 Toy.fresh = (inr rr, s1) /\
    generate_response rr (py "scene") s1 = (inr res, s') /\
    dict_get (py "sources") res = Some (PList (map PDict [Toy.a_source; Toy.a_source])) /\
    ~ deduplicated_by_chunk [Toy.a_source; Toy.a_source].
Proof.
  eexists _, _, _, _.
  split; [vm_compute; reflexivity|]. split; [vm_compute; reflexivity|].
  split; [vm_compute; reflexivity|].
  unfold deduplicated_by_chunk. intros H.
  inversion H as [|x l Hnotin _]. apply Hnotin. left. reflexivity.
Qed.

Lemma generation_sources_follow_evidence_witness :
  exists rr s1 res s',
    RAGRetriever_init Toy.twice 5 Toy.fresh = (inr rr, s1) /\
    generate_response rr (py "scene") s1 = (inr res, s') /\
    exists candidates w,
      vector_search Toy.lib Toy.twice 5 (py "scene") (snd (clock Toy.lib (world s1)))
      = (inr candidates, w) /\
      let evidence :=
        filter (passes_cutoff {| similarity_cutoff := Some 0.7%float |}) candidates in
      dict_get (py "sources") res = Some (PList (map PDict (map source_entry evidence))) /\
      (deduplicated_by_chunk (map source_entry evidence) <-> NoDup (map node_ref evidence)).
Proof.
  eexists _, _, _, _.
  split; [vm_compute; reflexivity|].
  match goal with
  | |- generate_response ?r ?qq ?st = _ /\ _ =>
      split; [vm_compute; reflexivity|];
      eapply generation_sources_follow_evidence
        with (L := Toy.lib) (idx := Toy.twice) (s0 := Toy.fresh) (s := st) (rr := r) (q := qq)
  end.
  - vm_compute. reflexivity.
  - vm_compute. reflexivity.
Defined.

(** * Further properties *)

(** ** Dictionaries *)

Lemma dict_get_absent (k : pystr) (d : pydict) :
  ~ In k (map fst d) -> dict_get k d = None.
Proof.
  induction d as [|[k' v] d IH]; cbn; [reflexivity|].
  intros Hn. destruct (str_eqb k k') eqn:E.
  - apply str_eqb_eq in E. exfalso. apply Hn. now left.
  - apply IH. intros Hin. apply Hn. now right.
Qed.

(** [{**m}] of a dict with distinct keys has the entries of [m]. *)
Lemma dict_get_update (k : pystr) (m : pydict) :
  NoDup (map fst m) ->
  forall d,
    dict_get k (dict_update d m)
    = match dict_get k m with
      | Some v => Some v
      | None => dict_get k d
      end.
Proof.
  unfold dict_update.
  induction m as [|[k' v] m IH]; intros Hnd d; cbn; [reflexivity|].
  inversion Hnd as [|? ? Hnotin Hnd']; subst.
  rewrite (IH Hnd' _). destruct (str_eqb k k') eqn:E.
  - apply str_eqb_eq in E; subst k'.
    rewrite (@dict_get_absent k m Hnotin). apply dict_get_set_same.
  - destruct (dict_get k m); [reflexivity|].
    now apply dict_get_set_other.
Qed.

(** ** The chunker, continued *)

(** X1: the bookkeeping entries of a chunk are the position of its document,
    0 and 1, whatever the metadata of the document said under these
    names. *)
Theorem chunk_bookkeeping (doc : pydict) (doc_id : nat) (chunk : pydict) :
  _preprocess_single_document doc doc_id = inr chunk ->
  exists metadata,
    dict_get (py "metadata") chunk = Some (PDict metadata) /\
    dict_get (py "chunk_id") metadata = Some (PInt (Z.of_nat doc_id)) /\
    dict_get (py "chunk_index") metadata = Some (PInt 0) /\
    dict_get (py "total_chunks") metadata = Some (PInt 1).
Proof.
  intros H. apply preprocess_single_inv in H as (raw & md & _ & _ & ->).
  eexists. split; [reflexivity|]. repeat split.
  - rewrite !dict_get_set_other by reflexivity. apply dict_get_set_same.
  - rewrite !dict_get_set_other by reflexivity. apply dict_get_set_same.
  - rewrite dict_get_set_other by reflexivity. apply dict_get_set_same.
Qed.

Lemma chunk_bookkeeping_witness :
  exists metadata,
    dict_get (py "metadata") Toy.long_chunk = Some (PDict metadata) /\
    dict_get (py "chunk_id") metadata = Some (PInt (Z.of_nat 7)) /\
    dict_get (py "chunk_index") metadata = Some (PInt 0) /\
    dict_get (py "total_chunks") metadata = Some (PInt 1).
Proof.
  apply (@chunk_bookkeeping Toy.long_document 7 Toy.long_chunk).
  vm_compute. reflexivity.
Defined.

(** X2: every other entry of the metadata of a document is handed on to its
    chunk unchanged. *)
Theorem chunk_keeps_metadata (doc metadata : pydict) (doc_id : nat) (chunk : pydict)
    (k : pystr) :
  _preprocess_single_document doc doc_id = inr chunk ->
  dict_get (py "metadata") doc = Some (PDict metadata) ->
  NoDup (map fst metadata) ->
  k <> py "chunk_id" -> k <> py "chunk_index" ->
  k <> py "total_chunks" -> k <> py "content_preview" ->
  exists chunk_metadata,
    dict_get (py "metadata") chunk = Some (PDict chunk_metadata) /\
    dict_get k chunk_metadata = dict_get k metadata.
Proof.
  intros H Hm Hnd H1 H2 H3 H4.
  apply preprocess_single_inv in H as (raw & md & _ & Hm' & ->).
  rewrite Hm in Hm'. inversion Hm'; subst md.
  eexists. split; [reflexivity|].
  assert (Hne : forall k', k <> k' -> str_eqb k k' = false).
  { intros k' Hk. destruct (str_eqb k k') eqn:E; [|reflexivity].
    apply str_eqb_eq in E. contradiction. }
  rewrite !dict_get_set_other by auto.
  rewrite (@dict_get_update k metadata Hnd). now destruct (dict_get k metadata).
Qed.

Lemma chunk_keeps_metadata_witness :
  exists chunk_metadata,
    dict_get (py "metadata") Toy.long_chunk = Some (PDict chunk_metadata) /\
    dict_get (py "filename") chunk_metadata
    = dict_get (py "filename")
        [(py "filename", PStr (py "x.md")); (py "size", PInt 213)].
Proof.
  apply (@chunk_keeps_metadata Toy.long_document _ 7 Toy.long_chunk (py "filename")).
  - vm_compute. reflexivity.
  - reflexivity.
  - repeat constructor; cbn; intuition discriminate.
  - discriminate.
  - discriminate.
  - discriminate.
  - discriminate.
Defined.

(** ** Trimming *)

Lemma lstrip_split (s : pystr) :
  exists blanks, s = blanks ++ lstrip s /\ Forall (fun c => py_isspace c = true) blanks.
Proof.
  induction s as [|c s (blanks & Hs & Hb)]; [exists []; split; [reflexivity|constructor]|].
  cbn [lstrip]. destruct (py_isspace c) eqn:E.
  - exists (c :: blanks). split; [cbn; now f_equal|now constructor].
  - exists []. split; [reflexivity|constructor].
Qed.

Lemma lstrip_head (s : pystr) (c : N) (rest : pystr) :
  lstrip s = c :: rest -> py_isspace c = false.
Proof.
  induction s as [|x s IH]; cbn [lstrip]; [discriminate|].
  destruct (py_isspace x) eqn:E; [exact IH|].
  intros H. inversion H; subst. exact E.
Qed.

Lemma strip_trimmed (s : pystr) : trimmed (strip s).
Proof.
  unfold strip. split.
  - intros c rest Hs.
    destruct (lstrip_split (rev (lstrip s))) as (blanks & Hsplit & _).
    apply (f_equal (@rev N)) in Hsplit.
    rewrite rev_involutive, rev_app_distr, Hs in Hsplit.
    cbn in Hsplit. exact (lstrip_head _ Hsplit).
  - intros init c Hs.
    apply (f_equal (@rev N)) in Hs.
    rewrite rev_involutive, rev_app_distr in Hs. cbn in Hs.
    exact (lstrip_head _ Hs).
Qed.

Lemma strip_blank (s : pystr) :
  Forall (fun c => py_isspace c = true) s -> strip s = [].
Proof.
  intros Hb. unfold strip.
  assert (Hl : lstrip s = []).
  { induction Hb as [|c s Hc _ IH]; [reflexivity|]. cbn [lstrip]. now rewrite Hc. }
  now rewrite Hl.
Qed.

Lemma strip_split (s : pystr) :
  exists before after,
    s = before ++ strip s ++ after /\
    Forall (fun c => py_isspace c = true) before /\
    Forall (fun c => py_isspace c = true) after.
Proof.
  destruct (lstrip_split s) as (before & Hs & Hbefore).
  destruct (lstrip_split (rev (lstrip s))) as (blanks & Hr & Hblanks).
  exists before, (rev blanks). split; [|split; [exact Hbefore|now apply Forall_rev]].
  apply (f_equal (@rev N)) in Hr. rewrite rev_involutive, rev_app_distr in Hr.
  unfold strip. now rewrite <- Hr.
Qed.

(** X3: the content of a chunk is the content of its document without
    the white space around it: the document's content is white space,
    then the chunk's content, then white space, and the chunk's content
    neither starts nor ends with white space.  So a document of white
    space only gives the empty content. *)
Theorem chunk_content_trimmed (doc : pydict) (doc_id : nat) (chunk : pydict) :
  _preprocess_single_document doc doc_id = inr chunk ->
  exists raw content before after,
    dict_get (py "content") doc = Some (PStr raw) /\
    dict_get (py "content") chunk = Some (PStr content) /\
    raw = before ++ content ++ after /\
    Forall (fun c => py_isspace c = true) before /\
    Forall (fun c => py_isspace c = true) after /\
    trimmed content /\
    (Forall (fun c => py_isspace c = true) raw -> content = []).
Proof.
  intros H. apply preprocess_single_inv in H as (raw & md & Hc & _ & ->).
  destruct (strip_split raw) as (before & after & Hsplit & Hbefore & Hafter).
  exists raw, (strip raw), before, after.
  split; [exact Hc|]. split; [reflexivity|]. split; [exact Hsplit|].
  split; [exact Hbefore|]. split; [exact Hafter|].
  split; [apply strip_trimmed|apply strip_blank].
Qed.

Lemma chunk_content_trimmed_witness :
  exists raw content before after,
    dict_get (py "content") Toy.long_document = Some (PStr raw) /\
    dict_get (py "content") Toy.long_chunk = Some (PStr content) /\
    raw = before ++ content ++ after /\
    Forall (fun c => py_isspace c = true) before /\
    Forall (fun c => py_isspace c = true) after /\
    trimmed content /\
    (Forall (fun c => py_isspace c = true) raw -> content = []).
Proof.
  apply (@chunk_content_trimmed Toy.long_document 7 Toy.long_chunk).
  vm_compute. reflexivity.
Defined.

(** ** The loader *)

Section Loader.

Variable L : Library.

(** A loop whose body always returns, keeps [I] and adds [weight x] to
    the measure [mu] does so for the whole list. *)
Lemma for_each_returns {S A B : Type} (I : B -> Prop) (mu : B -> Z) (weight : A -> Z)
    (body : A -> B -> M S B) :
  (forall x acc s,
     exists acc' s', body x acc s = (inr acc', s') /\
                     (I acc -> I acc') /\ mu acc' = (mu acc + weight x)%Z) ->
  forall l acc s,
    exists acc' s',
      for_each l body acc s = (inr acc', s') /\
      (I acc -> I acc') /\
      mu acc' = (mu acc + fold_right (fun x t => weight x + t) 0 l)%Z.
Proof.
  intros Hbody. induction l as [|x l IH]; intros acc s.
  - exists acc, s. cbn. repeat split; [auto|lia].
  - cbn [for_each fold_right]. unfold bind.
    destruct (Hbody x acc s) as (acc1 & s1 & -> & HI1 & Hmu1).
    destruct (IH acc1 s1) as (acc2 & s2 & -> & HI2 & Hmu2).
    exists acc2, s2. repeat split; [auto|lia].
Qed.

Lemma load_file_returns (self : DocumentLoader) (directory root file : pystr)
    (acc : list pydict * load_stats) (s : state L) :
  supported_extensions self = [py ".py"; py ".md"] ->
  exists acc' s',
    @load_file L self directory root file acc s = (inr acc', s') /\
    (loader_invariant acc -> loader_invariant acc') /\
    stat_total (snd acc') = (stat_total (snd acc) + 1)%Z.
Proof.
  intros Hext. destruct acc as [documents stats]. unfold load_file.
  destruct (startswith (py ".") file) eqn:Ehidden.
  { eexists _, _. split; [reflexivity|]. split.
    - unfold loader_invariant; cbn. tauto.
    - unfold stat_total; cbn. lia. }
  rewrite Hext. cbn [existsb].
  destruct (str_eqb (path_suffix L (path_join L root file)) (py ".py")) eqn:Epy.
  - cbn [orb negb]. unfold try_except, bind, call.
    destruct (read_text L (path_join L root file) (world s)) as [[e|content] w].
    + unfold log_with_phase, ret. eexists _, _. split; [reflexivity|]. split.
      * unfold loader_invariant; cbn. tauto.
      * unfold stat_total; cbn. lia.
    + unfold log_with_phase, ret. eexists _, _. split; [reflexivity|].
      unfold count_suffix. rewrite Epy. apply str_eqb_eq in Epy. split.
      * unfold loader_invariant; cbn [fst snd stat_py stat_md].
        intros [Hall Hlen]. split.
        -- apply Forall_app. split; [exact Hall|]. constructor; [|constructor].
           unfold py_len. eexists _, _, _, _, _. split; [reflexivity|]. auto.
        -- rewrite length_app. cbn [length]. lia.
      * unfold stat_total; cbn. lia.
  - destruct (str_eqb (path_suffix L (path_join L root file)) (py ".md")) eqn:Emd.
    + cbn [orb negb]. unfold try_except, bind, call.
      destruct (read_text L (path_join L root file) (world s)) as [[e|content] w].
      * unfold log_with_phase, ret. eexists _, _. split; [reflexivity|]. split.
        -- unfold loader_invariant; cbn. tauto.
        -- unfold stat_total; cbn. lia.
      * unfold log_with_phase, ret. eexists _, _. split; [reflexivity|].
        unfold count_suffix. rewrite Epy, Emd. apply str_eqb_eq in Emd. split.
        -- unfold loader_invariant; cbn [fst snd stat_py stat_md].
           intros [Hall Hlen]. split.
           ++ apply Forall_app. split; [exact Hall|]. constructor; [|constructor].
              unfold py_len. eexists _, _, _, _, _. split; [reflexivity|]. auto.
           ++ rewrite length_app. cbn [length]. lia.
        -- unfold stat_total; cbn. lia.
    + cbn [orb negb]. eexists _, _. split; [reflexivity|]. split.
      * unfold loader_invariant; cbn. tauto.
      * unfold stat_total; cbn. lia.
Qed.

Lemma count_files (walk : list (pystr * list pystr)) :
  fold_right (fun rf t => (Z.of_nat (length (snd rf)) + t)%Z) 0%Z walk
  = Z.of_nat (length (concat (map snd walk))).
Proof.
  induction walk as [|[root files] walk IH]; cbn [fold_right map concat snd]; [reflexivity|].
  rewrite length_app, IH. lia.
Qed.

Lemma count_ones {A : Type} (l : list A) :
  fold_right (fun _ t => (1 + t)%Z) 0%Z l = Z.of_nat (length l).
Proof. induction l as [|x l IH]; cbn [fold_right length]; [reflexivity|]. lia. Qed.

Lemma load_from_directory_spec (dirs : list pystr) (directory : pystr) (s : state L) :
  exists acc s',
    @_load_from_directory L (DocumentLoader_init dirs) directory s = (inr acc, s') /\
    loader_invariant acc /\
    stat_total (snd acc)
    = Z.of_nat (length (concat (map snd (os_walk L directory (world s))))).
Proof.
  unfold _load_from_directory, bind, peek.
  destruct (@for_each_returns (state L) (pystr * list pystr) (list pydict * load_stats)
              loader_invariant (fun acc => stat_total (snd acc))
              (fun rf => Z.of_nat (length (snd rf)))
              (fun '(root, files) acc =>
                 for_each files (@load_file L (DocumentLoader_init dirs) directory root) acc))
    with (l := os_walk L directory (world s)) (acc := ([] : list pydict, no_stats)) (s := s)
    as (acc & s' & Hrun & Hinv & Hcount).
  { intros [root files] acc s0.
    destruct (@for_each_returns (state L) pystr (list pydict * load_stats)
                loader_invariant (fun acc => stat_total (snd acc)) (fun _ => 1%Z)
                (@load_file L (DocumentLoader_init dirs) directory root))
      with (l := files) (acc := acc) (s := s0) as (acc' & s1 & Hrun & Hinv & Hcount).
    { intros file acc0 s1. now apply load_file_returns. }
    exists acc', s1. split; [exact Hrun|]. split; [exact Hinv|].
    rewrite Hcount, count_ones. reflexivity. }
  exists acc, s'. split; [exact Hrun|].
  rewrite count_files in Hcount. cbn in Hcount.
  split; [|exact Hcount]. apply Hinv. split; [constructor|reflexivity].
Qed.

Lemma load_documents_spec (dirs : list pystr) (s : state L) :
  exists acc s',
    @load_documents L (DocumentLoader_init dirs) s = (inr acc, s') /\
    loader_invariant acc.
Proof.
  unfold load_documents. unfold bind at 1, time_time at 1, call.
  destruct (clock L (world s)) as [t w]. unfold bind at 1, log_with_phase at 1.
  unfold bind at 1.
  match goal with |- context [for_each ?ll ?body ?aa ?st] =>
    destruct (@for_each_returns (state L) pystr (list pydict * load_stats)
                loader_invariant (fun _ => 0%Z) (fun _ => 0%Z) body)
      with (l := ll) (acc := aa) (s := st) as ([documents stats] & s1 & -> & Hinv & _)
  end.
  { intros source_dir [documents stats] s0. unfold bind at 1, peek.
    destruct (os_path_exists L source_dir (world s0)).
    - cbn [negb]. unfold bind.
      destruct (load_from_directory_spec dirs source_dir s0)
        as ([d st] & s1 & -> & [Hall Hlen] & _).
      unfold ret. eexists _, _. split; [reflexivity|]. split; [|reflexivity].
      unfold loader_invariant. cbn [fst snd] in *. intros [Hall0 Hlen0]. split.
      + apply Forall_app. now split.
      + rewrite length_app. unfold add_stats. cbn [stat_py stat_md]. lia.
    - cbn [negb]. unfold bind, log_with_phase, ret.
      eexists _, _. split; [reflexivity|]. split; [tauto|reflexivity]. }
  unfold bind, time_time, call, log_with_phase, ret.
  destruct (clock L (world s1)) as [t1 w1].
  eexists _, _. split; [reflexivity|].
  apply Hinv. split; [constructor|reflexivity].
Qed.

(** X4: walking one directory never raises, whatever the reads do, and every
    file met is counted once: as loaded, skipped or failed.  The
    documents returned are those counted as loaded. *)
Theorem load_from_directory_accounts (dirs : list pystr) (directory : pystr) (s : state L) :
  exists documents stats s',
    @_load_from_directory L (DocumentLoader_init dirs) directory s
    = (inr (documents, stats), s') /\
    stat_total stats
    = Z.of_nat (length (concat (map snd (os_walk L directory (world s))))) /\
    Z.of_nat (length documents) = (stat_py stats + stat_md stats)%Z.
Proof.
  destruct (load_from_directory_spec dirs directory s)
    as ([documents stats] & s' & Hrun & [_ Hlen] & Hcount).
  exists documents, stats, s'. cbn [fst snd] in *. auto.
Qed.


End Loader.

(** ** Following the pipeline object through a method *)

Section Tracking.

Variable L : Library.

Lemma tracks_bind {A B} (self : RAGPipeline L) (m : Method L A) (k : A -> Method L B)
    (Q : result B -> RAGPipeline L -> Prop) :
  tracks self m (fun r self' =>
                   match r with
                   | inl e => Q (inl e) self'
                   | inr a => tracks self' (k a) Q
                   end) ->
  tracks self (bind m k) Q.
Proof.
  intros Hm s r ps' E. unfold bind in E.
  destruct (m (self, s)) as [[e|a] [self1 s1]] eqn:Em.
  - inversion E; subst. exact (Hm _ _ _ Em).
  - exact (Hm _ _ _ Em _ _ _ E).
Qed.

Lemma tracks_io {A} (self : RAGPipeline L) (m : IO L A)
    (Q : result A -> RAGPipeline L -> Prop) :
  (forall s r s', m s = (r, s') -> Q r self) -> tracks self (io m) Q.
Proof.
  intros H s r ps' E. unfold io in E. cbn [fst snd] in E.
  destruct (m s) as [r0 s0] eqn:Em. inversion E; subst. exact (H _ _ _ Em).
Qed.

Lemma tracks_get_self (self : RAGPipeline L) (Q : result (RAGPipeline L) -> RAGPipeline L -> Prop) :
  Q (inr self) self -> tracks self (@get_self L) Q.
Proof. intros H s r ps' E. inversion E; subst. exact H. Qed.

Lemma tracks_set_index (self : RAGPipeline L) (idx : VectorStoreIndex L)
    (Q : result unit -> RAGPipeline L -> Prop) :
  Q (inr tt) (with_index self idx) -> tracks self (set_index idx) Q.
Proof. intros H s r ps' E. inversion E; subst. exact H. Qed.

Lemma tracks_set_retriever (self : RAGPipeline L) (rr : RAGRetriever L)
    (Q : result unit -> RAGPipeline L -> Prop) :
  Q (inr tt) (with_retriever self rr) -> tracks self (set_retriever rr) Q.
Proof. intros H s r ps' E. inversion E; subst. exact H. Qed.

Lemma tracks_ret {A} (self : RAGPipeline L) (a : A) (Q : result A -> RAGPipeline L -> Prop) :
  Q (inr a) self -> tracks self (ret a) Q.
Proof. intros H s r ps' E. inversion E; subst. exact H. Qed.

Lemma tracks_raise {A} (self : RAGPipeline L) (e : exn)
    (Q : result A -> RAGPipeline L -> Prop) :
  Q (inl e) self -> tracks self (raise e) Q.
Proof. intros H s r ps' E. inversion E; subst. exact H. Qed.


Lemma tracks_try_except {A} (self : RAGPipeline L) (m : Method L A) (h : exn -> Method L A)
    (Q : result A -> RAGPipeline L -> Prop) :
  tracks self m (fun r self' =>
                   match r with
                   | inl e => tracks self' (h e) Q
                   | inr a => Q (inr a) self'
                   end) ->
  tracks self (try_except m h) Q.
Proof.
  intros Hm s r ps' E. unfold try_except in E.
  destruct (m (self, s)) as [[e|a] [self1 s1]] eqn:Em.
  - exact (Hm _ _ _ Em _ _ _ E).
  - inversion E; subst. exact (Hm _ _ _ Em).
Qed.

Lemma tracks_weaken {A} (self : RAGPipeline L) (m : Method L A)
    (Q Q' : result A -> RAGPipeline L -> Prop) :
  (forall r self', Q r self' -> Q' r self') -> tracks self m Q -> tracks self m Q'.
Proof. intros HQ Hm s r ps' E. apply HQ. exact (Hm _ _ _ E). Qed.

(** An action on the world leaves the object alone; when it returns the
    method goes on. *)
Lemma tracks_io_bind {A B} (self : RAGPipeline L) (m : IO L A) (k : A -> Method L B)
    (Q : result B -> RAGPipeline L -> Prop) :
  (forall e, Q (inl e) self) ->
  (forall a, tracks self (k a) Q) ->
  tracks self (bind (io m) k) Q.
Proof.
  intros He Hk. apply tracks_bind, tracks_io. intros s [e|a] s' _; auto.
Qed.

(** Logging and reading the clock return. *)
Lemma tracks_log_bind {B} (self : RAGPipeline L) (level phase : string) (msg : text)
    (k : unit -> Method L B) (Q : result B -> RAGPipeline L -> Prop) :
  tracks self (k tt) Q ->
  tracks self (bind (io (log_with_phase level phase msg)) k) Q.
Proof.
  intros Hk. apply tracks_bind, tracks_io. intros s r s' E.
  unfold log_with_phase in E. injection E as <- _. exact Hk.
Qed.

Lemma tracks_time_bind {B} (self : RAGPipeline L) (k : float -> Method L B)
    (Q : result B -> RAGPipeline L -> Prop) :
  (forall t, tracks self (k t) Q) ->
  tracks self (bind (io (@time_time L)) k) Q.
Proof.
  intros Hk. apply tracks_bind, tracks_io. intros s r s' E.
  unfold time_time, call in E. destruct (clock L (world s)) as [t w].
  injection E as <- _. apply Hk.
Qed.

Lemma same_config_refl (self : RAGPipeline L) : same_config self self.
Proof. unfold same_config. auto. Qed.

Lemma same_config_trans (a b c : RAGPipeline L) :
  same_config a b -> same_config b c -> same_config a c.
Proof. unfold same_config. intuition congruence. Qed.

Lemma RAGRetriever_init_fields (idx : VectorStoreIndex L) (k : Z)
    (s0 s1 : state L) (rr : RAGRetriever L) :
  RAGRetriever_init idx k s0 = (inr rr, s1) ->
  retriever_index rr = idx /\ retriever_top_k rr = k /\
  vector_retriever rr = {| vir_index := idx; similarity_top_k := k |}.
Proof.
  unfold RAGRetriever_init, bind, call, log_with_phase, ret.
  destruct (get_response_synthesizer L (world s0)) as [[e|synth] w]; [discriminate|].
  intros H. inversion H; subst. auto.
Qed.

(** The end of both paths of [build_index]: store the index, build the
    retriever on it, store the retriever, log. *)
Lemma bind_retriever_tracks {A} (self0 self : RAGPipeline L) (idx : VectorStoreIndex L)
    (rest : RAGRetriever L -> Method L A) :
  same_config self self0 ->
  (forall rr s, exists a s', rest rr (with_retriever (with_index self idx) rr, s)
                             = (inr a, (with_retriever (with_index self idx) rr, s'))) ->
  tracks self
    (bind (set_index idx) (fun _ =>
     bind (io (RAGRetriever_init idx (top_k self))) (fun rr =>
     bind (set_retriever rr) (fun _ => rest rr))))
    (fun r self' =>
       same_config self' self0 /\ (forall a, r = inr a -> serving self')).
Proof.
  intros Hcfg Hrest.
  apply tracks_bind, tracks_set_index.
  apply tracks_bind, tracks_io. intros s [e|rr] s' Hinit.
  - split; [exact Hcfg|discriminate].
  - apply RAGRetriever_init_fields in Hinit as (Hi & Hk & Hv).
    apply tracks_bind, tracks_set_retriever.
    intros s1 r ps' E.
    destruct (Hrest rr s1) as (a & s2 & Ha). rewrite Ha in E. injection E as <- <-.
    cbn [fst]. split; [exact Hcfg|]. intros _ _.
    exists idx, rr. cbn. repeat split; assumption.
Qed.

Lemma reuse_path_tracks (self0 self : RAGPipeline L) (start_time : float) :
  same_config self self0 ->
  tracks self (reuse_path start_time)
    (fun r self' =>
       same_config self' self0 /\ (r = inr true -> serving self') /\
       (forall e, r <> inl e)).
Proof.
  intros Hcfg. unfold reuse_path. apply tracks_try_except.
  apply tracks_bind, tracks_get_self.
  apply tracks_bind, tracks_io. intros s [e|idx] s' _.
  - apply tracks_log_bind, tracks_ret. split; [exact Hcfg|split; discriminate].
  - eapply tracks_weaken;
      [|apply (@bind_retriever_tracks bool self0 self idx
                 (fun rr =>
                    bind (io (@time_time L)) (fun now =>
                    bind (io (log_with_phase "info" "pipeline"
                                (lit "Loaded existing index in "
                                 ++ [FFixed 2 (PFloat (PrimFloat.sub now start_time))]
                                 ++ lit "s")))
                         (fun _ => ret true))) Hcfg)].
    + intros [e|a] self' [Hc Hs].
      * apply tracks_log_bind, tracks_ret. split; [exact Hc|split; discriminate].
      * split; [exact Hc|]. split; [|discriminate]. intros _. now apply (Hs a).
    + intros rr s0. unfold bind, io, time_time, call, log_with_phase, ret. cbn [fst snd].
      destruct (clock L (world s0)) as [t w]. eexists _, _. reflexivity.
Qed.

Lemma existing_index_block_tracks (self : RAGPipeline L) (force_rebuild : bool) :
  tracks self (existing_index_block force_rebuild)
    (fun r self' =>
       same_config self' self /\
       (forall t, r = inr (t, true) -> serving self') /\
       (forall e, r <> inl e)).
Proof.
  unfold existing_index_block.
  apply tracks_time_bind. intros start_time.
  apply tracks_log_bind.
  apply tracks_bind, tracks_get_self.
  destruct (negb force_rebuild).
  - apply tracks_bind, tracks_io. intros s1 [e|[|]] s1' Hp; [discriminate| |].
    + apply tracks_bind.
      eapply tracks_weaken; [|apply (reuse_path_tracks start_time (same_config_refl self))].
      intros [e|returned] self' (Hc & Hs & Hne).
      * now destruct (Hne e).
      * apply tracks_ret. split; [exact Hc|]. split; [|discriminate].
        intros t Ht'. inversion Ht'; subst. now apply Hs.
    + apply tracks_ret. split; [apply same_config_refl|]. split; discriminate.
  - apply tracks_ret. split; [apply same_config_refl|]. split; discriminate.
Qed.

Lemma rebuild_path_tracks (self0 self : RAGPipeline L) (start_time : float) :
  same_config self self0 ->
  tracks self (rebuild_path start_time)
    (fun r self' => same_config self' self0 /\ (forall a, r = inr a -> serving self')).
Proof.
  intros Hcfg. unfold rebuild_path.
  apply tracks_log_bind.
  apply tracks_bind, tracks_get_self.
  apply tracks_io_bind; [intros e; split; [exact Hcfg|discriminate]|]. intros loaded.
  destruct (negb (py_truthy (PList (map PDict (fst loaded))))).
  - apply tracks_raise. split; [exact Hcfg|discriminate].
  - apply tracks_io_bind; [intros e; split; [exact Hcfg|discriminate]|]. intros processed.
    apply tracks_io_bind; [intros e; split; [exact Hcfg|discriminate]|]. intros idx.
    apply (@bind_retriever_tracks unit self0 self idx
             (fun rr =>
                bind (io (@time_time L)) (fun now =>
                io (log_with_phase "info" "pipeline"
                      (lit "Index building completed in "
                       ++ [FFixed 2 (PFloat (PrimFloat.sub now start_time))]
                       ++ lit "s. Processed " ++ [FStr (py_len (fst loaded))]
                       ++ lit " documents")))) Hcfg).
    intros rr s0. unfold bind, io, time_time, call, log_with_phase. cbn [fst snd].
    destruct (clock L (world s0)) as [t w]. eexists _, _. reflexivity.
Qed.

Lemma build_index_tracks (self : RAGPipeline L) (force_rebuild : bool) :
  tracks self (build_index force_rebuild)
    (fun r self' => same_config self' self /\ (forall a, r = inr a -> serving self')).
Proof.
  unfold build_index. apply tracks_bind.
  eapply tracks_weaken; [|apply existing_index_block_tracks].
  intros [e|[start_time returned]] self' (Hc & Hs & Hne).
  - now destruct (Hne e).
  - destruct returned; cbn [fst snd].
    + apply tracks_ret. split; [exact Hc|]. intros _ _. now apply (Hs start_time).
    + now apply rebuild_path_tracks.
Qed.

(** X6: when [build_index] returns, the pipeline holds an index and a
    retriever built on that very index with the configured topK. *)
Theorem build_index_serves (force_rebuild : bool) (self : RAGPipeline L) (s : state L)
    (ps' : RAGPipeline L * state L) :
  build_index force_rebuild (self, s) = (inr tt, ps') ->
  serving (fst ps').
Proof.
  intros H. destruct (build_index_tracks self force_rebuild _ H) as [_ Hs].
  now apply (Hs tt).
Qed.

(** X7: however [build_index] ends, the configuration of the pipeline is
    what it was: directories, topK, loader and embedder. *)
Theorem build_index_keeps_config (force_rebuild : bool) (self : RAGPipeline L)
    (s : state L) (r : result unit) (ps' : RAGPipeline L * state L) :
  build_index force_rebuild (self, s) = (r, ps') ->
  same_config (fst ps') self.
Proof.
  intros H. now destruct (build_index_tracks self force_rebuild _ H).
Qed.

Lemma query_tracks (self : RAGPipeline L) (query_text : pystr) (retrieve_only : bool) :
  tracks self (query query_text retrieve_only) (fun _ self' => self' = self).
Proof.
  unfold query. apply tracks_bind, tracks_get_self.
  destruct (retriever self) as [r|]; [|now apply tracks_raise].
  apply tracks_time_bind. intros start_time. apply tracks_log_bind.
  apply tracks_try_except. apply tracks_io_bind.
  - intros e. apply tracks_io_bind; [reflexivity|]. intros key.
    apply tracks_log_bind. now apply tracks_raise.
  - intros result. apply tracks_time_bind. intros now.
    apply tracks_log_bind. now apply tracks_ret.
Qed.

(** X8: a query, answered or failed, leaves the pipeline object as it is. *)
Theorem query_leaves_pipeline (self : RAGPipeline L) (s : state L)
    (query_text : pystr) (retrieve_only : bool)
    (r : result pydict) (ps' : RAGPipeline L * state L) :
  query query_text retrieve_only (self, s) = (r, ps') ->
  fst ps' = self.
Proof. intros H. exact (query_tracks self query_text retrieve_only _ H). Qed.



End Tracking.

(** ** The paths of [build_index] *)

Section Paths.

Variable L : Library.

(** X11: when the persisted index opens and a retriever can be built on it,
    [build_index] returns with that index and that retriever bound, and
    the documents are not loaded: beyond the two calls the world only
    sees the clock read. *)
Theorem build_reuses_index (self : RAGPipeline L) (s s2 s3 : state L)
    (idx : VectorStoreIndex L) (rr : RAGRetriever L) :
  os_path_exists L (persist_directory self) (snd (clock L (world s))) = true ->
  load_existing_index (embedder self)
    {| world := snd (clock L (world s));
       logged := logged s ++ [{| levelname := py "info"; phase := py "pipeline";
                                 message := lit "Starting index building process" |}] |}
  = (inr idx, s2) ->
  RAGRetriever_init idx (top_k self) s2 = (inr rr, s3) ->
  exists s',
    build_index false (self, s) = (inr tt, (with_retriever (with_index self idx) rr, s')) /\
    world s' = snd (clock L (world s3)).
Proof.
  intros Hexists Hopen Hinit.
  unfold build_index. unfold bind at 1.
  unfold existing_index_block, bind, io, get_self, peek, time_time, call, log_with_phase, ret.
  cbn [fst snd world logged negb].
  destruct (clock L (world s)) as [t w]. cbn [fst snd world logged] in *.
  rewrite Hexists.
  unfold reuse_path, try_except, bind, io, get_self, set_index, set_retriever,
    time_time, call, log_with_phase, ret.
  cbn [fst snd world logged]. rewrite Hopen. cbn [fst snd world logged].
  rewrite Hinit. cbn [fst snd world logged].
  destruct (clock L (world s3)) as [t3 w3]. cbn [fst snd world logged].
  eexists. split; reflexivity.
Qed.

(** X12: when the call [query] dispatches to raises, the error line [query]
    logs carries the value of the environment variable OPENAI_API_KEY. *)
Theorem query_failure_logs_api_key (self : RAGPipeline L) (s s2 : state L)
    (r : RAGRetriever L) (query_text : pystr) (retrieve_only : bool)
    (e : exn) (key : pystr) :
  retriever self = Some r ->
  (if retrieve_only then retrieve_documents r query_text
   else generate_response r query_text)
    {| world := snd (clock L (world s));
       logged := logged s ++
                 [{| levelname := py "info"; phase := py "pipeline";
                     message := lit "Processing query: '" ++ abbreviated query_text
                                ++ lit "'" |}] |}
  = (inl e, s2) ->
  os_getenv L (py "OPENAI_API_KEY") (world s2) = Some key ->
  query query_text retrieve_only (self, s)
  = (inl e,
     (self,
      {| world := world s2;
         logged := logged s2 ++
                   [{| levelname := py "error"; phase := py "pipeline";
                       message := lit "Query processing failed: " ++ exn_str e ++ lit " "
                                  ++ [FStr (PStr key)] |}] |})).
Proof.
  intros Hsome Hfail Hkey.
  unfold query. unfold bind at 1, get_self at 1. cbn [fst snd]. rewrite Hsome.
  unfold bind at 1, io at 1, time_time, call. cbn [fst snd].
  destruct (clock L (world s)) as [t w]. cbn [fst snd world logged] in *.
  unfold bind at 1, io at 1, log_with_phase at 1. cbn [fst snd world logged].
  unfold try_except, bind at 1, io at 1. cbn [fst snd]. rewrite Hfail.
  unfold bind, io, peek, log_with_phase, raise. cbn [fst snd world logged].
  rewrite Hkey. reflexivity.
Qed.

End Paths.

(** ** Retrieval, continued *)

Section RetrievalMore.

Variable L : Library.

(** A node without a score stops the loop of [retrieve_documents] at
    its debug line. *)
Lemma collect_node_loop_unscored (nodes : list NodeWithScore) :
  Exists (fun node => node_score node = None) nodes ->
  forall (i : nat) (acc : list pydict * list pyval) (s : state L),
  exists s',
    for_each (enumerate_from i nodes) (@collect_node L) acc s
    = (inl (TypeError (lit "unsupported format string passed to "
                       ++ [FLit (py "NoneType")] ++ lit ".__format__")), s').
Proof.
  induction nodes as [|node nodes IH]; intros Hex i [results titles] s.
  - inversion Hex.
  - cbn [enumerate_from for_each]. unfold bind at 1.
    unfold collect_node at 1. unfold bind at 1, of_result at 1, score_of at 1.
    destruct (node_score node) as [x|] eqn:Escore.
    + cbn [py_format_fixed]. unfold bind, log_with_phase, ret.
      apply IH. inversion Hex; subst; [congruence|assumption].
    + cbn [py_format_fixed py_type_name]. eexists. reflexivity.
Qed.

(** X13: a search result with a node that has no score makes
    [retrieve_documents] raise a [TypeError]: the score cannot be
    formatted for the log. *)
Theorem retrieve_documents_needs_scores (rr : RAGRetriever L) (q : pystr) (s : state L)
    (nodes : list NodeWithScore) (w : ext L) :
  vector_search L (vir_index (vector_retriever rr))
    (similarity_top_k (vector_retriever rr)) q (snd (clock L (world s)))
  = (inr nodes, w) ->
  Exists (fun node => node_score node = None) nodes ->
  exists s',
    retrieve_documents rr q s
    = (inl (TypeError (lit "unsupported format string passed to "
                       ++ [FLit (py "NoneType")] ++ lit ".__format__")), s').
Proof.
  intros Hsearch Hex.
  unfold retrieve_documents. unfold bind at 1, time_time at 1, call.
  destruct (clock L (world s)) as [t w0]. cbn [fst snd world logged] in *.
  unfold bind at 1, log_with_phase at 1. cbn [fst snd world logged].
  unfold try_except. unfold bind at 1, VectorIndexRetriever_retrieve, call.
  cbn [fst snd world logged]. rewrite Hsearch.
  unfold bind at 1, time_time at 1, call. cbn [fst snd world logged].
  destruct (clock L w) as [t1 w1]. unfold bind at 1, enumerate.
  match goal with |- context [for_each _ _ ?acc ?st] =>
    destruct (collect_node_loop_unscored Hex 0 acc st) as (s1 & ->) end.
  unfold bind, log_with_phase, raise. eexists. reflexivity.
Qed.

Lemma retrieve_documents_rows (rr : RAGRetriever L) (q : pystr) (s s' : state L)
    (res : pydict) :
  retrieve_documents rr q s = (inr res, s') ->
  exists nodes w retrieval_time,
    vector_search L (vir_index (vector_retriever rr))
      (similarity_top_k (vector_retriever rr)) q (snd (clock L (world s)))
    = (inr nodes, w) /\
    res = [(py "query", PStr q);
           (py "results",
            PList (map PDict (map (fun p => node_data (fst p) (snd p))
                                (enumerate_from 0 nodes))));
           (py "retrieval_time", PFloat retrieval_time);
           (py "total_results", PInt (Z.of_nat (length nodes)))].
Proof.
  unfold retrieve_documents. unfold bind at 1, time_time at 1, call.
  destruct (clock L (world s)) as [t w0]. cbn [fst snd world logged].
  unfold bind at 1, log_with_phase at 1. cbn [fst snd world logged].
  unfold try_except.
  match goal with |- context [match ?body with _ => _ end] =>
    destruct body as [[e|r] s2] eqn:Eb end.
  - unfold bind, log_with_phase, raise. discriminate.
  - intros H. injection H as -> ->.
    unfold bind at 1, VectorIndexRetriever_retrieve, call in Eb.
    cbn [fst snd world logged] in Eb.
    destruct (vector_search L (vir_index (vector_retriever rr))
                (similarity_top_k (vector_retriever rr)) q w0) as [[e|nodes] w] eqn:Es;
      [discriminate|].
    unfold bind at 1, time_time at 1, call in Eb. cbn [fst snd world logged] in Eb.
    destruct (clock L w) as [t1 w1]. unfold bind at 1 in Eb.
    match type of Eb with context [for_each ?l ?f ?a ?st] =>
      destruct (for_each l f a st) as [[e|acc] s3] eqn:El end; [discriminate|].
    apply collect_node_loop in El. destruct acc as [results titles].
    cbn [fst app] in El. subst results.
    unfold bind, of_result, log_with_phase, ret in Eb.
    destruct (join_titles (firstn 3 titles)) as [e|shown]; [discriminate|].
    injection Eb as <- _.
    exists nodes, w, (PrimFloat.sub t1 t).
    split; [reflexivity|]. unfold py_len, enumerate.
    now rewrite length_map, length_enumerate_from.
Qed.

(** X14: what a successful retrieval returns: the query, one row per node
    with the text and the metadata of the node, and their number as
    [total_results]. *)
Theorem retrieve_documents_shape (rr : RAGRetriever L) (q : pystr) (s s' : state L)
    (res : pydict) :
  retrieve_documents rr q s = (inr res, s') ->
  exists nodes w rows,
    vector_search L (vir_index (vector_retriever rr))
      (similarity_top_k (vector_retriever rr)) q (snd (clock L (world s)))
    = (inr nodes, w) /\
    dict_get (py "query") res = Some (PStr q) /\
    dict_get (py "results") res = Some (PList (map PDict rows)) /\
    dict_get (py "total_results") res = Some (PInt (Z.of_nat (length nodes))) /\
    length rows = length nodes /\
    (forall i node,
       nth_error nodes i = Some node ->
       exists row,
         nth_error rows i = Some row /\
         dict_get (py "content") row = Some (PStr (node_text node)) /\
         dict_get (py "metadata") row = Some (PDict (node_metadata node))).
Proof.
  intros H. apply retrieve_documents_rows in H as (nodes & w & t & Hsearch & ->).
  exists nodes, w, (map (fun p => node_data (fst p) (snd p)) (enumerate_from 0 nodes)).
  split; [exact Hsearch|]. split; [reflexivity|]. split; [reflexivity|].
  split; [reflexivity|].
  split; [now rewrite length_map, length_enumerate_from|].
  intros i node Hnode.
  rewrite nth_error_map, nth_error_enumerate_from, Hnode. cbn.
  eexists. split; [reflexivity|]. split; reflexivity.
Qed.

Lemma collect_node_loop_raises (nodes : list NodeWithScore) :
  forall (i : nat) (acc : list pydict * list pyval) (s s' : state L) (e : exn),
    for_each (enumerate_from i nodes) (@collect_node L) acc s = (inl e, s') ->
    Exists (fun node => node_score node = None) nodes /\
    exists msg, e = TypeError msg.
Proof.
  induction nodes as [|node nodes IH]; intros i [results titles] s s' e H.
  - discriminate.
  - cbn [enumerate_from for_each] in H. unfold bind at 1 in H.
    unfold collect_node at 1 in H. unfold bind at 1, of_result at 1, score_of at 1 in H.
    destruct (node_score node) as [x|] eqn:Escore.
    + cbn [py_format_fixed] in H. unfold bind, log_with_phase, ret in H.
      cbn [fst snd] in H. apply IH in H as [Hex Hmsg]. split; [now right|exact Hmsg].
    + cbn [py_format_fixed] in H. injection H as <- _.
      split; [now left|]. eexists. reflexivity.
Qed.

Lemma collect_node_loop_titles (nodes : list NodeWithScore) :
  forall (i : nat) (results : list pydict) (titles : list pyval) (s s' : state L)
         (out : list pydict * list pyval),
    for_each (enumerate_from i nodes) (@collect_node L) (results, titles) s = (inr out, s') ->
    snd out = titles ++ map (fun p => node_title (fst p) (snd p)) (enumerate_from i nodes).
Proof.
  induction nodes as [|node nodes IH]; intros i results titles s s' out H.
  - inversion H. cbn. now rewrite app_nil_r.
  - cbn [enumerate_from for_each] in H. unfold bind at 1 in H.
    destruct (collect_node (i, node) (results, titles) s) as [[e|acc] s1] eqn:E;
      [discriminate|].
    unfold collect_node, bind, of_result, log_with_phase, ret in E.
    destruct (py_format_fixed 3 (score_of node)) as [e|f]; [discriminate|].
    inversion E; subst. apply IH in H. rewrite H.
    cbn [map fst snd]. now rewrite <- app_assoc.
Qed.

Lemma join_titles_raises (titles : list pyval) (e : exn) :
  join_titles titles = inl e ->
  (exists msg, e = TypeError msg) /\
  exists v, In v titles /\ forall t, v <> PStr t.
Proof.
  induction titles as [|v titles IH]; cbn [join_titles]; [discriminate|].
  destruct v as [| | | | | |];
    try (intros H; injection H as <-; split; [eexists; reflexivity|];
         eexists; split; [left; reflexivity|discriminate]).
  destruct (join_titles titles) as [e0|ts]; [|discriminate].
  intros H. injection H as <-. destruct (IH eq_refl) as [Hmsg (v & Hin & Hv)].
  split; [exact Hmsg|]. exists v. split; [now right|exact Hv].
Qed.

(** X15: what [retrieve_documents] can raise: what the search raised, or a
    [TypeError] of its own log lines, when a node has no score or when
    the title of one of the first three nodes is not a string.  In each
    case the failure is the last line of the log. *)
Theorem retrieve_documents_failures (rr : RAGRetriever L) (q : pystr) (s s' : state L)
    (e : exn) :
  retrieve_documents rr q s = (inl e, s') ->
  (exists before,
     logged s' = before ++ [{| levelname := py "error"; phase := py "retrieval";
                               message := lit "Retrieval failed: " ++ exn_str e |}]) /\
  ((exists w,
      vector_search L (vir_index (vector_retriever rr))
        (similarity_top_k (vector_retriever rr)) q (snd (clock L (world s)))
      = (inl e, w)) \/
   (exists nodes w msg,
      vector_search L (vir_index (vector_retriever rr))
        (similarity_top_k (vector_retriever rr)) q (snd (clock L (world s)))
      = (inr nodes, w) /\
      e = TypeError msg /\
      (Exists (fun node => node_score node = None) nodes \/
       exists i node,
         (i < 3)%nat /\ nth_error nodes i = Some node /\
         forall t, node_title i node <> PStr t))).
Proof.
  unfold retrieve_documents. unfold bind at 1, time_time at 1, call.
  destruct (clock L (world s)) as [t w0]. cbn [fst snd world logged].
  unfold bind at 1, log_with_phase at 1. cbn [fst snd world logged].
  unfold try_except.
  match goal with |- context [match ?body with _ => _ end] =>
    destruct body as [[e0|r] s2] eqn:Eb end.
  2: { discriminate. }
  unfold bind, log_with_phase, raise. cbn [fst snd world logged].
  intros H. injection H as <- <-. split; [eexists; reflexivity|].
  unfold bind at 1, VectorIndexRetriever_retrieve, call in Eb.
  cbn [fst snd world logged] in Eb.
  destruct (vector_search L (vir_index (vector_retriever rr))
              (similarity_top_k (vector_retriever rr)) q w0) as [[e|nodes] w] eqn:Es.
  { injection Eb as <- _. left. eexists. reflexivity. }
  right.
  unfold bind at 1, time_time at 1, call in Eb. cbn [fst snd world logged] in Eb.
  destruct (clock L w) as [t1 w1]. unfold bind at 1 in Eb.
  match type of Eb with context [for_each ?l ?f ?a ?st] =>
    destruct (for_each l f a st) as [[e|[results titles]] s3] eqn:El end.
  { injection Eb as <- _. apply collect_node_loop_raises in El as [Hex [msg ->]].
    exists nodes, w, msg. split; [reflexivity|]. split; [reflexivity|]. now left. }
  apply collect_node_loop_titles in El. cbn [snd app] in El. subst titles.
  unfold bind at 1, of_result at 1 in Eb.
  destruct (join_titles _) as [e|shown] eqn:Ej.
  2: { unfold bind, log_with_phase, ret in Eb. discriminate Eb. }
  cbn [fst snd] in Eb. injection Eb as <- _.
  apply join_titles_raises in Ej as [[msg ->] (v & Hin & Hv)].
  exists nodes, w, msg. split; [reflexivity|]. split; [reflexivity|]. right.
  apply In_nth_error in Hin as [i Hi].
  assert (Hlt : (i < 3)%nat).
  { assert (Hsome : nth_error (firstn 3 (map (fun p => node_title (fst p) (snd p))
                                           (enumerate_from 0 nodes))) i <> None)
      by congruence.
    apply nth_error_Some in Hsome. rewrite length_firstn in Hsome. lia. }
  rewrite nth_error_firstn in Hi.
  destruct (Nat.ltb_spec i 3) as [_|Hge]; [|lia].
  rewrite nth_error_map, nth_error_enumerate_from in Hi.
  destruct (nth_error nodes i) as [node|] eqn:En; [|discriminate].
  cbn in Hi. injection Hi as <-. exists i, node. auto.
Qed.

End RetrievalMore.

(** ** The endpoints *)

Section Answers.

Variable L : Library.

(** X16: a query text of white space only is refused with status 400 before
    the pipeline is touched: the clock is read once and the request is
    logged, nothing else happens. *)
Theorem query_documents_refuses_blank (self : RAGPipeline L) (s : state L)
    (request : QueryRequest) :
  Forall (fun c => py_isspace c = true) (request_query request) ->
  query_documents request (self, s)
  = (inl (HTTPException 400 (lit "Query cannot be empty")),
     (self,
      {| world := snd (clock L (world s));
         logged := logged s ++
                   [{| levelname := py "info"; phase := py "api";
                       message := lit "Received query request: '"
                                  ++ abbreviated (request_query request) ++ lit "'" |}] |})).
Proof.
  intros Hblank. unfold query_documents.
  rewrite (strip_blank Hblank).
  unfold bind, io, time_time, call, log_with_phase, raise. cbn [fst snd world logged].
  destruct (clock L (world s)) as [t w]. reflexivity.
Qed.

(** X17: a query that arrives before any index was built is answered with
    status 500 and the text of the not-initialized error. *)
Theorem query_documents_before_build (self : RAGPipeline L) (s : state L)
    (request : QueryRequest) :
  retriever self = None ->
  strip (request_query request) <> [] ->
  exists s',
    query_documents request (self, s)
    = (inl (HTTPException 500 (exn_str NotInitializedError)), (self, s')).
Proof.
  intros Hnone Hquery. unfold query_documents.
  unfold bind at 1, io at 1, time_time, call. cbn [fst snd].
  destruct (clock L (world s)) as [t w].
  unfold bind at 1, io at 1, log_with_phase at 1. cbn [fst snd world logged].
  destruct (strip (request_query request)) as [|c rest] eqn:Es; [congruence|].
  cbn [py_truthy length Nat.eqb negb].
  unfold try_except, bind at 1, query, bind at 1, get_self at 1. cbn [fst snd].
  rewrite Hnone. unfold raise at 1.
  unfold bind, io, log_with_phase, raise. cbn [fst snd world logged].
  eexists. reflexivity.
Qed.

(** A result of [query] is the result of the call it dispatched to,
    made right after the clock read and the log line of [query], with
    the total time added. *)
Lemma query_dispatched (self : RAGPipeline L) (s : state L) (query_text : pystr)
    (retrieve_only : bool) (result : pydict) (ps' : RAGPipeline L * state L) :
  query query_text retrieve_only (self, s) = (inr result, ps') ->
  exists r s2 res total,
    retriever self = Some r /\
    (if retrieve_only then retrieve_documents r query_text
     else generate_response r query_text)
      {| world := snd (clock L (world s));
         logged := logged s ++
                   [{| levelname := py "info"; phase := py "pipeline";
                       message := lit "Processing query: '" ++ abbreviated query_text
                                  ++ lit "'" |}] |}
    = (inr res, s2) /\
    result = dict_set (py "total_processing_time") (PFloat total) res.
Proof.
  unfold query. unfold bind at 1, get_self at 1. cbn [fst snd].
  destruct (retriever self) as [r|]; [|discriminate].
  unfold bind at 1, io at 1, time_time, call. cbn [fst snd].
  destruct (clock L (world s)) as [t w].
  unfold bind at 1, io at 1, log_with_phase at 1. cbn [fst snd world logged].
  unfold try_except, bind at 1, io at 1. cbn [fst snd].
  match goal with |- context [(if retrieve_only then _ else _) ?st] =>
    destruct ((if retrieve_only then retrieve_documents r query_text
               else generate_response r query_text) st) as [[e|res] s2] eqn:Ed end.
  - unfold bind, io, peek, log_with_phase, raise. discriminate.
  - unfold bind, io, time_time, call, log_with_phase, ret. cbn [fst snd world logged].
    destruct (clock L (world s2)) as [t2 w2]. intros H. injection H as <- _.
    eexists r, s2, res, _. split; [reflexivity|]. split; [exact Ed|reflexivity].
Qed.

(** What a successful generation returns, from what the library gave:
    the candidates of the search, and the answer of the synthesizer on
    those that pass the postprocessors. *)
Lemma generate_response_result (rr : RAGRetriever L) (q : pystr) (s s' : state L)
    (res : pydict) :
  generate_response rr q s = (inr res, s') ->
  exists candidates w answer w2 response_time,
    vector_search L (vir_index (engine_retriever (query_engine rr)))
      (similarity_top_k (engine_retriever (query_engine rr))) q (snd (clock L (world s)))
    = (inr candidates, w) /\
    synthesize L (response_synthesizer (query_engine rr)) q
      (fold_left (fun ns p => postprocess_nodes p ns)
         (node_postprocessors (query_engine rr)) candidates) w
    = (inr answer, w2) /\
    res = [(py "query", PStr q);
           (py "response", PStr answer);
           (py "sources",
            PList (map PDict (map source_entry
                     (fold_left (fun ns p => postprocess_nodes p ns)
                        (node_postprocessors (query_engine rr)) candidates))));
           (py "response_time", PFloat response_time);
           (py "response_length", PInt (Z.of_nat (length answer)))].
Proof.
  unfold generate_response. unfold bind at 1, time_time at 1, call.
  destruct (clock L (world s)) as [t w0]. cbn [fst snd world logged].
  unfold bind at 1, log_with_phase at 1. cbn [fst snd world logged].
  unfold try_except.
  match goal with |- context [match ?body with _ => _ end] =>
    destruct body as [[e|r] s2] eqn:Eb end.
  - unfold bind, log_with_phase, raise. discriminate.
  - intros H. injection H as -> ->.
    unfold bind at 1, RetrieverQueryEngine_query in Eb.
    unfold bind at 1, VectorIndexRetriever_retrieve, call in Eb.
    cbn [fst snd world logged] in Eb.
    destruct (vector_search L (vir_index (engine_retriever (query_engine rr)))
                (similarity_top_k (engine_retriever (query_engine rr))) q w0)
      as [[e|candidates] w] eqn:Es; [discriminate|].
    unfold bind at 1, call in Eb. cbn [fst snd world logged] in Eb.
    match type of Eb with context [synthesize L ?sy ?qq ?ns ?ww] =>
      destruct (synthesize L sy qq ns ww) as [[e|answer] w2] eqn:Ea end; [discriminate|].
    unfold ret at 1 in Eb.
    unfold bind, time_time, call, log_with_phase, ret in Eb.
    cbn [fst snd world logged response_str source_nodes] in Eb.
    destruct (clock L w2) as [t1 w3]. injection Eb as <- _.
    exists candidates, w, answer, w2, (PrimFloat.sub t1 t).
    split; [reflexivity|]. split; [exact Ea|reflexivity].
Qed.

(** X18: an answer of [/query] in generation mode is made of what the
    library gave to the retriever of the pipeline: the response is the
    text of the synthesizer, the sources are the entries of the
    candidates that passed the postprocessors, [total_results] is their
    number and [response_length] the length of the text.  The search
    runs after three clock reads: of the endpoint, of [query] and of
    [generate_response].  [retrieval_time] is always 0.0, since the
    generation result has no entry of that name. *)
Theorem query_documents_generated (self : RAGPipeline L) (s : state L)
    (request : QueryRequest) (out : QueryResponse) (ps' : RAGPipeline L * state L) :
  request_retrieve_only request = false ->
  query_documents request (self, s) = (inr out, ps') ->
  exists rr candidates w answer w2,
    retriever self = Some rr /\
    vector_search L (vir_index (engine_retriever (query_engine rr)))
      (similarity_top_k (engine_retriever (query_engine rr))) (request_query request)
      (snd (clock L (snd (clock L (snd (clock L (world s)))))))
    = (inr candidates, w) /\
    synthesize L (response_synthesizer (query_engine rr)) (request_query request)
      (fold_left (fun ns p => postprocess_nodes p ns)
         (node_postprocessors (query_engine rr)) candidates) w
    = (inr answer, w2) /\
    response_query out = PStr (request_query request) /\
    response_response out = PStr answer /\
    response_sources out
    = PList (map PDict (map source_entry
               (fold_left (fun ns p => postprocess_nodes p ns)
                  (node_postprocessors (query_engine rr)) candidates))) /\
    response_retrieval_time out = PFloat 0%float /\
    dict_get (py "total_results") (response_metadata out)
    = Some (PInt (Z.of_nat (length (fold_left (fun ns p => postprocess_nodes p ns)
                                      (node_postprocessors (query_engine rr)) candidates)))) /\
    dict_get (py "response_length") (response_metadata out)
    = Some (PInt (Z.of_nat (length answer))).
Proof.
  intros Hmode. unfold query_documents.
  unfold bind at 1, io at 1, time_time, call. cbn [fst snd].
  destruct (clock L (world s)) as [t w0]. cbn [fst snd].
  unfold bind at 1, io at 1, log_with_phase at 1. cbn [fst snd world logged].
  destruct (negb (py_truthy (PStr (strip (request_query request))))); [discriminate|].
  unfold try_except.
  match goal with |- context [match ?body with _ => _ end] =>
    destruct body as [[e|r] s2] eqn:Eb end.
  { unfold bind, io, log_with_phase, raise. discriminate. }
  intros H. injection H as -> ->.
  unfold bind at 1 in Eb. rewrite Hmode in Eb.
  match type of Eb with context [query ?q false ?st] =>
    destruct (query q false st) as [[e|result] ps1] eqn:Eq end; [discriminate|].
  apply query_dispatched in Eq as (rr & s3 & res & total & Hrr & Hgen & ->).
  apply generate_response_result in Hgen
    as (candidates & w & answer & w2 & rt & Hsearch & Hanswer & ->).
  cbn [world logged] in Hsearch.
  exists rr, candidates, w, answer, w2.
  split; [exact Hrr|]. split; [exact Hsearch|]. split; [exact Hanswer|].
  unfold bind at 1, of_result at 1 in Eb. cbn in Eb.
  unfold bind at 1, io at 1, time_time, call in Eb. cbn [fst snd] in Eb.
  destruct (clock L (world (snd ps1))) as [t1 w1].
  unfold bind at 1, of_result at 1 in Eb. cbn in Eb.
  destruct answer as [|c answer].
  - cbn in Eb. unfold bind, of_result, io, log_with_phase, ret in Eb. cbn in Eb.
    injection Eb as <- _. cbn. repeat split; try reflexivity.
    unfold py_len. rewrite !length_map. reflexivity.
  - cbn in Eb. unfold bind, of_result, io, log_with_phase, ret in Eb. cbn in Eb.
    injection Eb as <- _. cbn. repeat split; try reflexivity.
    unfold py_len. rewrite !length_map. reflexivity.
Qed.

(** X19: an answer of [/query] in retrieval mode is made of the nodes
    the index search gave to the retriever of the pipeline: no response
    text, one row per node as sources, their number as [total_results]
    and 0 as [response_length].  The search runs after three clock
    reads: of the endpoint, of [query] and of [retrieve_documents]. *)
Theorem query_documents_retrieved (self : RAGPipeline L) (s : state L)
    (request : QueryRequest) (out : QueryResponse) (ps' : RAGPipeline L * state L) :
  request_retrieve_only request = true ->
  query_documents request (self, s) = (inr out, ps') ->
  exists rr nodes w,
    retriever self = Some rr /\
    vector_search L (vir_index (vector_retriever rr))
      (similarity_top_k (vector_retriever rr)) (request_query request)
      (snd (clock L (snd (clock L (snd (clock L (world s)))))))
    = (inr nodes, w) /\
    response_query out = PStr (request_query request) /\
    response_response out = PNone /\
    response_sources out
    = PList (map PDict (map (fun p => node_data (fst p) (snd p)) (enumerate nodes))) /\
    dict_get (py "total_results") (response_metadata out)
    = Some (PInt (Z.of_nat (length nodes))) /\
    dict_get (py "response_length") (response_metadata out) = Some (PInt 0).
Proof.
  intros Hmode. unfold query_documents.
  unfold bind at 1, io at 1, time_time, call. cbn [fst snd].
  destruct (clock L (world s)) as [t w0]. cbn [fst snd].
  unfold bind at 1, io at 1, log_with_phase at 1. cbn [fst snd world logged].
  destruct (negb (py_truthy (PStr (strip (request_query request))))); [discriminate|].
  unfold try_except.
  match goal with |- context [match ?body with _ => _ end] =>
    destruct body as [[e|r] s2] eqn:Eb end.
  { unfold bind, io, log_with_phase, raise. discriminate. }
  intros H. injection H as -> ->.
  unfold bind at 1 in Eb. rewrite Hmode in Eb.
  match type of Eb with context [query ?q true ?st] =>
    destruct (query q true st) as [[e|result] ps1] eqn:Eq end; [discriminate|].
  apply query_dispatched in Eq as (rr & s3 & res & total & Hrr & Hret & ->).
  apply retrieve_documents_rows in Hret as (nodes & w & rt & Hsearch & ->).
  cbn [world logged] in Hsearch.
  exists rr, nodes, w. split; [exact Hrr|]. split; [exact Hsearch|].
  unfold bind at 1, of_result at 1 in Eb. cbn in Eb.
  unfold bind at 1, io at 1, time_time, call in Eb. cbn [fst snd] in Eb.
  destruct (clock L (world (snd ps1))) as [t1 w1].
  unfold bind, of_result, io, log_with_phase, ret in Eb. cbn in Eb.
  injection Eb as <- _. cbn. repeat split.
Qed.

(** X20: an answer of [/search] is made of the nodes the index search
    gave to the retriever of the pipeline: [results] is the slice
    [[:top_k]] of the rows, one per node (the first [top_k] rows, or all
    but the last [-top_k] when [top_k] is negative), while [total_found]
    counts all the nodes.  The search runs after two clock reads: of
    [query] and of [retrieve_documents]. *)
Theorem search_documents_truncates (self : RAGPipeline L) (s : state L)
    (q : pystr) (k : Z) (out : pydict) (ps' : RAGPipeline L * state L) :
  search_documents q k (self, s) = (inr out, ps') ->
  exists rr nodes w,
    retriever self = Some rr /\
    vector_search L (vir_index (vector_retriever rr))
      (similarity_top_k (vector_retriever rr)) q
      (snd (clock L (snd (clock L (world s)))))
    = (inr nodes, w) /\
    dict_get (py "query") out = Some (PStr q) /\
    dict_get (py "results") out
    = Some (PList (py_prefix k
              (map PDict (map (fun p => node_data (fst p) (snd p)) (enumerate nodes))))) /\
    dict_get (py "total_found") out = Some (PInt (Z.of_nat (length nodes))) /\
    ((0 <= k)%Z ->
     Z.of_nat (length (py_prefix k
                 (map PDict (map (fun p => node_data (fst p) (snd p)) (enumerate nodes)))))
     = Z.min k (Z.of_nat (length nodes))).
Proof.
  unfold search_documents.
  destruct (negb (py_truthy (PStr (strip q)))); [discriminate|].
  unfold try_except.
  match goal with |- context [match ?body with _ => _ end] =>
    destruct body as [[e|r] s2] eqn:Eb end.
  { unfold bind, io, log_with_phase, raise. discriminate. }
  intros H. injection H as -> ->.
  unfold bind at 1 in Eb.
  destruct (query q true (self, s)) as [[e|result] ps1] eqn:Eq; [discriminate|].
  apply query_dispatched in Eq as (rr & s3 & res & total & Hrr & Hret & ->).
  apply retrieve_documents_rows in Hret as (nodes & w & rt & Hsearch & ->).
  cbn [world logged] in Hsearch.
  exists rr, nodes, w. split; [exact Hrr|]. split; [exact Hsearch|].
  unfold bind, of_result, ret in Eb. cbn in Eb.
  injection Eb as <- _.
  split; [reflexivity|]. split; [reflexivity|]. split; [reflexivity|].
  intros Hk. unfold py_prefix, enumerate.
  destruct (0 <=? k)%Z eqn:E; [|apply Z.leb_gt in E; lia].
  rewrite length_firstn, !length_map, length_enumerate_from. lia.
Qed.

End Answers.

(** ** Tasks and status *)

Section Tasks.

Variable L : Library.

Lemma build_index_error_keeps (force_rebuild : bool) (ps ps1 : RAGPipeline L * state L)
    (e : exn) :
  build_index force_rebuild ps = (inl e, ps1) ->
  retriever (fst ps1) = retriever (fst ps).
Proof.
  unfold build_index, bind. intros H.
  destruct (existing_index_block force_rebuild ps) as [[e0|block] ps0] eqn:Eb.
  - injection H as <- <-.
    destruct (existing_index_block_keeps force_rebuild _ Eb) as [(a & Habs & _)|Hr];
      [discriminate|exact Hr].
  - destruct (snd block) eqn:Es; [discriminate|].
    destruct (existing_index_block_keeps force_rebuild _ Eb) as [(a & Ha & Hs)|Hr].
    + injection Ha as <-. congruence.
    + destruct (rebuild_path_keeps (fst block) _ H) as [(a & Habs & _)|Hr'];
        [discriminate|congruence].
Qed.

(** X21: the background rebuild never raises.  When the build fails the
    failure is logged and the served retriever stays; when the build
    returns the pipeline serves the new index. *)
Theorem rebuild_task_never_raises (force_rebuild : bool) (ps : RAGPipeline L * state L) :
  exists ps',
    rebuild_task force_rebuild ps = (inr tt, ps') /\
    (forall e ps1,
       build_index force_rebuild ps = (inl e, ps1) ->
       retriever (fst ps') = retriever (fst ps) /\
       logged (snd ps')
       = logged (snd ps1) ++ [{| levelname := py "error"; phase := py "api";
                                 message := lit "Index rebuild failed: " ++ exn_str e |}]) /\
    (forall ps1, build_index force_rebuild ps = (inr tt, ps1) -> serving (fst ps')).
Proof.
  unfold rebuild_task, try_except. unfold bind at 1.
  destruct (build_index force_rebuild ps) as [[e|[]] ps1] eqn:Eb.
  - unfold io, log_with_phase. cbn [fst snd].
    eexists. split; [reflexivity|]. cbn [fst snd logged]. split.
    + intros e0 ps0 H. injection H as <- <-. split; [|reflexivity].
      exact (build_index_error_keeps _ _ Eb).
    + discriminate.
  - unfold io, log_with_phase. cbn [fst snd].
    eexists. split; [reflexivity|]. cbn [fst snd logged]. split; [discriminate|].
    intros ps0 _. destruct ps as [self s].
    destruct (build_index_tracks self force_rebuild _ Eb) as [_ Hs]. now apply (Hs tt).
Qed.

(** X22: when the startup of the service returns, the pipeline serves; when
    it raises, it raises what the forced build raised. *)
Theorem lifespan_startup_outcome (self : RAGPipeline L) (s : state L)
    (r : result unit) (ps' : RAGPipeline L * state L) :
  @lifespan_startup L (self, s) = (r, ps') ->
  (r = inr tt -> serving (fst ps')) /\
  (forall e, r = inl e ->
     exists s0 ps1, build_index true (self, s0) = (inl e, ps1) /\ fst ps' = fst ps1).
Proof.
  unfold lifespan_startup. unfold bind at 1, io at 1, log_with_phase at 1.
  cbn [fst snd]. unfold try_except. unfold bind at 1.
  match goal with |- context [build_index true ?st] =>
    destruct (build_index true st) as [[e|[]] ps1] eqn:Eb end.
  - unfold bind, io, log_with_phase, raise. cbn [fst snd]. intros H.
    injection H as <- <-. split; [discriminate|].
    intros e0 He0. injection He0 as <-. eexists _, ps1. split; [exact Eb|reflexivity].
  - unfold io, log_with_phase. cbn [fst snd]. intros H. injection H as <- <-.
    split; [|discriminate]. intros _. cbn [fst].
    destruct (build_index_tracks self true _ Eb) as [_ Hs]. now apply (Hs tt).
Qed.

Variable D : DirectoryApi L.

(** X23: the statistics only read: they leave the pipeline, the world and the
    log as they are.  The two flags say whether an index and a retriever
    are bound, and the size entry is there exactly when the persistence
    directory exists. *)
Theorem get_stats_reports (self : RAGPipeline L) (s : state L)
    (stats : pydict) (ps' : RAGPipeline L * state L) :
  get_stats D (self, s) = (inr stats, ps') ->
  ps' = (self, s) /\
  dict_get (py "index_exists") stats
  = Some (PBool (match index self with Some _ => true | None => false end)) /\
  dict_get (py "retriever_ready") stats
  = Some (PBool (match retriever self with Some _ => true | None => false end)) /\
  dict_get (py "top_k_retrieval") stats = Some (PInt (top_k self)) /\
  (dict_get (py "vector_store_size") stats <> None <->
   os_path_exists L (persist_directory self) (world s) = true).
Proof.
  destruct s as [w lg].
  unfold get_stats, bind, get_self, io, peek, call, ret. cbn [fst snd world logged].
  destruct (os_path_exists L (persist_directory self) w) eqn:Efound;
    cbn [fst snd world logged].
  - destruct (os_listdir D (persist_directory self) w) as [e|names];
      cbn [fst snd world logged]; [discriminate|].
    destruct (sum_sizes D (persist_directory self) names w) as [e|size];
      cbn [fst snd world logged]; [discriminate|].
    intros H. injection H as <- <-. repeat split; try reflexivity.
    intros _. discriminate.
  - intros H. injection H as <- <-. repeat split; try reflexivity.
    + intros Hsize. now contradiction Hsize.
    + discriminate.
Qed.

(** The size the statistics give never counts what is not a regular
    file: with no regular file in the directory it is 0. *)
Lemma sum_sizes_no_files (directory : pystr) (names : list pystr) (w : ext L) :
  (forall f, In f names -> os_path_isfile D (os_path_join D directory f) w = false) ->
  sum_sizes D directory names w = inr 0%Z.
Proof.
  induction names as [|f names IH]; intros Hnone; cbn [sum_sizes]; [reflexivity|].
  rewrite (Hnone f (or_introl eq_refl)). apply IH. intros g Hg. apply Hnone. now right.
Qed.

End Tasks.

(** ** From the files to the chunks *)

Section DataPath.

Variable L : Library.

Lemma preprocess_loaded (doc : pydict) (i : nat) :
  loaded_document doc ->
  exists content path filename chunk metadata,
    dict_get (py "content") doc = Some (PStr content) /\
    _preprocess_single_document doc i = inr chunk /\
    dict_get (py "content") chunk = Some (PStr (strip content)) /\
    dict_get (py "metadata") chunk = Some (PDict metadata) /\
    dict_get (py "chunk_id") metadata = Some (PInt (Z.of_nat i)) /\
    dict_get (py "path") metadata = Some (PStr path) /\
    dict_get (py "filename") metadata = Some (PStr filename).
Proof.
  intros (content & path & filename & extension & directory & -> & _ & _).
  eexists content, path, filename, _, _.
  split; [reflexivity|]. split; [reflexivity|].
  repeat split; reflexivity.
Qed.

Lemma chunks_from_loaded (documents : list pydict) :
  Forall loaded_document documents ->
  forall i,
    length (chunks_from i documents) = length documents /\
    (forall j doc,
       nth_error documents j = Some doc ->
       exists chunk, nth_error (chunks_from i documents) j = Some chunk /\
                     _preprocess_single_document doc (i + j) = inr chunk).
Proof.
  induction 1 as [|doc rest Hdoc _ IH]; intros i.
  - split; [reflexivity|]. intros [|j] doc H; discriminate.
  - cbn [chunks_from].
    destruct (preprocess_loaded i Hdoc) as (c & p & f & chunk & md & _ & Hsingle & _).
    rewrite Hsingle.
    destruct (IH (S i)) as [Hlen Hnth]. split; [cbn; now rewrite Hlen|].
    intros [|j] d Hd.
    + injection Hd as <-. exists chunk. split; [reflexivity|].
      now rewrite Nat.add_0_r.
    + cbn [nth_error] in *. destruct (Hnth j d Hd) as (ch & Hch & Hone).
      exists ch. split; [exact Hch|]. now rewrite Nat.add_succ_r.
Qed.

(** X24: the documents the loader makes are all chunked: the chunking returns
    one chunk per document, in order, numbered by position and carrying
    the path and file name of its document. *)
Theorem loaded_documents_are_chunked (documents : list pydict) (s : state L) :
  Forall loaded_document documents ->
  exists chunks s',
    preprocess_documents documents s = (inr chunks, s') /\
    length chunks = length documents /\
    (forall j doc,
       nth_error documents j = Some doc ->
       exists chunk metadata original,
         nth_error chunks j = Some chunk /\
         dict_get (py "metadata") chunk = Some (PDict metadata) /\
         dict_get (py "metadata") doc = Some (PDict original) /\
         dict_get (py "chunk_id") metadata = Some (PInt (Z.of_nat j)) /\
         dict_get (py "path") metadata = dict_get (py "path") original /\
         dict_get (py "filename") metadata = dict_get (py "filename") original).
Proof.
  intros Hall.
  assert (Hmeta : Forall (fun doc => exists metadata,
                            dict_get (py "metadata") doc = Some (PDict metadata)) documents).
  { eapply Forall_impl; [|exact Hall].
    intros doc (content & path & filename & extension & directory & -> & _).
    eexists. reflexivity. }
  destruct (@preprocess_documents_returns L documents s Hmeta) as (s' & Hrun).
  destruct (chunks_from_loaded Hall 0) as [Hlen Hnth].
  exists (chunks_from 0 documents), s'. split; [exact Hrun|]. split; [exact Hlen|].
  intros j doc Hdoc. destruct (Hnth j doc Hdoc) as (chunk & Hchunk & Hsingle).
  cbn [Nat.add] in Hsingle.
  assert (Hloaded : loaded_document doc).
  { rewrite Forall_forall in Hall. apply Hall. eapply nth_error_In. exact Hdoc. }
  destruct Hloaded as (content & path & filename & extension & directory & -> & _).
  exists chunk. cbn in Hsingle. injection Hsingle as <-.
  eexists _, _. split; [exact Hchunk|]. repeat split; reflexivity.
Qed.

(** While no source directory exists the loader reads nothing and
    returns no document. *)
Lemma load_documents_nowhere (self : DocumentLoader) (s : state L) :
  (forall d, In d (loader_source_dirs self) ->
             os_path_exists L d (snd (clock L (world s))) = false) ->
  exists s',
    load_documents self s = (inr ([], no_stats), s') /\
    world s' = snd (clock L (snd (clock L (world s)))).
Proof.
  intros Hmissing. unfold load_documents.
  unfold bind at 1, time_time at 1, call.
  destruct (clock L (world s)) as [t w]. cbn [fst snd world logged] in *.
  unfold bind at 1, log_with_phase at 1. cbn [fst snd world logged].
  unfold bind at 1.
  assert (Hloop : forall dirs,
            (forall d, In d dirs -> os_path_exists L d w = false) ->
            forall lg,
            exists lg',
              for_each dirs
                (fun source_dir '(documents, stats) =>
                   bind (peek (os_path_exists L source_dir)) (fun found =>
                   if negb found then
                     bind (log_with_phase "warning" "loading"
                             (lit "Directory not found: " ++ [FLit source_dir]))
                          (fun _ => ret (documents, stats))
                   else
                     bind (_load_from_directory self source_dir) (fun in_dir =>
                     ret (documents ++ fst in_dir, add_stats stats (snd in_dir)))))
                ([], no_stats) {| world := w; logged := lg |}
              = (inr ([], no_stats), {| world := w; logged := lg' |})).
  { induction dirs as [|d dirs IH]; intros Hd lg.
    - exists lg. reflexivity.
    - cbn [for_each]. unfold bind at 1, bind at 1, peek at 1. cbn [fst snd world logged].
      rewrite (Hd d (or_introl eq_refl)). cbn [negb].
      unfold bind at 1, log_with_phase at 1, ret at 1. cbn [fst snd world logged].
      apply IH. intros d' Hd'. apply Hd. now right. }
  destruct (Hloop (loader_source_dirs self) Hmissing
              (logged s ++ [{| levelname := py "info"; phase := py "loading";
                              message := lit "Starting document loading from: "
                                         ++ [FLit (py_join (py ", ")
                                                     (loader_source_dirs self))] |}]))
    as (lg' & ->).
  unfold bind, time_time, call, log_with_phase, ret. cbn [fst snd world logged].
  destruct (clock L w) as [t1 w1]. eexists. split; reflexivity.
Qed.

(** X25: a forced build while none of the source directories exists raises
    the empty-corpus error and leaves the pipeline object as it was. *)
Theorem build_without_sources (self : RAGPipeline L) (s : state L) :
  (forall d, In d (loader_source_dirs (loader self)) ->
             os_path_exists L d (snd (clock L (snd (clock L (world s))))) = false) ->
  exists s', build_index true (self, s) = (inl EmptyCorpusError, (self, s')).
Proof.
  intros Hmissing.
  unfold build_index. unfold bind at 1.
  unfold existing_index_block, bind, io, get_self, peek, time_time, call, log_with_phase, ret.
  cbn [fst snd world logged negb].
  destruct (clock L (world s)) as [t w]. cbn [fst snd world logged] in *.
  unfold rebuild_path. unfold bind at 1, io at 1, log_with_phase at 1.
  cbn [fst snd world logged].
  unfold bind at 1, get_self at 1. cbn [fst snd].
  unfold bind at 1, io at 1. cbn [fst snd].
  match goal with |- context [load_documents (loader self) ?st] =>
    destruct (@load_documents_nowhere (loader self) st) as (s1 & -> & _) end.
  { exact Hmissing. }
  cbn [fst snd map py_truthy length Nat.eqb negb]. unfold raise. eexists. reflexivity.
Qed.

End DataPath.

(** ** The embedder *)

Section Embedder.

Variable L : Library.

Lemma to_llama_document_returns (chunk : pydict) (acc : list Document) (s : state L) :
  embeddable chunk ->
  exists s',
    to_llama_document chunk acc s = (inr (acc ++ [llama_document chunk]), s') /\
    world s' = world s.
Proof.
  intros (content & metadata & chunk_id & filename & preview & Hc & Hm & Hi & Hf & Hp).
  unfold to_llama_document, bind, of_result, py_getitem, log_with_phase, ret,
    llama_document, dict_get_default.
  rewrite Hc, Hm. cbn [fst snd]. rewrite Hi, Hf, Hp. cbn [py_slice_to].
  eexists. split; reflexivity.
Qed.

Lemma conversion_loop_returns (chunks : list pydict) :
  Forall embeddable chunks ->
  forall (acc : list Document) (s : state L),
  exists s',
    for_each chunks (@to_llama_document L) acc s
    = (inr (acc ++ map llama_document chunks), s') /\
    world s' = world s.
Proof.
  induction 1 as [|chunk chunks Hchunk _ IH]; intros acc s.
  - exists s. cbn. now rewrite app_nil_r.
  - cbn [for_each map]. unfold bind at 1.
    destruct (to_llama_document_returns acc s Hchunk) as (s1 & -> & Hw1).
    destruct (IH (acc ++ [llama_document chunk]) s1) as (s2 & -> & Hw2).
    exists s2. rewrite <- app_assoc. split; [reflexivity|congruence].
Qed.

(** The chunk of a document of the loader can be embedded. *)
Lemma loaded_chunk_embeddable (doc chunk : pydict) (i : nat) :
  loaded_document doc ->
  _preprocess_single_document doc i = inr chunk ->
  embeddable chunk.
Proof.
  intros (content & path & filename & extension & directory & -> & _) H.
  cbn in H. injection H as <-.
  eexists _, _, _, _, _. repeat split; reflexivity.
Qed.

Lemma create_vector_store_cases (self : RAGEmbedder) (chunks : list pydict)
    (s s' : state L) (r : result (VectorStoreIndex L)) :
  Forall embeddable chunks ->
  create_vector_store self chunks s = (r, s') ->
  (exists e w w',
     r = inl e /\
     (PersistentClient L (embedder_persist_directory self) w = (inl e, w') \/
      (exists client, create_collection L client (collection_name self) w = (inl e, w')) \/
      (exists collection,
         from_documents L (map llama_document chunks) collection w = (inl e, w'))))
  \/
  (exists idx collection w w',
     r = inr idx /\
     from_documents L (map llama_document chunks) collection w = (inr idx, w')).
Proof.
  intros Hall. unfold create_vector_store.
  unfold bind at 1, time_time at 1. unfold call at 1. destruct (clock L (world s)) as [t w0].
  unfold bind at 1, log_with_phase at 1. cbn [fst snd world logged].
  unfold bind at 1, call at 1. cbn [fst snd world logged].
  destruct (PersistentClient L (embedder_persist_directory self) w0)
    as [[e|client] w1] eqn:Eclient.
  { intros H. injection H as <- _. left. eexists e, _, _. split; [reflexivity|].
    left. exact Eclient. }
  unfold bind at 1, try_except at 1, bind at 1, call at 1. cbn [fst snd world logged].
  assert (Hrest : forall collection (s1 : state L),
            bind (for_each chunks (@to_llama_document L) [])
              (fun llama_documents =>
               bind (call (from_documents L llama_documents collection)) (fun index =>
               bind (@time_time L) (fun now =>
               bind (log_with_phase "info" "embedding"
                       (lit "Vector store created successfully: "
                        ++ [FStr (py_len chunks)] ++ lit " vectors indexed in "
                        ++ [FFixed 2 (PFloat (PrimFloat.sub now t))]
                        ++ lit "s. Persisted to: "
                        ++ [FLit (embedder_persist_directory self)]))
                    (fun _ => ret index)))) s1 = (r, s') ->
            (exists e w w',
               r = inl e /\
               (PersistentClient L (embedder_persist_directory self) w = (inl e, w') \/
                (exists client,
                   create_collection L client (collection_name self) w = (inl e, w')) \/
                (exists collection,
                   from_documents L (map llama_document chunks) collection w
                   = (inl e, w'))))
            \/
            (exists idx collection w w',
               r = inr idx /\
               from_documents L (map llama_document chunks) collection w = (inr idx, w'))).
  { intros collection s1. unfold bind at 1.
    destruct (conversion_loop_returns Hall [] s1) as (s2 & -> & _). cbn [app].
    unfold bind at 1, call at 1.
    destruct (from_documents L (map llama_document chunks) collection (world s2))
      as [[e|idx] w2] eqn:Eindex.
    - intros H. injection H as <- _. left. eexists e, _, _. split; [reflexivity|].
      right. right. exists collection. exact Eindex.
    - unfold bind, time_time, call, log_with_phase, ret. cbn [fst snd world logged].
      destruct (clock L w2) as [t2 w3]. intros H. injection H as <- _.
      right. eexists idx, collection, _, _. split; [reflexivity|exact Eindex]. }
  destruct (get_collection L client (collection_name self) w1) as [[e|collection] w2].
  - unfold bind at 1, call at 1. cbn [fst snd world logged].
    destruct (create_collection L client (collection_name self) w2)
      as [[e'|collection] w3] eqn:Ecreate.
    + intros H. injection H as <- _. left. eexists e', _, _. split; [reflexivity|].
      right. left. exists client. exact Ecreate.
    + unfold bind at 1, log_with_phase at 1, ret at 1. cbn [fst snd world logged].
      apply Hrest.
  - unfold bind at 1, log_with_phase at 1, ret at 1. cbn [fst snd world logged].
    apply Hrest.
Qed.

(** X26: on chunks that can be embedded, what [create_vector_store]
    does is three calls of the store, each made in the world the one
    before left.  It opens the client on its directory after one clock
    read; it fetches the collection of its name and, only when that
    raises, creates it; it builds the index from one document per chunk,
    in order, in that collection.  What the first or the creation raises
    is raised; otherwise the outcome is the outcome of the index
    construction, an index or an exception. *)
Theorem create_vector_store_outcome (self : RAGEmbedder) (chunks : list pydict)
    (s s' : state L) (r : result (VectorStoreIndex L)) :
  Forall embeddable chunks ->
  create_vector_store self chunks s = (r, s') ->
  exists opened w1,
    PersistentClient L (embedder_persist_directory self) (snd (clock L (world s)))
    = (opened, w1) /\
    match opened with
    | inl e => r = inl e
    | inr client =>
        exists fetched w2 bound w3,
          get_collection L client (collection_name self) w1 = (fetched, w2) /\
          match fetched with
          | inr collection => bound = inr collection /\ w3 = w2
          | inl _ => create_collection L client (collection_name self) w2 = (bound, w3)
          end /\
          match bound with
          | inl e => r = inl e
          | inr collection =>
              exists w4,
                from_documents L (map llama_document chunks) collection w3 = (r, w4)
          end
    end.
Proof.
  intros Hall. unfold create_vector_store.
  unfold bind at 1, time_time at 1. unfold call at 1. destruct (clock L (world s)) as [t w0].
  unfold bind at 1, log_with_phase at 1. cbn [fst snd world logged].
  unfold bind at 1, call at 1. cbn [fst snd world logged].
  destruct (PersistentClient L (embedder_persist_directory self) w0)
    as [[e|client] w1] eqn:Eclient.
  { intros H. injection H as <- _. eexists _, _. split; [reflexivity|reflexivity]. }
  unfold bind at 1, try_except at 1, bind at 1, call at 1. cbn [fst snd world logged].
  assert (Hrest : forall collection (s1 : state L),
            bind (for_each chunks (@to_llama_document L) [])
              (fun llama_documents =>
               bind (call (from_documents L llama_documents collection)) (fun index =>
               bind (@time_time L) (fun now =>
               bind (log_with_phase "info" "embedding"
                       (lit "Vector store created successfully: "
                        ++ [FStr (py_len chunks)] ++ lit " vectors indexed in "
                        ++ [FFixed 2 (PFloat (PrimFloat.sub now t))]
                        ++ lit "s. Persisted to: "
                        ++ [FLit (embedder_persist_directory self)]))
                    (fun _ => ret index)))) s1 = (r, s') ->
            exists w4,
              from_documents L (map llama_document chunks) collection (world s1) = (r, w4)).
  { intros collection s1. unfold bind at 1.
    destruct (conversion_loop_returns Hall [] s1) as (s2 & -> & Hw). cbn [app].
    unfold bind at 1, call at 1. rewrite Hw.
    destruct (from_documents L (map llama_document chunks) collection (world s1))
      as [[e|idx] w2] eqn:Eindex.
    - intros H. injection H as <- _. eexists. reflexivity.
    - unfold bind, time_time, call, log_with_phase, ret. cbn [fst snd world logged].
      destruct (clock L w2) as [t2 w3]. intros H. injection H as <- _.
      eexists. reflexivity. }
  destruct (get_collection L client (collection_name self) w1) as [[e|collection] w2]
    eqn:Efetch.
  - unfold bind at 1, call at 1. cbn [fst snd world logged].
    destruct (create_collection L client (collection_name self) w2)
      as [[e'|collection] w3] eqn:Ecreate.
    + intros H. injection H as <- _.
      exists (inr client), w1. split; [reflexivity|].
      eexists _, _, _, _. split; [exact Efetch|]. split; [exact Ecreate|reflexivity].
    + unfold bind at 1, log_with_phase at 1, ret at 1. cbn [fst snd world logged].
      intros H. apply Hrest in H. cbn [world] in H.
      exists (inr client), w1. split; [reflexivity|].
      eexists _, _, _, _. split; [exact Efetch|]. split; [exact Ecreate|exact H].
  - unfold bind at 1, log_with_phase at 1, ret at 1. cbn [fst snd world logged].
    intros H. apply Hrest in H. cbn [world] in H.
    exists (inr client), w1. split; [reflexivity|].
    eexists _, _, (inr collection), _. split; [exact Efetch|].
    split; [split; reflexivity|exact H].
Qed.

Lemma RAGRetriever_init_raises (idx : VectorStoreIndex L) (k : Z) (s s' : state L) (e : exn) :
  RAGRetriever_init idx k s = (inl e, s') ->
  exists w', get_response_synthesizer L (world s) = (inl e, w').
Proof.
  unfold RAGRetriever_init, bind, call, log_with_phase, ret.
  destruct (get_response_synthesizer L (world s)) as [[e0|synth] w]; [|discriminate].
  intros H. injection H as <- _. eauto.
Qed.

Lemma chunks_from_embeddable (documents : list pydict) :
  Forall loaded_document documents ->
  forall i, Forall embeddable (chunks_from i documents).
Proof.
  induction 1 as [|doc rest Hdoc _ IH]; intros i; cbn [chunks_from]; [constructor|].
  destruct (_preprocess_single_document doc i) as [e|chunk] eqn:Esingle; [apply IH|].
  constructor; [|apply IH]. exact (@loaded_chunk_embeddable doc chunk i Hdoc Esingle).
Qed.

(** X27: a forced build of a pipeline with the loader of the program raises
    the empty-corpus error or what a library call raised, nothing else:
    the documents of the loader are chunked and converted without a
    missing key or a wrong type. *)
Theorem forced_build_failures (self : RAGPipeline L) (dirs : list pystr) (s : state L)
    (e : exn) (ps' : RAGPipeline L * state L) :
  loader self = DocumentLoader_init dirs ->
  build_index true (self, s) = (inl e, ps') ->
  e = EmptyCorpusError \/ library_raises L e.
Proof.
  intros Hloader.
  unfold build_index. unfold bind at 1.
  unfold existing_index_block, bind, io, get_self, peek, time_time, call, log_with_phase, ret.
  cbn [fst snd world logged negb].
  destruct (clock L (world s)) as [t w]. cbn [fst snd world logged].
  unfold rebuild_path. unfold bind at 1, io at 1, log_with_phase at 1.
  cbn [fst snd world logged].
  unfold bind at 1, get_self at 1. cbn [fst snd].
  unfold bind at 1, io at 1. cbn [fst snd]. rewrite Hloader.
  match goal with |- context [load_documents _ ?st] =>
    destruct (@load_documents_spec L dirs st) as ([documents stats] & s1 & -> & [Hall _]) end.
  cbn [fst snd] in *.
  destruct (negb (py_truthy (PList (map PDict documents)))).
  { unfold raise. intros H. injection H as <- _. now left. }
  unfold bind at 1, io at 1. cbn [fst snd].
  assert (Hmeta : Forall (fun doc => exists metadata,
                            dict_get (py "metadata") doc = Some (PDict metadata)) documents).
  { eapply Forall_impl; [|exact Hall].
    intros doc (content & path & filename & extension & directory & -> & _).
    eexists. reflexivity. }
  destruct (@preprocess_documents_returns L documents s1 Hmeta) as (s2 & ->).
  unfold bind at 1, io at 1. cbn [fst snd].
  destruct (create_vector_store (embedder self) (chunks_from 0 documents) s2)
    as [[e1|idx] s3] eqn:Estore.
  { intros H. injection H as <- _. right.
    destruct (@create_vector_store_cases _ _ _ _ _ (@chunks_from_embeddable documents Hall 0) Estore)
      as [(e2 & w0 & w' & He2 & Hcase)|(idx & collection & w0 & w' & Habs & _)];
      [|discriminate].
    injection He2 as <-. exists w0, w'.
    destruct Hcase as [Hc|[[client Hc]|[collection Hc]]]; eauto 6. }
  unfold bind at 1, set_index at 1. cbn [fst snd].
  unfold bind at 1, io at 1. cbn [fst snd top_k].
  destruct (RAGRetriever_init idx (top_k self) s3) as [[e1|rr] s4] eqn:Einit.
  { intros H. injection H as <- _. right.
    destruct (@RAGRetriever_init_raises _ _ _ _ _ Einit) as (w' & Hsynth).
    exists (world s3), w'. auto. }
  unfold bind, set_retriever, io, time_time, call, log_with_phase. cbn [fst snd world logged].
  destruct (clock L (world s4)) as [t4 w4]. discriminate.
Qed.

End Embedder.

(** ** The further properties in the small world *)

Lemma build_without_sources_witness :
  exists s', build_index true (Toy.pipeline, ToyFiles.nowhere)
             = (inl EmptyCorpusError, (Toy.pipeline, s')).
Proof.
  apply (@build_without_sources Toy.lib Toy.pipeline ToyFiles.nowhere).
  intros d _. reflexivity.
Defined.

Lemma loaded_is_loaded : Forall loaded_document ToyFiles.loaded.
Proof.
  repeat constructor.
  - exists (py "  scene = Scene()  "), (py "docs/a.py"), (py "a.py"), (py ".py"), (py "docs").
    split; [reflexivity|]. split; [reflexivity|now left].
  - exists (py "scene tutorial"), (py "docs/b.md"), (py "b.md"), (py ".md"), (py "docs").
    split; [reflexivity|]. split; [reflexivity|now right].
Qed.

Lemma loaded_documents_are_chunked_witness :
  exists chunks s',
    preprocess_documents ToyFiles.loaded Toy.fresh = (inr chunks, s') /\
    length chunks = length ToyFiles.loaded /\
    (forall j doc,
       nth_error ToyFiles.loaded j = Some doc ->
       exists chunk metadata original,
         nth_error chunks j = Some chunk /\
         dict_get (py "metadata") chunk = Some (PDict metadata) /\
         dict_get (py "metadata") doc = Some (PDict original) /\
         dict_get (py "chunk_id") metadata = Some (PInt (Z.of_nat j)) /\
         dict_get (py "path") metadata = dict_get (py "path") original /\
         dict_get (py "filename") metadata = dict_get (py "filename") original).
Proof.
  apply (@loaded_documents_are_chunked Toy.lib ToyFiles.loaded Toy.fresh).
  exact loaded_is_loaded.
Defined.

Lemma chunked_is_embeddable : Forall embeddable ToyFiles.chunked.
Proof.
  repeat constructor; eexists _, _, _, _, _; repeat split; reflexivity.
Qed.

Lemma create_vector_store_outcome_witness :
  exists r s' opened w1,
    create_vector_store (embedder Toy.pipeline) ToyFiles.chunked Toy.fresh = (r, s') /\
    PersistentClient Toy.lib (embedder_persist_directory (embedder Toy.pipeline))
      (snd (clock Toy.lib (world Toy.fresh)))
    = (opened, w1) /\
    match opened with
    | inl e => r = inl e
    | inr client =>
        exists fetched w2 bound w3,
          get_collection Toy.lib client (collection_name (embedder Toy.pipeline)) w1
          = (fetched, w2) /\
          match fetched with
          | inr collection => bound = inr collection /\ w3 = w2
          | inl _ =>
              create_collection Toy.lib client (collection_name (embedder Toy.pipeline)) w2
              = (bound, w3)
          end /\
          match bound with
          | inl e => r = inl e
          | inr collection =>
              exists w4,
                from_documents Toy.lib (map llama_document ToyFiles.chunked) collection w3
                = (r, w4)
          end
    end.
Proof.
  destruct (@create_vector_store_outcome Toy.lib (embedder Toy.pipeline) ToyFiles.chunked
              Toy.fresh
              (snd (create_vector_store (embedder Toy.pipeline) ToyFiles.chunked Toy.fresh))
              (fst (create_vector_store (embedder Toy.pipeline) ToyFiles.chunked Toy.fresh))
              chunked_is_embeddable)
    as (opened & w1 & Hopen & Hrest).
  - vm_compute. reflexivity.
  - eexists _, _, opened, w1. split; [vm_compute; reflexivity|]. split; [exact Hopen|].
    exact Hrest.
Defined.

Lemma forced_build_failures_witness :
  exists e ps',
    build_index true (Toy.pipeline, Toy.barren) = (inl e, ps') /\
    (e = EmptyCorpusError \/ library_raises Toy.lib e).
Proof.
  eexists _, _. split; [vm_compute; reflexivity|].
  eapply (@forced_build_failures Toy.lib Toy.pipeline [py "docs"; py "src"] Toy.barren).
  - reflexivity.
  - vm_compute. reflexivity.
Defined.

Lemma build_index_serves_witness :
  exists ps',
    build_index true (Toy.pipeline, Toy.fresh) = (inr tt, ps') /\ serving (fst ps').
Proof.
  eexists. split; [vm_compute; reflexivity|].
  eapply (@build_index_serves Toy.lib true Toy.pipeline Toy.fresh).
  vm_compute. reflexivity.
Defined.

Lemma build_index_keeps_config_witness :
  exists r ps',
    build_index false (Toy.pipeline, Toy.barren) = (r, ps') /\
    same_config (fst ps') Toy.pipeline.
Proof.
  eexists _, _. split; [vm_compute; reflexivity|].
  eapply (@build_index_keeps_config Toy.lib false Toy.pipeline Toy.barren).
  vm_compute. reflexivity.
Defined.

Lemma build_reuses_index_witness :
  exists idx rr s',
    build_index false (Toy.pipeline, ToyFiles.persisted)
    = (inr tt, (with_retriever (with_index Toy.pipeline idx) rr, s')).
Proof.
  edestruct (@build_reuses_index Toy.lib Toy.pipeline ToyFiles.persisted) as (s' & H & _).
  - vm_compute. reflexivity.
  - vm_compute. reflexivity.
  - vm_compute. reflexivity.
  - eexists _, _, s'. exact H.
Defined.

Lemma query_leaves_pipeline_witness :
  exists r ps',
    query (py "scene") false (fst Toy.ready, snd Toy.ready) = (r, ps') /\
    fst ps' = fst Toy.ready.
Proof.
  eexists _, _. split; [vm_compute; reflexivity|].
  eapply (@query_leaves_pipeline Toy.lib (fst Toy.ready) (snd Toy.ready) (py "scene") false).
  vm_compute. reflexivity.
Defined.

Lemma query_failure_logs_api_key_witness :
  exists e s2,
    query (py "scene") true (fst ToyFiles.unscored_ready, snd ToyFiles.unscored_ready)
    = (inl e,
       (fst ToyFiles.unscored_ready,
        {| world := world s2;
           logged := logged s2 ++
                     [{| levelname := py "error"; phase := py "pipeline";
                         message := lit "Query processing failed: " ++ exn_str e ++ lit " "
                                    ++ [FStr (PStr (py "sk-secret"))] |}] |})).
Proof.
  eexists _, _.
  eapply (@query_failure_logs_api_key ToyFiles.lib_unscored
            (fst ToyFiles.unscored_ready) (snd ToyFiles.unscored_ready)).
  - vm_compute. reflexivity.
  - vm_compute. reflexivity.
  - reflexivity.
Defined.

Lemma retrieve_documents_needs_scores_witness :
  exists s',
    retrieve_documents ToyFiles.scoreless (py "scene") ToyFiles.unscored_start
    = (inl (TypeError (lit "unsupported format string passed to "
                       ++ [FLit (py "NoneType")] ++ lit ".__format__")), s').
Proof.
  eapply (@retrieve_documents_needs_scores ToyFiles.lib_unscored ToyFiles.scoreless
            (py "scene") ToyFiles.unscored_start).
  - vm_compute. reflexivity.
  - left. reflexivity.
Defined.

Lemma retrieve_documents_shape_witness :
  exists res s' nodes w rows,
    retrieve_documents ToyFiles.two_best (py "scene") Toy.fresh = (inr res, s') /\
    vector_search Toy.lib Toy.twice 2 (py "scene") (snd (clock Toy.lib (world Toy.fresh)))
    = (inr nodes, w) /\
    dict_get (py "query") res = Some (PStr (py "scene")) /\
    dict_get (py "results") res = Some (PList (map PDict rows)) /\
    dict_get (py "total_results") res = Some (PInt (Z.of_nat (length nodes))) /\
    length rows = length nodes /\
    (forall i node,
       nth_error nodes i = Some node ->
       exists row,
         nth_error rows i = Some row /\
         dict_get (py "content") row = Some (PStr (node_text node)) /\
         dict_get (py "metadata") row = Some (PDict (node_metadata node))).
Proof.
  destruct (@retrieve_documents_shape Toy.lib ToyFiles.two_best (py "scene") Toy.fresh
              (snd (retrieve_documents ToyFiles.two_best (py "scene") Toy.fresh))
              (match fst (retrieve_documents ToyFiles.two_best (py "scene") Toy.fresh) with
               | inr res => res
               | inl _ => []
               end))
    as (nodes & w & rows & H).
  - vm_compute. reflexivity.
  - eexists _, _, nodes, w, rows. split; [vm_compute; reflexivity|]. exact H.
Defined.



Lemma query_documents_refuses_blank_witness :
  query_documents ToyFiles.blank_request (Toy.pipeline, Toy.fresh)
  = (inl (HTTPException 400 (lit "Query cannot be empty")),
     (Toy.pipeline,
      {| world := snd (clock Toy.lib (world Toy.fresh));
         logged := logged Toy.fresh ++
                   [{| levelname := py "info"; phase := py "api";
                       message := lit "Received query request: '"
                                  ++ abbreviated (request_query ToyFiles.blank_request)
                                  ++ lit "'" |}] |})).
Proof.
  apply (@query_documents_refuses_blank Toy.lib Toy.pipeline Toy.fresh ToyFiles.blank_request).
  repeat constructor.
Defined.

Lemma query_documents_before_build_witness :
  exists s',
    query_documents (ToyFiles.scene_request false) (Toy.pipeline, Toy.fresh)
    = (inl (HTTPException 500 (exn_str NotInitializedError)), (Toy.pipeline, s')).
Proof.
  apply (@query_documents_before_build Toy.lib Toy.pipeline Toy.fresh
           (ToyFiles.scene_request false)).
  - reflexivity.
  - vm_compute. discriminate.
Defined.

Lemma query_documents_generated_witness :
  exists out ps' rr candidates w answer w2,
    query_documents (ToyFiles.scene_request false) (fst Toy.ready, snd Toy.ready)
    = (inr out, ps') /\
    retriever (fst Toy.ready) = Some rr /\
    vector_search Toy.lib (vir_index (engine_retriever (query_engine rr)))
      (similarity_top_k (engine_retriever (query_engine rr))) (py "scene")
      (snd (clock Toy.lib (snd (clock Toy.lib (snd (clock Toy.lib (world (snd Toy.ready))))))))
    = (inr candidates, w) /\
    synthesize Toy.lib (response_synthesizer (query_engine rr)) (py "scene")
      (fold_left (fun ns p => postprocess_nodes p ns)
         (node_postprocessors (query_engine rr)) candidates) w
    = (inr answer, w2) /\
    response_query out = PStr (py "scene") /\
    response_response out = PStr answer /\
    response_sources out
    = PList (map PDict (map source_entry
               (fold_left (fun ns p => postprocess_nodes p ns)
                  (node_postprocessors (query_engine rr)) candidates))) /\
    response_retrieval_time out = PFloat 0%float /\
    dict_get (py "total_results") (response_metadata out)
    = Some (PInt (Z.of_nat (length (fold_left (fun ns p => postprocess_nodes p ns)
                                      (node_postprocessors (query_engine rr)) candidates)))) /\
    dict_get (py "response_length") (response_metadata out)
    = Some (PInt (Z.of_nat (length answer))).
Proof.
  destruct (query_documents (ToyFiles.scene_request false) (fst Toy.ready, snd Toy.ready))
    as [[e|out] ps'] eqn:E; [vm_compute in E; discriminate E|].
  destruct (@query_documents_generated Toy.lib (fst Toy.ready) (snd Toy.ready)
              (ToyFiles.scene_request false) out ps' eq_refl E)
    as (rr & candidates & w & answer & w2 & H).
  exists out, ps', rr, candidates, w, answer, w2. split; [reflexivity|exact H].
Defined.

Lemma query_documents_retrieved_witness :
  exists out ps' rr nodes w,
    query_documents (ToyFiles.scene_request true) (fst Toy.ready, snd Toy.ready)
    = (inr out, ps') /\
    retriever (fst Toy.ready) = Some rr /\
    vector_search Toy.lib (vir_index (vector_retriever rr))
      (similarity_top_k (vector_retriever rr)) (py "scene")
      (snd (clock Toy.lib (snd (clock Toy.lib (snd (clock Toy.lib (world (snd Toy.ready))))))))
    = (inr nodes, w) /\
    response_query out = PStr (py "scene") /\
    response_response out = PNone /\
    response_sources out
    = PList (map PDict (map (fun p => node_data (fst p) (snd p)) (enumerate nodes))) /\
    dict_get (py "total_results") (response_metadata out)
    = Some (PInt (Z.of_nat (length nodes))) /\
    dict_get (py "response_length") (response_metadata out) = Some (PInt 0).
Proof.
  destruct (query_documents (ToyFiles.scene_request true) (fst Toy.ready, snd Toy.ready))
    as [[e|out] ps'] eqn:E; [vm_compute in E; discriminate E|].
  destruct (@query_documents_retrieved Toy.lib (fst Toy.ready) (snd Toy.ready)
              (ToyFiles.scene_request true) out ps' eq_refl E)
    as (rr & nodes & w & H).
  exists out, ps', rr, nodes, w. split; [reflexivity|exact H].
Defined.

Lemma search_documents_truncates_witness :
  exists out ps' rr nodes w,
    search_documents (py "scene") 1 (fst Toy.ready, snd Toy.ready) = (inr out, ps') /\
    retriever (fst Toy.ready) = Some rr /\
    vector_search Toy.lib (vir_index (vector_retriever rr))
      (similarity_top_k (vector_retriever rr)) (py "scene")
      (snd (clock Toy.lib (snd (clock Toy.lib (world (snd Toy.ready))))))
    = (inr nodes, w) /\
    dict_get (py "query") out = Some (PStr (py "scene")) /\
    dict_get (py "results") out
    = Some (PList (py_prefix 1
              (map PDict (map (fun p => node_data (fst p) (snd p)) (enumerate nodes))))) /\
    dict_get (py "total_found") out = Some (PInt (Z.of_nat (length nodes))) /\
    ((0 <= 1)%Z ->
     Z.of_nat (length (py_prefix 1
                 (map PDict (map (fun p => node_data (fst p) (snd p)) (enumerate nodes)))))
     = Z.min 1 (Z.of_nat (length nodes))).
Proof.
  destruct (search_documents (py "scene") 1 (fst Toy.ready, snd Toy.ready))
    as [[e|out] ps'] eqn:E; [vm_compute in E; discriminate E|].
  destruct (@search_documents_truncates Toy.lib (fst Toy.ready) (snd Toy.ready)
              (py "scene") 1 out ps' E)
    as (rr & nodes & w & H).
  exists out, ps', rr, nodes, w. split; [reflexivity|exact H].
Defined.

Lemma lifespan_startup_outcome_witness :
  exists r ps',
    @lifespan_startup Toy.lib (Toy.pipeline, Toy.fresh) = (r, ps') /\
    (r = inr tt -> serving (fst ps')) /\
    (forall e, r = inl e ->
       exists s0 ps1, build_index true (Toy.pipeline, s0) = (inl e, ps1) /\
                      fst ps' = fst ps1).
Proof.
  eexists _, _. split; [vm_compute; reflexivity|].
  eapply (@lifespan_startup_outcome Toy.lib Toy.pipeline Toy.fresh).
  vm_compute. reflexivity.
Defined.

Lemma get_stats_reports_witness :
  exists stats,
    get_stats ToyFiles.directories (fst Toy.ready, snd Toy.ready)
    = (inr stats, (fst Toy.ready, snd Toy.ready)) /\
    dict_get (py "retriever_ready") stats = Some (PBool true) /\
    dict_get (py "vector_store_size") stats = Some (PInt 4096).
Proof.
  destruct (get_stats ToyFiles.directories (fst Toy.ready, snd Toy.ready))
    as [[e|stats] ps'] eqn:E; [vm_compute in E; discriminate E|].
  destruct (@get_stats_reports Toy.lib ToyFiles.directories (fst Toy.ready) (snd Toy.ready)
              stats ps' E) as (-> & _ & _ & _ & _).
  exists stats. split; [reflexivity|].
  vm_compute in E. injection E as <-. split; reflexivity.
Defined.

Lemma retrieve_documents_failures_witness :
  exists e s',
    retrieve_documents ToyFiles.negative (py "scene") Toy.fresh = (inl e, s') /\
    (exists before,
       logged s' = before ++ [{| levelname := py "error"; phase := py "retrieval";
                                 message := lit "Retrieval failed: " ++ exn_str e |}]) /\
    ((exists w,
        vector_search Toy.lib (vir_index (vector_retriever ToyFiles.negative))
          (similarity_top_k (vector_retriever ToyFiles.negative)) (py "scene")
          (snd (clock Toy.lib (world Toy.fresh)))
        = (inl e, w)) \/
     (exists nodes w msg,
        vector_search Toy.lib (vir_index (vector_retriever ToyFiles.negative))
          (similarity_top_k (vector_retriever ToyFiles.negative)) (py "scene")
          (snd (clock Toy.lib (world Toy.fresh)))
        = (inr nodes, w) /\
        e = TypeError msg /\
        (Exists (fun node => node_score node = None) nodes \/
         exists i node,
           (i < 3)%nat /\ nth_error nodes i = Some node /\
           forall t, node_title i node <> PStr t))).
Proof.
  eexists _, _. split; [vm_compute; reflexivity|].
  eapply (@retrieve_documents_failures Toy.lib ToyFiles.negative (py "scene") Toy.fresh).
  vm_compute. reflexivity.
Defined.
